(** * Resident directory backend: mutation and audit-trail pipeline

    A shallow embedding of the resident repository
    ([src/api/repositories/residents.py]), the audit recorder
    ([src/api/core/audit.py]) and the resident routes
    ([src/api/routes/residents.py]), followed by the properties of the
    mutation + audit pipeline, of the listing order and of the CSV
    import/export engine. *)

From Stdlib Require Import ZArith Ascii String.
From Stdlib Require Import DecimalString DecimalZ DecimalPos.
From Stdlib Require Import Sorting.Sorted OrdersEx.
From stdpp Require Import base option list sorting gmap strings.

Open Scope Z_scope.

(** ** Text primitives of the Python runtime used by the routes *)

Module PyStr.

(** [str.isspace] on the ASCII range: TAB, LF, VT, FF, CR, FS, GS, RS, US
    and SPACE.  Text is modelled on that range only: beyond it [str.strip]
    also removes U+0085, U+00A0 and the other Unicode white space. *)
Definition is_space (c : ascii) : bool :=
  let n := nat_of_ascii c in
  ((9 <=? n) && (n <=? 13) || (28 <=? n) && (n <=? 32))%nat.

Fixpoint lstrip (s : string) : string :=
  match s with
  | EmptyString => EmptyString
  | String c t => if is_space c then lstrip t else s
  end.

Fixpoint rstrip (s : string) : string :=
  match s with
  | EmptyString => EmptyString
  | String c t =>
      match rstrip t with
      | EmptyString =>
          if is_space c then EmptyString else String c EmptyString
      | t' => String c t'
      end
  end.

(** [s.strip()] *)
Definition strip (s : string) : string := rstrip (lstrip s).

Definition lower_char (c : ascii) : ascii :=
  let n := nat_of_ascii c in
  if ((65 <=? n) && (n <=? 90))%nat then ascii_of_nat (n + 32) else c.

(** [s.lower()] on ASCII letters. *)
Fixpoint lower (s : string) : string :=
  match s with
  | EmptyString => EmptyString
  | String c t => String (lower_char c) (lower t)
  end.

(** Truthiness of a string: [bool(s)]. *)
Definition truthy (s : string) : bool :=
  match s with EmptyString => false | _ => true end.

(** [x or ""] for an optional string. *)
Definition or_empty (o : option string) : string := default EmptyString o.

(** [s or None] *)
Definition or_none (s : string) : option string :=
  if truthy s then Some s else None.

(** [str(n)] for an integer. *)
Definition str_int (z : Z) : string := NilEmpty.string_of_int (Z.to_int z).

(** [str(b)] for a boolean. *)
Definition str_bool (b : bool) : string := if b then "True" else "False".

Definition is_digit (c : ascii) : bool :=
  let n := nat_of_ascii c in ((48 <=? n) && (n <=? 57))%nat.

(** The digit part of an integer literal: digits, with single underscores
    allowed between two digits. *)
Fixpoint literal_ok (prev_digit : bool) (s : string) : bool :=
  match s with
  | EmptyString => prev_digit
  | String c t =>
      if is_digit c then literal_ok true t
      else if Ascii.eqb c "_" then prev_digit && literal_ok false t
      else false
  end.

Fixpoint drop_underscores (s : string) : string :=
  match s with
  | EmptyString => EmptyString
  | String c t =>
      if Ascii.eqb c "_" then drop_underscores t
      else String c (drop_underscores t)
  end.

Definition unsigned_literal (s : string) : option Z :=
  if literal_ok false s
  then Z.of_uint <$> NilEmpty.uint_of_string (drop_underscores s)
  else None.

(** [int(s)] on an already stripped ASCII string: [None] stands for the
    [ValueError] raised on a malformed literal.  Beyond ASCII, [int] also
    reads the other Unicode decimal digits, which are not modelled. *)
Definition int (s : string) : option Z :=
  match s with
  | String "-" t => Z.opp <$> unsigned_literal t
  | String "+" t => unsigned_literal t
  | _ => unsigned_literal s
  end.

End PyStr.

(** ** Data model *)

(** Timestamps ([datetime] values, [NOW()]) are points on an integer time
  line. *)
Definition Time := Z.

(** A resident as returned by [_row_to_resident]: one row of the
  [residents] table. *)
Module Resident.
Record t := mk {
  id : Z;
  full_name : string;
  unit : string;
  building : option string;
  floor : option string;
  phone : option string;
  email : option string;
  photo_url : option string;
  notes : option string;
  is_active : bool;
  created_at : Time;
  updated_at : Time;
  deactivated_at : option Time;
}.

#[global] Instance eq_dec : EqDecision t.
Proof. solve_decision. Defined.
End Resident.

(** The [data] dict handed to [create_resident]: the nine columns named by
  its INSERT statement. *)
Module NewResident.
Record t := mk {
  full_name : string;
  unit : string;
  building : option string;
  floor : option string;
  phone : option string;
  email : option string;
  photo_url : option string;
  notes : option string;
  is_active : bool;
}.
End NewResident.

(** The [patch] dict handed to [update_resident].  A key of the dict is
  either absent ([None]) or present with a value ([Some v]); the value
  itself may be Python's [None] (SQL NULL), as [ResidentUpdate] declares
  every field [Optional]. *)
Module Patch.
Record t := mk {
  full_name : option (option string);
  unit : option (option string);
  building : option (option string);
  floor : option (option string);
  phone : option (option string);
  email : option (option string);
  notes : option (option string);
  is_active : option (option bool);
}.

Definition empty : t := mk None None None None None None None None.

(** [not patch]: the dict has no key. *)
Definition is_empty (p : t) : bool :=
  match p with
  | mk None None None None None None None None => true
  | _ => false
  end.
End Patch.

(** [CurrentUser] of [src/api/core/auth.py]. *)
Module CurrentUser.
Record t := mk {
  id : Z;
  email : string;
  full_name : option string;
  roles : list string;
}.
End CurrentUser.

(** The [metadata] dicts that the routes attach to audit entries. *)
Inductive Metadata :=
| MetaFilename (filename : string)
| MetaRow (row : Z)
| MetaFilters (q building floor unit : option string) (is_active : option bool)
| MetaCounts (created updated skipped : Z).

(** One row of [audit_log], with the nine columns that [write_audit_log]
  inserts; the serial [id] of an entry is its position in the table.
  [before] and [after] hold the snapshot handed to [json.dumps]. *)
Module AuditEntry.
Record t := mk {
  actor_user_id : option Z;
  actor_email : option string;
  action : string;
  entity_type : option string;
  entity_id : option string;
  before : option Resident.t;
  after : option Resident.t;
  metadata : option Metadata;
  created_at : Time;
}.
End AuditEntry.

(** The two tables.  [next_id] is the sequence behind [residents.id]. *)
Record Store := mkStore {
  residents : gmap Z Resident.t;
  next_id : Z;
  audit_log : list AuditEntry.t;
}.

(** An [AsyncSession]: the committed database, the uncommitted view of the
    running transaction, the transaction's [NOW()] and the wall clock read
    by [_now_utc]. *)
Record Session := mkSession {
  durable : Store;
  txn : Store;
  db_now : Time;
  utc_now : Time;
}.

Definition with_txn (s : Session) (t : Store) : Session :=
  mkSession (durable s) t (db_now s) (utc_now s).

(** ** Exceptions and the monad of request handlers *)

Inductive Exn :=
| HTTPException (status_code : Z) (detail : string)
| ValueError (msg : string)
| TypeError (msg : string)
| CsvError (msg : string)
| DBAPIError (msg : string).

(** [str(e)], as interpolated into the import's error lines. *)
Definition str_exn (e : Exn) : string :=
  match e with
  | HTTPException c d => PyStr.str_int c +:+ ": " +:+ d
  | ValueError m => m
  | TypeError m => m
  | CsvError m => m
  | DBAPIError m => m
  end.

Inductive Result (A : Type) :=
| Raised (e : Exn)
| Returned (a : A).
Arguments Raised {A} e.
Arguments Returned {A} a.

(** A computation over a state [S] that returns or raises. *)
Definition M (S A : Type) : Type := S → Result A * S.

#[global] Instance M_ret {S} : MRet (M S) := λ A a s, (Returned a, s).
#[global] Instance M_bind {S} : MBind (M S) := λ A B f m s,
  match m s with
  | (Returned a, s') => f a s'
  | (Raised e, s') => (Raised e, s')
  end.

Definition raise {S A} (e : Exn) : M S A := λ s, (Raised e, s).
Definition gets {S A} (f : S → A) : M S A := λ s, (Returned (f s), s).
Definition modify {S} (f : S → S) : M S () := λ s, (Returned (), f s).

(** [try: body except Exception as e: handler(e)] *)
Definition try_except {S A} (body : M S A) (handler : Exn → M S A) : M S A :=
  λ s, match body s with
       | (Raised e, s') => handler e s'
       | r => r
       end.

(** ** Resident repository ([src/api/repositories/residents.py]) *)

(** [SELECT * FROM residents WHERE id = :id] *)
Definition get_resident (resident_id : Z) : M Session (option Resident.t) :=
  gets (λ s, residents (txn s) !! resident_id).

(** *** The ORDER BY clause of [list_residents]

    [ORDER BY is_active DESC, building NULLS LAST, floor NULLS LAST,
    unit NULLS LAST, full_name ASC].  Text is compared character by
    character (the order of the C collation). *)

Definition cmp_text : string → string → comparison := String_as_OT.compare.

(** [DESC] on a boolean: [TRUE] sorts before [FALSE]. *)
Definition cmp_bool_desc (a b : bool) : comparison :=
  match a, b with
  | true, false => Lt
  | false, true => Gt
  | _, _ => Eq
  end.

(** [ASC NULLS LAST] on a nullable column. *)
Definition cmp_nulls_last {A} (cmp : A → A → comparison)
    (a b : option A) : comparison :=
  match a, b with
  | Some x, Some y => cmp x y
  | Some _, None => Lt
  | None, Some _ => Gt
  | None, None => Eq
  end.

(** The next sort key decides only when the previous ones tie. *)
Definition lex (c1 c2 : comparison) : comparison :=
  match c1 with Eq => c2 | _ => c1 end.

Definition order_by (a b : Resident.t) : comparison :=
  lex (cmp_bool_desc (Resident.is_active a) (Resident.is_active b))
 (lex (cmp_nulls_last cmp_text (Resident.building a) (Resident.building b))
 (lex (cmp_nulls_last cmp_text (Resident.floor a) (Resident.floor b))
 (lex (cmp_text (Resident.unit a) (Resident.unit b))
      (cmp_text (Resident.full_name a) (Resident.full_name b))))).

Definition order_le (a b : Resident.t) : Prop := order_by a b ≠ Gt.

#[global] Instance order_le_dec a b : Decision (order_le a b).
Proof. unfold order_le. solve_decision. Defined.

Section Listing.

(** PostgreSQL's [text ILIKE pattern]; its pattern language and case
    folding belong to the database. *)
Variable ilike : string → string → bool.

(** An optional filter applies when it is truthy ([if q:], [if building:]). *)
Definition given (o : option string) (test : string → bool) : bool :=
  match o with
  | Some v => if PyStr.truthy v then test v else true
  | None => true
  end.

(** The WHERE clause assembled by [list_residents]. *)
Definition where_clause (q building floor unit : option string)
    (is_active : option bool) (r : Resident.t) : bool :=
  given q (λ q,
    let pat := "%" +:+ q +:+ "%" in
    ilike (Resident.full_name r) pat
    || ilike (Resident.unit r) pat
    || ilike (default "" (Resident.email r)) pat
    || ilike (default "" (Resident.phone r)) pat)
  && given building (λ b, bool_decide (Resident.building r = Some b))
  && given floor (λ f, bool_decide (Resident.floor r = Some f))
  && given unit (λ u, bool_decide (Resident.unit r = u))
  && match is_active with
     | Some a => bool_decide (Resident.is_active r = a)
     | None => true
     end.

(** The rows selected and ordered, before LIMIT and OFFSET.  The ORDER BY
    key has no unique column, and the database may order the rows that tie
    on it differently in each query; the sort below stands for the order
    of one query, and nothing is stated that relates the ties of two. *)
Definition select_ordered (q building floor unit : option string)
    (is_active : option bool) (t : Store) : list Resident.t :=
  merge_sort order_le
    (filter (λ r, where_clause q building floor unit is_active r = true)
            ((map_to_list (residents t)).*2)).

(** [list_residents]: the page of matching residents and their total
    number.  The database rejects a negative LIMIT or OFFSET. *)
Definition list_residents (q building floor unit : option string)
    (is_active : option bool) (limit offset : Z)
    : M Session (list Resident.t * Z) := λ s,
  let rows := select_ordered q building floor unit is_active (txn s) in
  if (limit <? 0) || (offset <? 0)
  then (Raised (DBAPIError "LIMIT and OFFSET must not be negative"), s)
  else (Returned (take (Z.to_nat limit) (drop (Z.to_nat offset) rows),
                  Z.of_nat (length rows)), s).

End Listing.

(** Modelled from the spec: the [residents] table, whose DDL is not in the
    repository.  The INSERT of [create_resident] names nine columns; the
    others take their defaults: [id] the next value of the sequence,
    [created_at] and [updated_at] the current time ("assigns id,
    timestamps"), [deactivated_at] NULL (an optional field). *)
Definition insert_row (now : Time) (data : NewResident.t) (t : Store)
    : Resident.t :=
  Resident.mk (next_id t)
    (NewResident.full_name data) (NewResident.unit data)
    (NewResident.building data) (NewResident.floor data)
    (NewResident.phone data) (NewResident.email data)
    (NewResident.photo_url data) (NewResident.notes data)
    (NewResident.is_active data) now now None.

(** [INSERT INTO residents (...) VALUES (...) RETURNING *] *)
Definition create_resident (data : NewResident.t) : M Session Resident.t :=
  λ s,
  let t := txn s in
  let row := insert_row (db_now s) data t in
  (Returned row,
   with_txn s (mkStore (<[next_id t := row]> (residents t))
                       (next_id t + 1) (audit_log t))).

(** [SET key = :key] on a nullable column, for a key of the patch. *)
Definition set_nullable {A} (p : option (option A)) (old : option A)
    : option A :=
  default old p.

(** Modelled from the spec: [full_name] and [unit] are mandatory and
    [is_active] is a boolean, so these columns are NOT NULL; [SET key = NULL]
    on one of them fails the statement ([None]). *)
Definition set_required {A} (p : option (option A)) (old : A) : option A :=
  match p with
  | None => Some old
  | Some None => None
  | Some (Some v) => Some v
  end.

(** The CASE expression of the UPDATE: parameters [:is_active_present] and
    [:new_is_active] (NULL when the patch holds [None]), and the row's
    current [deactivated_at]. *)
Definition deactivated_at_case (now : Time) (is_active_present : bool)
    (new_is_active : option bool) (old : option Time) : option Time :=
  match is_active_present, new_is_active with
  | true, Some false => Some now
  | true, Some true => None
  | _, _ => old
  end.

(** The SET list of [update_resident] applied to one row. *)
Definition update_row (now : Time) (patch : Patch.t) (r : Resident.t)
    : option Resident.t :=
  full_name ← set_required (Patch.full_name patch) (Resident.full_name r);
  unit ← set_required (Patch.unit patch) (Resident.unit r);
  is_active ← set_required (Patch.is_active patch) (Resident.is_active r);
  Some (Resident.mk (Resident.id r) full_name unit
    (set_nullable (Patch.building patch) (Resident.building r))
    (set_nullable (Patch.floor patch) (Resident.floor r))
    (set_nullable (Patch.phone patch) (Resident.phone r))
    (set_nullable (Patch.email patch) (Resident.email r))
    (Resident.photo_url r)
    (set_nullable (Patch.notes patch) (Resident.notes r))
    is_active (Resident.created_at r) (Resident.updated_at r)
    (deactivated_at_case now
       (bool_decide (is_Some (Patch.is_active patch)))
       (default (Some true) (Patch.is_active patch))
       (Resident.deactivated_at r))).

(** [update_resident]: an empty patch reads the resident; otherwise one
    UPDATE ... WHERE id = :id RETURNING *. *)
Definition update_resident (resident_id : Z) (patch : Patch.t)
    : M Session (option Resident.t) :=
  if Patch.is_empty patch then get_resident resident_id
  else λ s,
    match residents (txn s) !! resident_id with
    | None => (Returned None, s)
    | Some r =>
        match update_row (db_now s) patch r with
        | None =>
            (Raised (DBAPIError "null value violates not-null constraint"), s)
        | Some r' =>
            (Returned (Some r'),
             with_txn s (mkStore (<[resident_id := r']> (residents (txn s)))
                                 (next_id (txn s)) (audit_log (txn s))))
        end
    end.

Definition with_photo_url (photo_url : string) (r : Resident.t) : Resident.t :=
  Resident.mk (Resident.id r) (Resident.full_name r) (Resident.unit r)
    (Resident.building r) (Resident.floor r) (Resident.phone r)
    (Resident.email r) (Some photo_url) (Resident.notes r)
    (Resident.is_active r) (Resident.created_at r) (Resident.updated_at r)
    (Resident.deactivated_at r).

(** [UPDATE residents SET photo_url = :photo_url WHERE id = :id RETURNING *] *)
Definition set_resident_photo_url (resident_id : Z) (photo_url : string)
    : M Session (option Resident.t) := λ s,
  match residents (txn s) !! resident_id with
  | None => (Returned None, s)
  | Some r =>
      let r' := with_photo_url photo_url r in
      (Returned (Some r'),
       with_txn s (mkStore (<[resident_id := r']> (residents (txn s)))
                           (next_id (txn s)) (audit_log (txn s))))
  end.

(** ** Audit recorder ([src/api/core/audit.py]) *)

(** What [json.dumps] does with a snapshot: [None] when it serialises it,
    or the message of the [TypeError] that it raises. *)
Abbreviation JsonDumps := (Resident.t → option string).

Section Recorder.

(** [json.dumps] is called without [default=], so it raises a [TypeError]
    on a value that is not JSON, such as the [datetime] that the driver
    returns for a timestamp column.  A snapshot carries [created_at],
    [updated_at] and [deactivated_at] as the driver returned them; what
    the first two are is decided by the column types, which are not in the
    repository, so the outcome is a parameter.  ([deactivated_at] is
    assigned [NOW()] by [update_resident], so a snapshot that has a
    deactivation time is one that [json.dumps] rejects.) *)
Variable json_error : JsonDumps.

(** [None if snapshot is None else json.dumps(snapshot)] *)
Definition json_dumps (snapshot : option Resident.t) : M Session () :=
  match snapshot with
  | None => mret ()
  | Some r =>
      match json_error r with
      | Some msg => raise (TypeError msg)
      | None => mret ()
      end
  end.

(** [write_audit_log]: the parameters of the statement are built first,
    [before] and then [after] going through [json.dumps]; then one INSERT
    into [audit_log].  The [metadata] dicts of the routes hold text,
    integers, booleans and [None], which [json.dumps] serialises. *)
Definition write_audit_log (actor : option CurrentUser.t) (action : string)
    (entity_type entity_id : option string)
    (before after : option Resident.t) (metadata : option Metadata)
    : M Session () :=
  json_dumps before;;
  json_dumps after;;
  modify (λ s,
    let entry :=
      AuditEntry.mk (CurrentUser.id <$> actor) (CurrentUser.email <$> actor)
        action entity_type entity_id before after metadata (utc_now s) in
    with_txn s (mkStore (residents (txn s)) (next_id (txn s))
                        (audit_log (txn s) ++ [entry]))).

End Recorder.

Arguments write_audit_log : simpl never.

(** [db.commit()] *)
Definition commit : M Session () := λ s,
  (Returned (), mkSession (txn s) (txn s) (db_now s) (utc_now s)).

(** ** Resident routes ([src/api/routes/residents.py]) *)

(** The fields of [Settings] that the routes read. *)
Record Settings := mkSettings {
  upload_dir : string;
  public_base_url : string;
}.

(** The request body [ResidentCreate]. *)
Module ResidentCreate.
Record t := mk {
  full_name : string;
  unit : string;
  building : option string;
  floor : option string;
  phone : option string;
  email : option string;
  notes : option string;
  is_active : bool;
}.
End ResidentCreate.

Definition not_found {A} : M Session A :=
  raise (HTTPException 404 "Resident not found").

Section Mutations.

Variable json_error : JsonDumps.

(** POST /residents *)
Definition residents_create (payload : ResidentCreate.t)
    (user : CurrentUser.t) : M Session Resident.t :=
  created ← create_resident
    (NewResident.mk (ResidentCreate.full_name payload)
       (ResidentCreate.unit payload) (ResidentCreate.building payload)
       (ResidentCreate.floor payload) (ResidentCreate.phone payload)
       (ResidentCreate.email payload) None (ResidentCreate.notes payload)
       (ResidentCreate.is_active payload));
  write_audit_log json_error (Some user) "CREATE_RESIDENT" (Some "resident")
    (Some (PyStr.str_int (Resident.id created))) None (Some created) None;;
  commit;;
  mret created.

(** PUT /residents/{resident_id}; [patch] is
    [payload.model_dump(exclude_unset=True)]. *)
Definition residents_update (resident_id : Z) (patch : Patch.t)
    (user : CurrentUser.t) : M Session Resident.t :=
  before ← get_resident resident_id;
  match before with
  | None => not_found
  | Some _ =>
      updated ← update_resident resident_id patch;
      match updated with
      | None => not_found
      | Some updated' =>
          write_audit_log json_error (Some user) "UPDATE_RESIDENT"
            (Some "resident")
            (Some (PyStr.str_int resident_id)) before updated None;;
          commit;;
          mret updated'
      end
  end.

Definition deactivate_patch : Patch.t :=
  Patch.mk None None None None None None None (Some (Some false)).

(** PATCH /residents/{resident_id}/deactivate *)
Definition residents_deactivate (resident_id : Z) (user : CurrentUser.t)
    : M Session (option Resident.t) :=
  before ← get_resident resident_id;
  match before with
  | None => not_found
  | Some _ =>
      updated ← update_resident resident_id deactivate_patch;
      write_audit_log json_error (Some user) "DEACTIVATE_RESIDENT"
        (Some "resident")
        (Some (PyStr.str_int resident_id)) before updated None;;
      commit;;
      mret updated
  end.

End Mutations.

Section Routes.

Variable json_error : JsonDumps.
Variable settings : Settings.

Definition _public_photo_url (filename : string) : string :=
  let base := public_base_url settings in
  if negb (PyStr.truthy base) then "/uploads/" +:+ filename
  else base +:+ "/uploads/" +:+ filename.

Definition allowed_ext : list string :=
  [".jpg"; ".jpeg"; ".png"; ".webp"; ".gif"; ""].

(** POST /residents/{resident_id}/photo.  [ext] is
    [os.path.splitext(photo.filename or "")[1].lower()] and [size] is
    [len(content)]; the write of the file under [upload_dir] is outside
    the database and is not part of the model. *)
Definition upload_photo (resident_id : Z) (ext : string) (size : Z)
    (user : CurrentUser.t) : M Session (option Resident.t) :=
  before ← get_resident resident_id;
  match before with
  | None => not_found
  | Some _ =>
      if negb (bool_decide (ext ∈ allowed_ext))
      then raise (HTTPException 400 "Unsupported file type")
      else
        let filename :=
          "resident_" +:+ PyStr.str_int resident_id
          +:+ (if PyStr.truthy ext then ext else ".jpg") in
        if 5 * 1024 * 1024 <? size
        then raise (HTTPException 400 "File too large (max 5MB)")
        else
          let photo_url := _public_photo_url filename in
          updated ← set_resident_photo_url resident_id photo_url;
          write_audit_log json_error (Some user) "UPLOAD_RESIDENT_PHOTO"
            (Some "resident")
            (Some (PyStr.str_int resident_id)) before updated
            (Some (MetaFilename filename));;
          commit;;
          mret updated
  end.

End Routes.

(** *** CSV export *)

(** A CSV record as [csv.DictWriter] takes it and [csv.DictReader] yields
    it: the text of each column, by column name.  A column that the file
    does not have, or that a short record leaves out, has no entry
    ([row.get] gives [None]). *)
Abbreviation CsvRow := (gmap string string).

Definition fieldnames : list string :=
  ["id"; "full_name"; "unit"; "building"; "floor"; "phone"; "email";
   "photo_url"; "notes"; "is_active"; "created_at"; "updated_at";
   "deactivated_at"].

Section CsvExport.

Variable json_error : JsonDumps.
Variable ilike : string → string → bool.

(** [str(d)] of a [datetime]. *)
Variable str_datetime : Time → string.

(** The writer's text for an optional value: [None] is written empty. *)
Definition cell {A} (show : A → string) (o : option A) : string :=
  from_option show "" o.

(** [writer.writerow(r)] *)
Definition writerow (r : Resident.t) : CsvRow :=
  list_to_map
    [("id", PyStr.str_int (Resident.id r));
     ("full_name", Resident.full_name r);
     ("unit", Resident.unit r);
     ("building", cell id (Resident.building r));
     ("floor", cell id (Resident.floor r));
     ("phone", cell id (Resident.phone r));
     ("email", cell id (Resident.email r));
     ("photo_url", cell id (Resident.photo_url r));
     ("notes", cell id (Resident.notes r));
     ("is_active", PyStr.str_bool (Resident.is_active r));
     ("created_at", str_datetime (Resident.created_at r));
     ("updated_at", str_datetime (Resident.updated_at r));
     ("deactivated_at", cell str_datetime (Resident.deactivated_at r))].

(** GET /residents/export.csv: the header and the records written. *)
Definition export_csv (q building floor unit : option string)
    (is_active : option bool) (user : CurrentUser.t)
    : M Session (list string * list CsvRow) :=
  '(items, _total) ← list_residents ilike q building floor unit is_active
                        100000 0;
  write_audit_log json_error (Some user) "EXPORT_CSV" (Some "resident") None
    None None
    (Some (MetaFilters q building floor unit is_active));;
  commit;;
  mret (fieldnames, writerow <$> items).

End CsvExport.

(** *** CSV import *)

(** The response [CsvImportResult]. *)
Module CsvImportResult.
Record t := mk {
  created : Z;
  updated : Z;
  skipped : Z;
  errors : list string;
}.
End CsvImportResult.

(** What [csv.DictReader] meets after the header line, in the order of the
    file: an empty line, which it passes over without yielding a record; a
    record, which stands on one line or, with line breaks inside quoted
    fields, on several; or text on which it raises [csv.Error], such as a
    field longer than the field size limit or a bare carriage return in an
    unquoted field. *)
Inductive CsvLine :=
| BlankLine
| RecordLine (row : CsvRow)
| BadLine (msg : string).

(** The local variables of [import_csv] that its loop updates, next to the
    session. *)
Record ImportState := mkImport {
  db : Session;
  created : Z;
  updated : Z;
  skipped : Z;
  errors : list string;
}.

(** A repository call made from the loop. *)
Definition on_db {A} (m : M Session A) : M ImportState A := λ st,
  let '(r, s') := m (db st) in
  (r, mkImport s' (created st) (updated st) (skipped st) (errors st)).

Definition incr_created : M ImportState () :=
  modify (λ st, mkImport (db st) (created st + 1) (updated st) (skipped st)
                         (errors st)).

Definition incr_updated : M ImportState () :=
  modify (λ st, mkImport (db st) (created st) (updated st + 1) (skipped st)
                         (errors st)).

(** The [except] branch: [skipped += 1; errors.append(f"Line {idx}: {e}")]. *)
Definition skip_row (idx : Z) (e : Exn) : M ImportState () :=
  modify (λ st, mkImport (db st) (created st) (updated st) (skipped st + 1)
                         (errors st ++
                          ["Line " +:+ PyStr.str_int idx +:+ ": "
                           +:+ str_exn e])).

(** [(row.get(key) or "").strip()] *)
Definition column (row : CsvRow) (key : string) : string :=
  PyStr.strip (PyStr.or_empty (row !! key)).

(** [(row.get(key) or "").strip() or None] *)
Definition nullable_column (row : CsvRow) (key : string) : option string :=
  PyStr.or_none (column row key).

(** The [is_active] key of the row's patch: set when the column is present
    and not blank. *)
Definition is_active_column (row : CsvRow) : option bool :=
  match row !! "is_active" with
  | Some raw =>
      if bool_decide (PyStr.strip raw ≠ "")
      then Some (bool_decide
                   (PyStr.lower (PyStr.strip raw) ∈ ["1"; "true"; "yes"; "y"]))
      else None
  | None => None
  end.

(** The [patch] dict built for a row whose name and unit are given. *)
Definition row_patch (full_name unit : string) (row : CsvRow) : Patch.t :=
  Patch.mk (Some (Some full_name)) (Some (Some unit))
    (Some (nullable_column row "building"))
    (Some (nullable_column row "floor"))
    (Some (nullable_column row "phone"))
    (Some (nullable_column row "email"))
    (Some (nullable_column row "notes"))
    (Some <$> is_active_column row).

(** [{**patch, "photo_url": None, "is_active": patch.get("is_active", True)}] *)
Definition row_insert (full_name unit : string) (row : CsvRow)
    : NewResident.t :=
  NewResident.mk full_name unit
    (nullable_column row "building") (nullable_column row "floor")
    (nullable_column row "phone") (nullable_column row "email")
    None (nullable_column row "notes")
    (default true (is_active_column row)).

(** [int(id_raw)]; the message shows the literal as [repr] does for text
    without quotes or escapes. *)
Definition parse_id (id_raw : string) : M ImportState Z :=
  match PyStr.int id_raw with
  | Some n => mret n
  | None =>
      raise (ValueError ("invalid literal for int() with base 10: '"
                         +:+ id_raw +:+ "'"))
  end.

Section CsvImport.

Variable json_error : JsonDumps.

(** The body of the [try] block for one row. *)
Definition import_row_body (user : CurrentUser.t) (idx : Z) (row : CsvRow)
    : M ImportState () :=
  let full_name := column row "full_name" in
  let unit := column row "unit" in
  if negb (PyStr.truthy full_name) || negb (PyStr.truthy unit)
  then raise (ValueError "full_name and unit are required")
  else
    let patch := row_patch full_name unit row in
    let id_raw := column row "id" in
    if PyStr.truthy id_raw then
      resident_id ← parse_id id_raw;
      before ← on_db (get_resident resident_id);
      match before with
      | None =>
          raise (ValueError ("id=" +:+ PyStr.str_int resident_id
                             +:+ " not found for update"))
      | Some _ =>
          after ← on_db (update_resident resident_id patch);
          incr_updated;;
          on_db (write_audit_log json_error (Some user)
                   "IMPORT_UPDATE_RESIDENT" (Some "resident")
                   (Some (PyStr.str_int resident_id))
                   before after (Some (MetaRow idx)))
      end
    else
      after ← on_db (create_resident (row_insert full_name unit row));
      incr_created;;
      on_db (write_audit_log json_error (Some user) "IMPORT_CREATE_RESIDENT"
               (Some "resident") (Some (PyStr.str_int (Resident.id after)))
               None (Some after) (Some (MetaRow idx))).

(** One iteration of the loop: the [try] block and its [except]. *)
Definition import_row (user : CurrentUser.t) (idx : Z) (row : CsvRow)
    : M ImportState () :=
  try_except (import_row_body user idx row) (skip_row idx).

(** [for idx, row in enumerate(reader, start=...)]: [idx] counts the
    records that the reader yields; an error of the reader is raised in
    the loop header, outside the [try]. *)
Fixpoint import_rows (user : CurrentUser.t) (idx : Z) (lines : list CsvLine)
    : M ImportState () :=
  match lines with
  | [] => mret ()
  | BlankLine :: rest => import_rows user idx rest
  | RecordLine row :: rest =>
      import_row user idx row;;
      import_rows user (idx + 1) rest
  | BadLine msg :: _ => raise (CsvError msg)
  end.

(** POST /residents/import.csv.  [content] is the decoded upload after its
    header line, or [None] when the bytes are not UTF-8. *)
Definition import_csv (content : option (list CsvLine)) (user : CurrentUser.t)
    : M Session CsvImportResult.t := λ s,
  match content with
  | None => (Raised (HTTPException 400 "CSV must be UTF-8 encoded"), s)
  | Some lines =>
      match import_rows user 2 lines (mkImport s 0 0 0 []) with
      | (Raised e, st) => (Raised e, db st)
      | (Returned _, st) =>
          (write_audit_log json_error (Some user) "IMPORT_CSV"
             (Some "resident") None None None
             (Some (MetaCounts (created st) (updated st) (skipped st)));;
           commit;;
           mret (CsvImportResult.mk (created st) (updated st) (skipped st)
                   (errors st))) (db st)
      end
  end.

End CsvImport.

(** ** A request from begin to end *)

(** [get_db_session] opens a session on the committed database and closes
    it when the handler is done: what was not committed is discarded. *)
Definition begin (d : Store) (db_now utc_now : Time) : Session :=
  mkSession d d db_now utc_now.

Definition run_request {A} (handler : M Session A) (d : Store)
    (db_now utc_now : Time) : Result A * Store :=
  let '(r, s) := handler (begin d db_now utc_now) in (r, durable s).

(** ** More text primitives, for the settings and the guards *)

Module PyText.

(** [s.startswith(prefix)] *)
Fixpoint startswith (prefix s : string) : bool :=
  match prefix, s with
  | EmptyString, _ => true
  | String a p, String b t => Ascii.eqb a b && startswith p t
  | String _ _, EmptyString => false
  end.

(** [s[n:]] *)
Fixpoint drop (n : nat) (s : string) : string :=
  match n, s with
  | O, _ => s
  | S n', String _ t => drop n' t
  | S _, EmptyString => EmptyString
  end.

(** [s.replace(old, new, 1)]: the leftmost occurrence of [old]. *)
Fixpoint replace_first (old new s : string) : string :=
  if startswith old s then new +:+ drop (String.length old) s
  else match s with
       | EmptyString => EmptyString
       | String c t => String c (replace_first old new t)
       end.

(** [s.split(sep)] for a separator of one character. *)
Fixpoint split (sep : ascii) (s : string) : list string :=
  match s with
  | EmptyString => [EmptyString]
  | String c t =>
      if Ascii.eqb c sep then EmptyString :: split sep t
      else match split sep t with
           | h :: rest => String c h :: rest
           | [] => [String c EmptyString]
           end
  end.

(** [sep.join(parts)] *)
Fixpoint join (sep : string) (parts : list string) : string :=
  match parts with
  | [] => EmptyString
  | [p] => p
  | p :: rest => p +:+ sep +:+ join sep rest
  end.

(** [s.rstrip(c)] for one character [c]. *)
Fixpoint rstrip_char (ch : ascii) (s : string) : string :=
  match s with
  | EmptyString => EmptyString
  | String c t =>
      match rstrip_char ch t with
      | EmptyString =>
          if Ascii.eqb c ch then EmptyString else String c EmptyString
      | t' => String c t'
      end
  end.

(** [int(s)] on ASCII text: white space around the literal is passed over. *)
Definition int (s : string) : option Z := PyStr.int (PyStr.strip s).

(** [x or y] on optional strings: [x] when it is not empty. *)
Definition or_else (x y : option string) : option string :=
  match x with
  | Some v => if PyStr.truthy v then Some v else y
  | None => y
  end.

(** [x or d] with a string default. *)
Definition or_default (x : option string) (d : string) : string :=
  match x with
  | Some v => if PyStr.truthy v then v else d
  | None => d
  end.

(** [repr(s)] of a string without quotes, backslashes or control
    characters. *)
Definition repr (s : string) : string := "'" +:+ s +:+ "'".

(** [repr(l)] of a list of such strings. *)
Definition repr_list (l : list string) : string :=
  "[" +:+ join ", " (repr <$> l) +:+ "]".

End PyText.

(** ** Settings ([src/api/core/config.py]) *)

(** The process environment: [os.getenv(name)] is the lookup. *)
Abbreviation Environ := (gmap string string).

(** What stops the start of the application. *)
Inductive BootExn :=
| RuntimeError (msg : string)
| BootValueError (msg : string).

(** [_split_csv] *)
Definition _split_csv (value : option string) : list string :=
  match value with
  | None => []
  | Some value =>
      if negb (PyStr.truthy value) then []
      else PyStr.strip <$>
             filter (λ v, PyStr.truthy (PyStr.strip v) = true)
                    (PyText.split "," value)
  end.

(** The dataclass [Settings], with all its fields. *)
Module AppSettings.
Record t := mk {
  allowed_origins : list string;
  allowed_methods : list string;
  allowed_headers : list string;
  cors_max_age : Z;
  jwt_secret : string;
  jwt_issuer : string;
  jwt_audience : string;
  jwt_exp_minutes : Z;
  postgres_url : string;
  upload_dir : string;
  public_base_url : string;
}.
End AppSettings.

(** [_split_csv(os.getenv(name)) or ["*"]] *)
Definition cors_list (env : Environ) (name : string) : list string :=
  match _split_csv (env !! name) with
  | [] => ["*"]
  | l => l
  end.

(** [int(os.getenv(name) or default)] *)
Definition env_int (env : Environ) (name default : string) : BootExn + Z :=
  let text := PyText.or_default (env !! name) default in
  match PyText.int text with
  | Some n => inr n
  | None =>
      inl (BootValueError ("invalid literal for int() with base 10: "
                           +:+ PyText.repr text))
  end.

(** [get_settings] *)
Definition get_settings (env : Environ) : BootExn + AppSettings.t :=
  match PyText.or_else (env !! "POSTGRES_URL") (env !! "DATABASE_URL") with
  | None =>
      inl (RuntimeError "Missing POSTGRES_URL (or DATABASE_URL) environment variable for Postgres connection.")
  | Some postgres_url =>
      if negb (PyStr.truthy postgres_url) then
        inl (RuntimeError "Missing POSTGRES_URL (or DATABASE_URL) environment variable for Postgres connection.")
      else
        match env !! "JWT_SECRET" with
        | None =>
            inl (RuntimeError "Missing JWT_SECRET environment variable for JWT signing.")
        | Some jwt_secret =>
        if negb (PyStr.truthy jwt_secret) then
          inl (RuntimeError "Missing JWT_SECRET environment variable for JWT signing.")
        else
          let allowed_origins := cors_list env "ALLOWED_ORIGINS" in
          let allowed_methods := cors_list env "ALLOWED_METHODS" in
          let allowed_headers := cors_list env "ALLOWED_HEADERS" in
          match env_int env "CORS_MAX_AGE" "3600" with
          | inl e => inl e
          | inr cors_max_age =>
              let jwt_issuer :=
                PyText.or_default (env !! "JWT_ISSUER")
                  "resident-directory-backend" in
              let jwt_audience :=
                PyText.or_default (env !! "JWT_AUDIENCE")
                  "resident-directory-frontend" in
              match env_int env "JWT_EXP_MINUTES" "480" with
              | inl e => inl e
              | inr jwt_exp_minutes =>
                  let upload_dir :=
                    PyText.or_default (env !! "UPLOAD_DIR") "uploads" in
                  let public_base_url :=
                    PyText.or_default (env !! "PUBLIC_BASE_URL")
                      (PyText.or_default (env !! "BACKEND_URL") "") in
                  inr (AppSettings.mk allowed_origins allowed_methods
                         allowed_headers cors_max_age jwt_secret jwt_issuer
                         jwt_audience jwt_exp_minutes postgres_url upload_dir
                         (PyText.rstrip_char "/" public_base_url))
              end
          end
        end
  end.

(** The settings as the resident routes read them. *)
Definition route_settings (c : AppSettings.t) : Settings :=
  mkSettings (AppSettings.upload_dir c) (AppSettings.public_base_url c).

(** ** Database URL ([src/api/core/db.py]) *)

(** The module computes [async_database_url] from [settings.postgres_url],
    or raises. *)
Definition async_database_url (postgres_url : string) : BootExn + string :=
  if PyText.startswith "postgresql://" postgres_url then
    inr (PyText.replace_first "postgresql://" "postgresql+asyncpg://"
           postgres_url)
  else if PyText.startswith "postgresql+asyncpg://" postgres_url then
    inr postgres_url
  else
    inl (RuntimeError "Unsupported POSTGRES_URL scheme. Expected postgresql://... or postgresql+asyncpg://...").


(** ** Authentication and roles ([src/api/core/auth.py]) *)

(** A row of [users], with the columns that the queries select. *)
Module UserRow.
Record t := mk {
  id : Z;
  email : string;
  full_name : option string;
  password_hash : string;
  is_active : bool;
}.
End UserRow.

(** A row of [roles]. *)
Module RoleRow.
Record t := mk {
  id : Z;
  name : string;
}.
End RoleRow.

(** A row of [user_roles]. *)
Module UserRoleRow.
Record t := mk {
  user_id : Z;
  role_id : Z;
}.
End UserRoleRow.

(** The three tables that authentication reads, in the order in which the
    database returns their rows. *)
Record AuthDb := mkAuthDb {
  users : list UserRow.t;
  roles : list RoleRow.t;
  user_roles : list UserRoleRow.t;
}.

(** The payload of a token.  [sub] and [roles] are read back with
    [payload.get] and may be missing from a decoded payload. *)
Module Claims.
Record t := mk {
  iss : string;
  aud : string;
  sub : option string;
  email : string;
  roles : option (list string);
  exp : Time;
  iat : Time;
}.
End Claims.

(** What the authentication of a request raises. *)
Inductive AuthExn :=
| AuthHTTP (status_code : Z) (detail : string)
| AuthTypeError (msg : string)
| AuthValueError (msg : string).

(** [require_roles(required)]: the dependency [_dep], which passes the user
    on when it has one of the required roles. *)
Definition require_roles {S} (required : list string) (user : CurrentUser.t)
    : M S CurrentUser.t :=
  if negb (existsb (λ r, bool_decide (r ∈ required)) (CurrentUser.roles user))
  then raise (HTTPException 403
                ("Insufficient role. Requires one of: "
                 +:+ PyText.repr_list required))
  else mret user.

Section Auth.

(** [bcrypt.checkpw(password, password_hash)], on the UTF-8 encodings. *)
Variable checkpw : string → string → bool.

(** [jwt.encode(payload, secret, algorithm="HS256")] *)
Variable jwt_encode : Claims.t → string → string.

(** [jwt.decode(token, secret, algorithms=["HS256"], audience=..,
    issuer=..)]: the payload, or [None] for a [PyJWTError] (bad signature,
    wrong audience or issuer, expired). *)
Variable jwt_decode : string → string → string → string → option Claims.t.

Variable settings : AppSettings.t.

Definition _hash_matches (password password_hash : string) : bool :=
  checkpw password password_hash.

(** [_create_access_token]; [now] and [now'] are the two readings of the
    clock, in seconds. *)
Definition _create_access_token (user : CurrentUser.t) (now now' : Time)
    : string * Time :=
  let exp := now + 60 * AppSettings.jwt_exp_minutes settings in
  let payload :=
    Claims.mk (AppSettings.jwt_issuer settings)
      (AppSettings.jwt_audience settings)
      (Some (PyStr.str_int (CurrentUser.id user)))
      (CurrentUser.email user) (Some (CurrentUser.roles user)) exp now' in
  (jwt_encode payload (AppSettings.jwt_secret settings), exp).

(** The role names of a user: the join of [user_roles] and [roles]. *)
Definition role_names (db : AuthDb) (uid : Z) : list string :=
  ur ← user_roles db;
  if bool_decide (UserRoleRow.user_id ur = uid)
  then r ← roles db;
       if bool_decide (RoleRow.id r = UserRoleRow.role_id ur)
       then [RoleRow.name r] else []
  else [].

(** [authenticate_user] *)
Definition authenticate_user (db : AuthDb) (email password : string)
    : option CurrentUser.t :=
  match list_find (λ u, UserRow.email u = email) (users db) with
  | None => None
  | Some (_, row) =>
      if negb (UserRow.is_active row) then None
      else if negb (_hash_matches password (UserRow.password_hash row))
      then None
      else Some (CurrentUser.mk (UserRow.id row) (UserRow.email row)
                   (UserRow.full_name row) (role_names db (UserRow.id row)))
  end.

(** [_get_user_from_token] *)
Definition _get_user_from_token (db : AuthDb) (token : string)
    : AuthExn + CurrentUser.t :=
  match jwt_decode token (AppSettings.jwt_secret settings)
          (AppSettings.jwt_audience settings)
          (AppSettings.jwt_issuer settings) with
  | None => inl (AuthHTTP 401 "Invalid or expired token")
  | Some payload =>
      match Claims.sub payload with
      | None =>
          inl (AuthTypeError "int() argument must be a string, a bytes-like object or a real number, not 'NoneType'")
      | Some sub =>
          match PyText.int sub with
          | None =>
              inl (AuthValueError
                     ("invalid literal for int() with base 10: "
                      +:+ PyText.repr sub))
          | Some user_id =>
              let roles := default [] (Claims.roles payload) in
              match list_find (λ u, UserRow.id u = user_id) (users db) with
              | None => inl (AuthHTTP 401 "User inactive")
              | Some (_, row) =>
                  if negb (UserRow.is_active row)
                  then inl (AuthHTTP 401 "User inactive")
                  else inr (CurrentUser.mk (UserRow.id row)
                              (UserRow.email row) (UserRow.full_name row)
                              roles)
              end
          end
      end
  end.

(** [get_current_user]; [creds] is [creds.credentials], or [None] when the
    request has no bearer credentials. *)
Definition get_current_user (creds : option string) (db : AuthDb)
    : AuthExn + CurrentUser.t :=
  match creds with
  | None => inl (AuthHTTP 401 "Missing bearer token")
  | Some token =>
      if negb (PyStr.truthy token)
      then inl (AuthHTTP 401 "Missing bearer token")
      else _get_user_from_token db token
  end.

(** [issue_token_for_user] *)
Definition issue_token_for_user (user : CurrentUser.t) (now now' : Time)
    : string * Time :=
  _create_access_token user now now'.

End Auth.

(** ** Audit log listing ([src/api/repositories/audit_log.py]) *)

(** A row of [audit_log] as [_row_to_audit] returns it: the serial id and
    the entry. *)
Definition audit_rows (t : Store) : list (Z * AuditEntry.t) :=
  imap (λ i e, (Z.of_nat i + 1, e)) (audit_log t).

(** [ORDER BY created_at DESC] *)
Definition newest_first (a b : Z * AuditEntry.t) : Prop :=
  AuditEntry.created_at b.2 ≤ AuditEntry.created_at a.2.

#[global] Instance newest_first_dec a b : Decision (newest_first a b).
Proof. unfold newest_first. apply _. Defined.

Section AuditListing.

Variable ilike : string → string → bool.

(** The WHERE clause assembled by [list_audit_log]; a comparison with a
    NULL column selects nothing. *)
Definition audit_where (action actor_email entity_type : option string)
    (row : Z * AuditEntry.t) : bool :=
  given action (λ a, bool_decide (AuditEntry.action row.2 = a))
  && given actor_email (λ x,
       match AuditEntry.actor_email row.2 with
       | Some m => ilike m ("%" +:+ x +:+ "%")
       | None => false
       end)
  && given entity_type
       (λ t, bool_decide (AuditEntry.entity_type row.2 = Some t)).

Definition audit_selected (action actor_email entity_type : option string)
    (t : Store) : list (Z * AuditEntry.t) :=
  merge_sort newest_first
    (filter (λ row, audit_where action actor_email entity_type row = true)
            (audit_rows t)).

(** [list_audit_log] *)
Definition list_audit_log (action actor_email entity_type : option string)
    (limit offset : Z) : M Session (list (Z * AuditEntry.t) * Z) := λ s,
  let rows := audit_selected action actor_email entity_type (txn s) in
  if (limit <? 0) || (offset <? 0)
  then (Raised (DBAPIError "LIMIT and OFFSET must not be negative"), s)
  else (Returned (take (Z.to_nat limit) (drop (Z.to_nat offset) rows),
                  Z.of_nat (length rows)), s).

End AuditListing.

(** ** The read routes and the role guards of the routes *)

(** The response [ResidentListResponse]. *)
Module ResidentListResponse.
Record t := mk {
  items : list Resident.t;
  total : Z;
  limit : Z;
  offset : Z;
}.
End ResidentListResponse.

Section ReadRoutes.

Variable ilike : string → string → bool.

(** GET /residents, once the query parameters are validated. *)
Definition residents_list (q building floor unit : option string)
    (is_active : option bool) (limit offset : Z) (_user : CurrentUser.t)
    : M Session ResidentListResponse.t :=
  '(items, total) ← list_residents ilike q building floor unit is_active
                      limit offset;
  mret (ResidentListResponse.mk items total limit offset).

(** GET /audit *)
Definition audit_list (action actor_email entity_type : option string)
    (limit offset : Z) (_user : CurrentUser.t)
    : M Session (list (Z * AuditEntry.t) * Z * Z * Z) :=
  '(items, total) ← list_audit_log ilike action actor_email entity_type
                      limit offset;
  mret (items, total, limit, offset).

End ReadRoutes.

(** GET /residents/{resident_id} *)
Definition residents_get (resident_id : Z) (_user : CurrentUser.t)
    : M Session Resident.t :=
  resident ← get_resident resident_id;
  match resident with
  | None => not_found
  | Some resident => mret resident
  end.

(** A route behind [Depends(require_roles(required))]: the handler runs
    with the user that the guard passes on. *)
Definition guarded {A} (required : list string)
    (handler : CurrentUser.t → M Session A) (user : CurrentUser.t)
    : M Session A :=
  user ← require_roles required user;
  handler user.

(** A call of one of the routes of the resident and audit routers, with
    its arguments. *)
Inductive RouteCall :=
| CallResidentsList (q building floor unit : option string)
    (is_active : option bool) (limit offset : Z)
| CallResidentsGet (resident_id : Z)
| CallResidentsCreate (payload : ResidentCreate.t)
| CallResidentsUpdate (resident_id : Z) (patch : Patch.t)
| CallResidentsDeactivate (resident_id : Z)
| CallUploadPhoto (resident_id : Z) (ext : string) (size : Z)
| CallExportCsv (q building floor unit : option string)
    (is_active : option bool)
| CallImportCsv (content : option (list CsvLine))
| CallAuditList (action actor_email entity_type : option string)
    (limit offset : Z).

(** The roles named by the route's [require_roles]. *)
Definition required_roles (r : RouteCall) : list string :=
  match r with
  | CallResidentsList _ _ _ _ _ _ _ | CallResidentsGet _
  | CallAuditList _ _ _ _ _ => ["admin"; "viewer"]
  | _ => ["admin"]
  end.

(** What a route answers with. *)
Inductive Response :=
| ResidentPage (page : ResidentListResponse.t)
| OneResident (resident : option Resident.t)
| CsvFile (header : list string) (records : list CsvRow)
| ImportReport (result : CsvImportResult.t)
| AuditPage (items : list (Z * AuditEntry.t)) (total limit offset : Z).

Section Serve.

Variable json_error : JsonDumps.
Variable ilike : string → string → bool.
Variable str_datetime : Time → string.
Variable settings : Settings.

(** The route function of a call, for the user that the guard let in. *)
Definition handle (r : RouteCall) (user : CurrentUser.t)
    : M Session Response :=
  match r with
  | CallResidentsList q building floor unit is_active limit offset =>
      page ← residents_list ilike q building floor unit is_active limit
               offset user;
      mret (ResidentPage page)
  | CallResidentsGet resident_id =>
      resident ← residents_get resident_id user;
      mret (OneResident (Some resident))
  | CallResidentsCreate payload =>
      resident ← residents_create json_error payload user;
      mret (OneResident (Some resident))
  | CallResidentsUpdate resident_id patch =>
      resident ← residents_update json_error resident_id patch user;
      mret (OneResident (Some resident))
  | CallResidentsDeactivate resident_id =>
      resident ← residents_deactivate json_error resident_id user;
      mret (OneResident resident)
  | CallUploadPhoto resident_id ext size =>
      resident ← upload_photo json_error settings resident_id ext size user;
      mret (OneResident resident)
  | CallExportCsv q building floor unit is_active =>
      '(header, records) ← export_csv json_error ilike str_datetime q
                             building floor unit is_active user;
      mret (CsvFile header records)
  | CallImportCsv content =>
      result ← import_csv json_error content user;
      mret (ImportReport result)
  | CallAuditList action actor_email entity_type limit offset =>
      '(items, total, limit, offset) ← audit_list ilike action actor_email
                                         entity_type limit offset user;
      mret (AuditPage items total limit offset)
  end.

(** A call by an authenticated user: the guard, then the route function. *)
Definition serve (r : RouteCall) (user : CurrentUser.t)
    : M Session Response :=
  guarded (required_roles r) (handle r) user.

End Serve.

(** * Vocabulary of the properties *)

(** The invariant of the data model: a resident is inactive exactly when it
    has a deactivation time. *)
Definition deactivation_consistent (r : Resident.t) : Prop :=
  Resident.is_active r = false ↔ Resident.deactivated_at r ≠ None.

(** A patch that gives no NULL to a mandatory column. *)
Definition patch_accepted (patch : Patch.t) : Prop :=
  Patch.full_name patch ≠ Some None
  ∧ Patch.unit patch ≠ Some None
  ∧ Patch.is_active patch ≠ Some None.

(** The store after an accepted UPDATE of the row [resident_id]. *)
Definition updated_session (s : Session) (resident_id : Z) (r' : Resident.t)
    : Session :=
  with_txn s (mkStore (<[resident_id := r']> (residents (txn s)))
                      (next_id (txn s)) (audit_log (txn s))).

(** The columns of the [residents] table. *)
Inductive Column :=
| col_id | col_full_name | col_unit | col_building | col_floor | col_phone
| col_email | col_photo_url | col_notes | col_is_active | col_created_at
| col_updated_at | col_deactivated_at.

(** The column is a key of the patch. *)
Definition supplied (patch : Patch.t) (c : Column) : bool :=
  match c with
  | col_full_name => bool_decide (is_Some (Patch.full_name patch))
  | col_unit => bool_decide (is_Some (Patch.unit patch))
  | col_building => bool_decide (is_Some (Patch.building patch))
  | col_floor => bool_decide (is_Some (Patch.floor patch))
  | col_phone => bool_decide (is_Some (Patch.phone patch))
  | col_email => bool_decide (is_Some (Patch.email patch))
  | col_notes => bool_decide (is_Some (Patch.notes patch))
  | col_is_active => bool_decide (is_Some (Patch.is_active patch))
  | _ => false
  end.

(** The resident [r'] has in column [c] the value that [r] has. *)
Definition retained (c : Column) (r r' : Resident.t) : Prop :=
  match c with
  | col_id => Resident.id r' = Resident.id r
  | col_full_name => Resident.full_name r' = Resident.full_name r
  | col_unit => Resident.unit r' = Resident.unit r
  | col_building => Resident.building r' = Resident.building r
  | col_floor => Resident.floor r' = Resident.floor r
  | col_phone => Resident.phone r' = Resident.phone r
  | col_email => Resident.email r' = Resident.email r
  | col_photo_url => Resident.photo_url r' = Resident.photo_url r
  | col_notes => Resident.notes r' = Resident.notes r
  | col_is_active => Resident.is_active r' = Resident.is_active r
  | col_created_at => Resident.created_at r' = Resident.created_at r
  | col_updated_at => Resident.updated_at r' = Resident.updated_at r
  | col_deactivated_at =>
      Resident.deactivated_at r' = Resident.deactivated_at r
  end.

(** The resident [r'] has in column [c] the value that the patch gives
    for it.  Only the eight columns of [ResidentUpdate] can be keys. *)
Definition assigned (patch : Patch.t) (c : Column) (r' : Resident.t) : Prop :=
  match c with
  | col_full_name => Patch.full_name patch = Some (Some (Resident.full_name r'))
  | col_unit => Patch.unit patch = Some (Some (Resident.unit r'))
  | col_building => Patch.building patch = Some (Resident.building r')
  | col_floor => Patch.floor patch = Some (Resident.floor r')
  | col_phone => Patch.phone patch = Some (Resident.phone r')
  | col_email => Patch.email patch = Some (Resident.email r')
  | col_notes => Patch.notes patch = Some (Resident.notes r')
  | col_is_active => Patch.is_active patch = Some (Some (Resident.is_active r'))
  | _ => True
  end.

(** The patch [{notes: x}]. *)
Definition notes_patch (x : string) : Patch.t :=
  Patch.mk None None None None None None (Some (Some x)) None.






(** The state of the import after a row was skipped. *)
Definition skipped_state (idx : Z) (e : Exn) (st : ImportState)
    : ImportState :=
  mkImport (db st) (created st) (updated st) (skipped st + 1)
    (errors st ++ ["Line " +:+ PyStr.str_int idx +:+ ": " +:+ str_exn e]).

(** The resident that an update row writes over [r]. *)
Definition imported_over (now : Time) (row : CsvRow) (r : Resident.t)
    : Resident.t :=
  Resident.mk (Resident.id r) (column row "full_name") (column row "unit")
    (nullable_column row "building") (nullable_column row "floor")
    (nullable_column row "phone") (nullable_column row "email")
    (Resident.photo_url r) (nullable_column row "notes")
    (default (Resident.is_active r) (is_active_column row))
    (Resident.created_at r) (Resident.updated_at r)
    (match is_active_column row with
     | Some false => Some now
     | Some true => None
     | None => Resident.deactivated_at r
     end).

(** The [TypeError] message, if any, of [json.dumps] on an optional
    snapshot. *)
Definition dumps_error (json_error : JsonDumps)
    (snapshot : option Resident.t) : option string :=
  snapshot ≫= json_error.

(** The session after [write_audit_log]. *)
Definition audited (entry : AuditEntry.t) (s : Session) : Session :=
  with_txn s (mkStore (residents (txn s)) (next_id (txn s))
                      (audit_log (txn s) ++ [entry])).

(** The import after the audit write of a row: the entry is appended; or
    [json.dumps] raises on one of its snapshots, the [TypeError] is caught
    by the [except] of the row, and the row, whose write and counter stay,
    is counted as skipped too. *)
Definition row_audited (json_error : JsonDumps) (idx : Z)
    (entry : AuditEntry.t) (st : ImportState) : ImportState :=
  match dumps_error json_error (AuditEntry.before entry) with
  | Some msg => skipped_state idx (TypeError msg) st
  | None =>
      match dumps_error json_error (AuditEntry.after entry) with
      | Some msg => skipped_state idx (TypeError msg) st
      | None =>
          mkImport (audited entry (db st)) (created st) (updated st)
            (skipped st) (errors st)
      end
  end.

(** The error line that the import files for a row numbered [idx] when
    [json.dumps] rejects the snapshot [r] of its audit entry. *)
Definition audit_failure (json_error : JsonDumps) (idx : Z) (r : Resident.t)
    : list string :=
  match json_error r with
  | Some msg => ["Line " +:+ PyStr.str_int idx +:+ ": " +:+ msg]
  | None => []
  end.

(** The error line that the import files for an update row numbered [idx]
    when [json.dumps] rejects the snapshot of the resident before the
    update, [r], or else the one after it, [r']. *)
Definition update_failure (json_error : JsonDumps) (idx : Z)
    (r r' : Resident.t) : list string :=
  match json_error r with
  | Some msg => ["Line " +:+ PyStr.str_int idx +:+ ": " +:+ msg]
  | None => audit_failure json_error idx r'
  end.

(** A row that asks for a creation: name and unit given, no id. *)
Definition creatable (row : CsvRow) : Prop :=
  column row "full_name" ≠ ""
  ∧ column row "unit" ≠ ""
  ∧ column row "id" = "".

(** The resident that a creatable row inserts into [t]. *)
Definition imported_new (now : Time) (row : CsvRow) (t : Store)
    : Resident.t :=
  insert_row now
    (row_insert (column row "full_name") (column row "unit") row) t.

(** A three-way comparison that behaves as a total preorder. *)
Record CmpOrder {A} (c : A → A → comparison) : Prop := {
  cmp_flip : ∀ a b, c b a = CompOpp (c a b);
  cmp_trans : ∀ a b d x, c a b = x → c b d = x → c a d = x;
  cmp_eq_l : ∀ a b d, c a b = Eq → c a d = c b d;
}.

(** Ascending text. *)
Definition text_le (x y : string) : Prop := cmp_text x y ≠ Gt.

(** Ascending with nulls last: a null is never before a value. *)
Definition nulls_last_le (x y : option string) : Prop :=
  match x, y with
  | Some x, Some y => text_le x y
  | _, None => True
  | None, Some _ => False
  end.

(** What it means for [a] to be listed before [b]: an active resident
    before an inactive one; within the same activity, by building, then
    floor, then unit, then full name, each key deciding when the earlier
    ones tie. *)
Definition listed_before (a b : Resident.t) : Prop :=
  (Resident.is_active b = true → Resident.is_active a = true)
  ∧ (Resident.is_active a = Resident.is_active b →
     nulls_last_le (Resident.building a) (Resident.building b)
     ∧ (Resident.building a = Resident.building b →
        nulls_last_le (Resident.floor a) (Resident.floor b)
        ∧ (Resident.floor a = Resident.floor b →
           text_le (Resident.unit a) (Resident.unit b)
           ∧ (Resident.unit a = Resident.unit b →
              text_le (Resident.full_name a) (Resident.full_name b))))).

(** No character of the string is white space. *)
Fixpoint no_space (s : string) : bool :=
  match s with
  | EmptyString => true
  | String c t => negb (PyStr.is_space c) && no_space t
  end.

(** A text column after a round trip: trimmed, and null when blank. *)
Definition normalized (o : option string) : option string :=
  PyStr.or_none (PyStr.strip (default "" o)).

(** The resident that the import writes over [r] when it reads back the
    record exported for [r]. *)
Definition reimported (now : Time) (r : Resident.t) : Resident.t :=
  Resident.mk (Resident.id r)
    (PyStr.strip (Resident.full_name r)) (PyStr.strip (Resident.unit r))
    (normalized (Resident.building r)) (normalized (Resident.floor r))
    (normalized (Resident.phone r)) (normalized (Resident.email r))
    (Resident.photo_url r) (normalized (Resident.notes r))
    (Resident.is_active r) (Resident.created_at r) (Resident.updated_at r)
    (if Resident.is_active r then None else Some now).

(** The error lines of the import that reads back the records exported
    for [items], the first of them numbered [idx]: one for each resident
    of which [json.dumps] rejects a snapshot. *)
Fixpoint reimport_failures (json_error : JsonDumps) (now : Time) (idx : Z)
    (items : list Resident.t) : list string :=
  match items with
  | [] => []
  | r :: rest =>
      update_failure json_error idx r (reimported now r)
      ++ reimport_failures json_error now (idx + 1) rest
  end.

(** Name and unit are not blank. *)
Definition nonblank (r : Resident.t) : Prop :=
  PyStr.strip (Resident.full_name r) ≠ ""
  ∧ PyStr.strip (Resident.unit r) ≠ "".

#[global] Instance nonblank_dec r : Decision (nonblank r).
Proof. unfold nonblank. apply _. Defined.

(** No stored resident has a blank name or unit. *)
Definition all_nonblank (d : Store) : Prop :=
  map_Forall (λ _ r, nonblank r) (residents d).

#[global] Instance all_nonblank_dec d : Decision (all_nonblank d).
Proof. unfold all_nonblank. apply _. Defined.

(** Every row is stored under its own id: the primary key. *)
Definition keys_match (d : Store) : Prop :=
  map_Forall (λ k r, Resident.id r = k) (residents d).

#[global] Instance keys_match_dec d : Decision (keys_match d).
Proof. unfold keys_match. apply _. Defined.

(** The residents that an export writes. *)
Definition exported (ilike : string → string → bool)
    (q building floor unit : option string) (is_active : option bool)
    (d : Store) : list Resident.t :=
  take (Z.to_nat 100000)
    (drop (Z.to_nat 0)
       (select_ordered ilike q building floor unit is_active d)).

(** An optional text that the round trip leaves as it is: null, or trimmed
    and not empty. *)
Definition trimmed (o : option string) : Prop :=
  match o with
  | Some x => PyStr.strip x = x ∧ x ≠ ""
  | None => True
  end.

(** A file whose lines after the header are records, which the reader
    reads to the end. *)
Definition records (rows : list CsvRow) : list CsvLine := RecordLine <$> rows.

(** An export, and then the import of the records it wrote, read back as
    they were written, as two requests. *)
Definition round_trip (json_error : JsonDumps)
    (ilike : string → string → bool)
    (str_datetime : Time → string) (user : CurrentUser.t) (d : Store)
    (now utc now' utc' : Time) : Result CsvImportResult.t * Store :=
  match run_request
          (export_csv json_error ilike str_datetime None None None None None
             user)
          d now utc with
  | (Returned (_, rows), d1) =>
      run_request (import_csv json_error (Some (records rows)) user) d1
        now' utc'
  | (Raised e, d1) => (Raised e, d1)
  end.

(** ** Sample data for the closed instances *)

(** A [json.dumps] that serialises every snapshot. *)
Definition json_accepts : JsonDumps := λ _, None.

(** A [json.dumps] that meets a [datetime] in every snapshot: the columns
    [created_at] and [updated_at] are timestamps, as the spec has them. *)
Definition json_rejects : JsonDumps :=
  λ _, Some "Object of type datetime is not JSON serializable".

Definition admin : CurrentUser.t :=
  CurrentUser.mk 1 "admin@example.org" None ["admin"].

Definition alice : Resident.t :=
  Resident.mk 1 "Alice" "12" (Some "A") (Some "1") None None None None
    true 3 3 None.

Definition bob : Resident.t :=
  Resident.mk 2 "Bob" "7" None None None (Some "bob@example.org") None
    (Some "left in May") false 4 4 (Some 5).

Definition sample_store : Store :=
  mkStore (<[1 := alice]> (<[2 := bob]> ∅)) 3 [].

Definition sample_session : Session := begin sample_store 9 10.

Definition inactive_payload : ResidentCreate.t :=
  ResidentCreate.mk "Carol" "3" None None None None None false.

Definition row_carol_inactive : CsvRow :=
  list_to_map [("full_name", "Carol"); ("unit", "3"); ("is_active", "no")].

Definition stale_row : CsvRow :=
  list_to_map [("id", "7"); ("full_name", "Dan"); ("unit", "9")].

Definition row_ann : CsvRow :=
  list_to_map [("full_name", "Ann"); ("unit", "1")].

Definition row_no_unit : CsvRow := list_to_map [("full_name", "Ben")].

Definition row_cy : CsvRow :=
  list_to_map [("full_name", "Cy"); ("unit", " 3 "); ("building", "B")].

Definition row_alice_short : CsvRow :=
  list_to_map [("id", "1"); ("full_name", "Alice"); ("unit", "12")].

(** A resident whose unit is blank, as POST /residents accepts it. *)
Definition blank_store : Store :=
  mkStore (<[1 := Resident.mk 1 "Eve" " " None None None None None None
                    true 3 3 None]> ∅) 2 [].

(** ** Vocabulary for the settings, the guards and the listings *)

(** The character occurs in the string. *)
Fixpoint occurs (ch : ascii) (s : string) : bool :=
  match s with
  | EmptyString => false
  | String c t => Ascii.eqb c ch || occurs ch t
  end.

(** The last character of the string is [ch]. *)
Fixpoint ends_with (ch : ascii) (s : string) : bool :=
  match s with
  | EmptyString => false
  | String c EmptyString => Ascii.eqb c ch
  | String _ t => ends_with ch t
  end.

(** An item of a comma-separated setting as [_split_csv] returns it:
    trimmed, not empty, without comma. *)
Definition csv_item (x : string) : Prop :=
  PyStr.strip x = x ∧ x ≠ "" ∧ occurs "," x = false.

#[global] Instance csv_item_dec x : Decision (csv_item x).
Proof. unfold csv_item. apply _. Defined.

(** The variable is set in the environment, and not to the empty string. *)
Definition env_set (env : Environ) (name : string) : Prop :=
  ∃ v, env !! name = Some v ∧ v ≠ "".

(** The integer setting [name], with its default, reads as an integer. *)
Definition env_int_ok (env : Environ) (name default : string) : Prop :=
  is_Some (PyText.int (PyText.or_default (env !! name) default)).

(** An environment with the required variables and a base URL. *)
Definition sample_env : Environ :=
  list_to_map
    [("POSTGRES_URL", "postgresql://app@db:5432/residents");
     ("JWT_SECRET", "s3cret");
     ("ALLOWED_ORIGINS", "http://a.example, http://b.example");
     ("PUBLIC_BASE_URL", "http://api.example/")].

Definition sample_app_settings : AppSettings.t :=
  AppSettings.mk ["http://a.example"; "http://b.example"] ["*"] ["*"] 3600
    "s3cret" "resident-directory-backend" "resident-directory-frontend" 480
    "postgresql://app@db:5432/residents" "uploads" "http://api.example".

(** Every id in use is below the next value of the sequence. *)
Definition ids_below (d : Store) : Prop :=
  map_Forall (λ k _, k < next_id d) (residents d).

#[global] Instance ids_below_dec d : Decision (ids_below d).
Proof. unfold ids_below. apply _. Defined.

(** The resident that [data] describes, as the INSERT stores it. *)
Definition stored_as (data : NewResident.t) (r : Resident.t) : Prop :=
  Resident.full_name r = NewResident.full_name data
  ∧ Resident.unit r = NewResident.unit data
  ∧ Resident.building r = NewResident.building data
  ∧ Resident.floor r = NewResident.floor data
  ∧ Resident.phone r = NewResident.phone data
  ∧ Resident.email r = NewResident.email data
  ∧ Resident.photo_url r = NewResident.photo_url data
  ∧ Resident.notes r = NewResident.notes data
  ∧ Resident.is_active r = NewResident.is_active data.

Definition sample_new_resident : NewResident.t :=
  NewResident.mk "Dora" "4" None None None None None None true.

(** The residents of the table that a WHERE clause selects. *)
Definition matching (test : Resident.t → bool) (t : Store)
    : gmap Z Resident.t :=
  filter (λ kr, test kr.2 = true) (residents t).

(** A filter of the listing that is in force: given and not empty. *)
Definition in_force (o : option string) (v : string) : Prop :=
  o = Some v ∧ v ≠ "".

(** The number of entries of an audit log with a given action. *)
Definition count_action (action : string) (entries : list AuditEntry.t) : Z :=
  Z.of_nat (length (filter (λ e, AuditEntry.action e = action) entries)).

(** How the table of a later store relates to an earlier one when nothing
    was deleted: every resident is still stored, under the same id and with
    the creation time it had. *)
Definition residents_kept (d d' : Store) : Prop :=
  ∀ k r, residents d !! k = Some r →
    ∃ r', residents d' !! k = Some r'
      ∧ Resident.id r' = Resident.id r
      ∧ Resident.created_at r' = Resident.created_at r.

(** What the rows of an import have done between two states of its loop:
    [n] rows were read; [c] of them created a resident, [u] updated one and
    [k] were counted as skipped, either before they wrote or at their audit
    write.  A row leaves an audit entry exactly when it is not counted as
    skipped. *)
Record ImportProgress (json_error : JsonDumps) (n c u k : Z)
    (st st' : ImportState) : Prop := {
  progress_counts : 0 ≤ c ∧ 0 ≤ u ∧ 0 ≤ k;
  progress_written : c + u ≤ n;
  progress_created : created st' = created st + c;
  progress_updated : updated st' = updated st + u;
  progress_skipped : skipped st' = skipped st + k;
  progress_errors :
    ∃ msgs, errors st' = errors st ++ msgs ∧ Z.of_nat (length msgs) = k;
  progress_audit :
    ∃ entries,
      audit_log (txn (db st')) = audit_log (txn (db st)) ++ entries
      ∧ count_action "IMPORT_CREATE_RESIDENT" entries ≤ c
      ∧ count_action "IMPORT_UPDATE_RESIDENT" entries ≤ u
      ∧ Z.of_nat (length entries)
        = count_action "IMPORT_CREATE_RESIDENT" entries
          + count_action "IMPORT_UPDATE_RESIDENT" entries
      ∧ k + Z.of_nat (length entries) = n
      ∧ ((∀ r, json_error r = None) →
         count_action "IMPORT_CREATE_RESIDENT" entries = c
         ∧ count_action "IMPORT_UPDATE_RESIDENT" entries = u);
  progress_next_id : next_id (txn (db st')) = next_id (txn (db st)) + c;
  progress_size :
    Z.of_nat (size (residents (txn (db st'))))
    = Z.of_nat (size (residents (txn (db st)))) + c;
  progress_kept : residents_kept (txn (db st)) (txn (db st'));
  progress_ids : ids_below (txn (db st'));
  progress_keys : keys_match (txn (db st)) → keys_match (txn (db st'));
  progress_durable : durable (db st') = durable (db st);
  progress_clock :
    db_now (db st') = db_now (db st) ∧ utc_now (db st') = utc_now (db st);
}.

Definition row_dora : CsvRow :=
  list_to_map [("full_name", "Dora"); ("unit", "4")].

Definition row_bob_moves : CsvRow :=
  list_to_map [("id", "2"); ("full_name", "Bob"); ("unit", "9")].

(** The name under which [upload_photo] stores the photo of a resident. *)
Definition photo_filename (resident_id : Z) (ext : string) : string :=
  "resident_" +:+ PyStr.str_int resident_id
  +:+ (if decide (ext = "") then ".jpg" else ext).

Definition sample_settings : Settings := mkSettings "uploads" "http://api.example".

(** The calls that read: the listing, one resident, the audit listing. *)
Definition read_call (r : RouteCall) : bool :=
  match r with
  | CallResidentsList _ _ _ _ _ _ _ | CallResidentsGet _
  | CallAuditList _ _ _ _ _ => true
  | _ => false
  end.

(** A later database that has kept the history of an earlier one: the
    audit log has only grown at its end, no resident is gone, the sequence
    has not gone back, and the table is well formed. *)
Record HistoryKept (d d' : Store) : Prop := {
  kept_audit : ∃ entries, audit_log d' = audit_log d ++ entries;
  kept_residents : residents_kept d d';
  kept_sequence : next_id d ≤ next_id d';
  kept_ids : ids_below d';
  kept_keys : keys_match d';
}.

(** A request: the call, the user that the token names, and the two
    clocks at the time of the request. *)
Definition Request : Type := RouteCall * CurrentUser.t * Time * Time.

(** The database after a sequence of requests, one after the other. *)
Fixpoint after_requests (json_error : JsonDumps)
    (ilike : string → string → bool)
    (str_datetime : Time → string) (settings : Settings)
    (reqs : list Request) (d : Store) : Store :=
  match reqs with
  | [] => d
  | (r, user, now, utc) :: rest =>
      after_requests json_error ilike str_datetime settings rest
        (run_request (serve json_error ilike str_datetime settings r user)
           d now utc).2
  end.

Definition viewer : CurrentUser.t :=
  CurrentUser.mk 8 "viewer@example.org" None ["viewer"].

(** The WHERE clause of the audit listing, on an entry. *)
Definition audit_match (ilike : string → string → bool)
    (action actor_email entity_type : option string) (e : AuditEntry.t)
    : bool :=
  audit_where ilike action actor_email entity_type (0, e).

Definition sample_entry (action : string) (at_ : Time) : AuditEntry.t :=
  AuditEntry.mk (Some 1) (Some "admin@example.org") action (Some "resident")
    None None None None at_.

Definition sample_audit_session : Session :=
  begin (mkStore ∅ 1
           [sample_entry "CREATE_RESIDENT" 3; sample_entry "EXPORT_CSV" 5;
            sample_entry "CREATE_RESIDENT" 7]) 9 9.

(** The user has the role in the tables: a row of [user_roles] links it to
    a row of [roles] with that name. *)
Definition has_role (db : AuthDb) (uid : Z) (name : string) : Prop :=
  ∃ ur r, ur ∈ user_roles db ∧ r ∈ roles db
    ∧ UserRoleRow.user_id ur = uid
    ∧ RoleRow.id r = UserRoleRow.role_id ur
    ∧ RoleRow.name r = name.

(** The user that a row of [users] stands for, with given roles. *)
Definition user_of_row (row : UserRow.t) (roles : list string)
    : CurrentUser.t :=
  CurrentUser.mk (UserRow.id row) (UserRow.email row) (UserRow.full_name row)
    roles.

(** The payload that [_create_access_token] signs. *)
Definition issued_payload (settings : AppSettings.t) (user : CurrentUser.t)
    (now now' : Time) : Claims.t :=
  Claims.mk (AppSettings.jwt_issuer settings)
    (AppSettings.jwt_audience settings)
    (Some (PyStr.str_int (CurrentUser.id user)))
    (CurrentUser.email user) (Some (CurrentUser.roles user))
    (now + 60 * AppSettings.jwt_exp_minutes settings) now'.

Definition sample_auth_db : AuthDb :=
  mkAuthDb
    [UserRow.mk 1 "admin@example.org" None "hash-a" true;
     UserRow.mk 2 "old@example.org" None "hash-b" false]
    [RoleRow.mk 10 "admin"; RoleRow.mk 11 "viewer"]
    [UserRoleRow.mk 1 10; UserRoleRow.mk 2 11].

(** A password check for the sample: the hash of a password is the
    password after [hash-]. *)
Definition sample_checkpw (password password_hash : string) : bool :=
  bool_decide (password_hash = "hash-" +:+ password).

Definition sample_jwt_encode (payload : Claims.t) (secret : string) : string :=
  "token-of-" +:+ default "" (Claims.sub payload).

Definition sample_jwt_decode (token secret audience issuer : string)
    : option Claims.t :=
  if bool_decide (token = "token-of-1")
  then Some (issued_payload sample_app_settings admin 100 100)
  else None.

(** A decoder for the sample that also accepts three odd tokens: one
    without subject, one whose subject is no number, and one of the
    inactive user. *)
Definition sample_odd_decode (token secret audience issuer : string)
    : option Claims.t :=
  if bool_decide (token = "no-subject")
  then Some (Claims.mk issuer audience None "x@example.org" None 0 0)
  else if bool_decide (token = "bad-subject")
  then Some (Claims.mk issuer audience (Some "seven") "x@example.org" None 0 0)
  else if bool_decide (token = "token-of-2")
  then Some (Claims.mk issuer audience (Some "2") "old@example.org"
               (Some ["viewer"]) 0 0)
  else if bool_decide (token = "token-of-9")
  then Some (Claims.mk issuer audience (Some "9") "gone@example.org" None 0 0)
  else sample_jwt_decode token secret audience issuer.

(** * Properties *)

(** Unfolding of the monad's operations, to run a handler symbolically. *)
Ltac run_m :=
  unfold not_found, get_resident, commit, begin in *;
  unfold mbind, M_bind, mret, M_ret, raise, gets, modify, try_except,
    with_txn in *;
  cbn [fst snd txn durable db_now utc_now residents next_id audit_log] in *.

(** ** The resident store *)

Lemma set_required_accepted {A} (p : option (option A)) (old : A) :
  p ≠ Some None → ∃ v, set_required p old = Some v.
Proof. destruct p as [[v|]|]; intros Hp; by eauto. Qed.

Lemma update_row_accepted (now : Time) (patch : Patch.t) (r : Resident.t) :
  patch_accepted patch → ∃ r', update_row now patch r = Some r'.
Proof.
  intros (Hn & Hu & Ha). unfold update_row.
  destruct (set_required_accepted _ (Resident.full_name r) Hn) as [n ->].
  destruct (set_required_accepted _ (Resident.unit r) Hu) as [u ->].
  destruct (set_required_accepted _ (Resident.is_active r) Ha) as [a ->].
  cbn. eauto.
Qed.

Lemma update_row_rejected (now : Time) (patch : Patch.t) (r : Resident.t) :
  update_row now patch r = None → ¬ patch_accepted patch.
Proof.
  intros Hr Hp. destruct (update_row_accepted now patch r Hp) as [r' Hr'].
  congruence.
Qed.

Lemma update_resident_run (resident_id : Z) (patch : Patch.t) (s : Session)
    (r r' : Resident.t) :
  Patch.is_empty patch = false →
  residents (txn s) !! resident_id = Some r →
  update_row (db_now s) patch r = Some r' →
  update_resident resident_id patch s
  = (Returned (Some r'), updated_session s resident_id r').
Proof.
  intros He Hl Hu. unfold update_resident. rewrite He, Hl, Hu. done.
Qed.

Lemma update_resident_missing (resident_id : Z) (patch : Patch.t)
    (s : Session) :
  residents (txn s) !! resident_id = None →
  update_resident resident_id patch s = (Returned None, s).
Proof.
  intros Hl. unfold update_resident.
  destruct (Patch.is_empty patch); run_m; by rewrite Hl.
Qed.

Lemma update_resident_reads (resident_id : Z) (patch : Patch.t)
    (s : Session) :
  Patch.is_empty patch = true →
  update_resident resident_id patch s
  = (Returned (residents (txn s) !! resident_id), s).
Proof. intros He. unfold update_resident. by rewrite He. Qed.

(** C10: with an empty patch [update_resident] writes nothing and returns
    the stored resident as it is. *)
Theorem update_resident_empty_patch (resident_id : Z) (patch : Patch.t)
    (r : Resident.t) (s : Session) :
  residents (txn s) !! resident_id = Some r →
  Patch.is_empty patch = true →
  update_resident resident_id patch s = (Returned (Some r), s).
Proof. intros Hl He. by rewrite update_resident_reads, Hl. Qed.

Lemma update_resident_empty_patch_witness :
  residents (txn sample_session) !! 1 = Some alice
  ∧ Patch.is_empty Patch.empty = true
  ∧ update_resident 1 Patch.empty sample_session
    = (Returned (Some alice), sample_session).
Proof.
  split; [reflexivity|]. split; [reflexivity|].
  apply update_resident_empty_patch; reflexivity.
Defined.

(** C9: a patch with [is_active = false] stamps [deactivated_at] with the
    current time whatever the resident's state was, so an inactive resident
    loses its earlier deactivation time. *)
Theorem update_resident_restamps_deactivation (resident_id : Z)
    (patch : Patch.t) (r : Resident.t) (s : Session) :
  residents (txn s) !! resident_id = Some r →
  Patch.is_active patch = Some (Some false) →
  Patch.full_name patch ≠ Some None →
  Patch.unit patch ≠ Some None →
  ∃ r', update_resident resident_id patch s
        = (Returned (Some r'), updated_session s resident_id r')
      ∧ Resident.is_active r' = false
      ∧ Resident.deactivated_at r' = Some (db_now s).
Proof.
  intros Hl Ha Hn Hu.
  destruct (update_row_accepted (db_now s) patch r) as [r' Hr'].
  { repeat split; [done..|]. by rewrite Ha. }
  exists r'. split.
  - apply update_resident_run with r; [|done..].
    destruct patch as [[?|] [?|] [?|] [?|] [?|] [?|] [?|] [?|]]; by simpl in *.
  - unfold update_row in Hr'. rewrite Ha in Hr'.
    destruct (set_required _ (Resident.full_name r)); [|done].
    destruct (set_required _ (Resident.unit r)); [|done].
    cbn in Hr'. by simplify_eq.
Qed.

Lemma update_resident_restamps_deactivation_witness :
  residents (txn sample_session) !! 2 = Some bob
  ∧ Resident.deactivated_at bob = Some 5
  ∧ ∃ r', update_resident 2 deactivate_patch sample_session
          = (Returned (Some r'), updated_session sample_session 2 r')
        ∧ Resident.is_active r' = false
        ∧ Resident.deactivated_at r' = Some 9.
Proof.
  split; [reflexivity|]. split; [reflexivity|].
  apply (update_resident_restamps_deactivation 2 deactivate_patch bob
           sample_session); [reflexivity|reflexivity|discriminate|discriminate].
Defined.

(** *** Which columns a patch leaves alone *)

Lemma supplied_false {A} (p : option (option A)) :
  bool_decide (is_Some p) = false → p = None.
Proof. destruct p; [|done]. rewrite bool_decide_eq_false. by intros []. Qed.

Lemma update_row_frame (now : Time) (patch : Patch.t) (r r' : Resident.t)
    (c : Column) :
  update_row now patch r = Some r' →
  supplied patch c = false →
  (c = col_deactivated_at → Patch.is_active patch = None) →
  retained c r r'.
Proof.
  unfold update_row. intros Hu Hs Hd.
  destruct (set_required (Patch.full_name patch) _) as [n|] eqn:Hn; [|done].
  destruct (set_required (Patch.unit patch) _) as [u|] eqn:Hun; [|done].
  destruct (set_required (Patch.is_active patch) _) as [a|] eqn:Ha; [|done].
  cbn in Hu. simplify_eq.
  destruct c; simpl in *; try done;
    try (apply supplied_false in Hs; rewrite Hs in *; simpl in *;
         by simplify_eq).
  by rewrite Hd.
Qed.

Lemma is_empty_supplied (patch : Patch.t) (c : Column) :
  Patch.is_empty patch = true → supplied patch c = false.
Proof.
  destruct patch as [[] [] [] [] [] [] [] []]; try discriminate.
  by destruct c.
Qed.

Lemma update_row_assigned (now : Time) (patch : Patch.t) (r r' : Resident.t)
    (c : Column) :
  update_row now patch r = Some r' →
  supplied patch c = true →
  assigned patch c r'.
Proof.
  unfold update_row. intros Hu Hs.
  destruct (set_required (Patch.full_name patch) _) as [n|] eqn:Hn; [|done].
  destruct (set_required (Patch.unit patch) _) as [u|] eqn:Hun; [|done].
  destruct (set_required (Patch.is_active patch) _) as [a|] eqn:Ha; [|done].
  cbn in Hu. simplify_eq.
  destruct c; simpl in *; try done;
    apply bool_decide_eq_true in Hs as [v Hv]; rewrite Hv in *;
    simpl in *; try done; destruct v; simpl in *; by simplify_eq.
Qed.

Lemma update_row_stamps (now : Time) (patch : Patch.t) (r r' : Resident.t)
    (a : bool) :
  update_row now patch r = Some r' →
  Patch.is_active patch = Some (Some a) →
  Resident.deactivated_at r' = if a then None else Some now.
Proof.
  unfold update_row. intros Hu Ha. rewrite Ha in Hu.
  destruct (set_required (Patch.full_name patch) _); [|done].
  destruct (set_required (Patch.unit patch) _); [|done].
  cbn in Hu. simplify_eq. by destruct a.
Qed.

(** C6, as the store has it: a patch gives each column it supplies the
    value it gives for it and changes no other, with one exception:
    [deactivated_at] follows [is_active], being set to the current time
    for [false] and cleared for [true], and is kept only when the patch
    does not supply [is_active].  The resident is stored as returned, and
    other rows are not touched. *)
Theorem update_resident_frame (resident_id : Z) (patch : Patch.t)
    (r : Resident.t) (s : Session) :
  residents (txn s) !! resident_id = Some r →
  patch_accepted patch →
  ∃ r' s', update_resident resident_id patch s = (Returned (Some r'), s')
    ∧ residents (txn s') !! resident_id = Some r'
    ∧ (∀ c, supplied patch c = true → assigned patch c r')
    ∧ (∀ a, Patch.is_active patch = Some (Some a) →
            Resident.deactivated_at r'
            = if a then None else Some (db_now s))
    ∧ (∀ c, supplied patch c = false →
            (c = col_deactivated_at → Patch.is_active patch = None) →
            retained c r r')
    ∧ (∀ j, j ≠ resident_id →
            residents (txn s') !! j = residents (txn s) !! j).
Proof.
  intros Hl Hp. destruct (Patch.is_empty patch) eqn:He.
  - exists r, s. rewrite update_resident_reads, Hl by done.
    split; [done|]. split; [done|]. split_and!; [| | |done].
    + intros c Hc. by rewrite is_empty_supplied in Hc.
    + intros a Ha. pose proof (is_empty_supplied patch col_is_active He) as H.
      cbn in H. by rewrite Ha in H.
    + intros c _ _. by destruct c.
  - destruct (update_row_accepted (db_now s) patch r Hp) as [r' Hr'].
    exists r', (updated_session s resident_id r').
    rewrite (update_resident_run _ _ _ r r') by done.
    split; [done|]. split_and!.
    + apply lookup_insert_eq.
    + intros c. by apply update_row_assigned with (db_now s) r.
    + intros a Ha. by apply (update_row_stamps _ patch r).
    + intros c. by apply update_row_frame with (db_now s).
    + intros j Hj. cbn. by rewrite lookup_insert_ne.
Qed.

Lemma update_resident_frame_witness :
  residents (txn sample_session) !! 1 = Some alice
  ∧ patch_accepted (notes_patch "x")
  ∧ ∃ r' s', update_resident 1 (notes_patch "x") sample_session
             = (Returned (Some r'), s')
    ∧ residents (txn s') !! 1 = Some r'
    ∧ Resident.notes r' = Some "x"
    ∧ Resident.notes alice = None
    ∧ (∀ c, supplied (notes_patch "x") c = false →
            (c = col_deactivated_at →
             Patch.is_active (notes_patch "x") = None) →
            retained c alice r')
    ∧ (∀ j, j ≠ 1 →
            residents (txn s') !! j = residents (txn sample_session) !! j).
Proof.
  split; [reflexivity|].
  split; [repeat split; discriminate|].
  destruct (update_resident_frame 1 (notes_patch "x") alice sample_session)
    as (r' & s' & Hrun & Hst & Hsup & _ & Hret & Hoth);
    [reflexivity|repeat split; discriminate|].
  exists r', s'. split; [exact Hrun|]. split; [exact Hst|].
  split; [|split; [reflexivity|split; [exact Hret|exact Hoth]]].
  specialize (Hsup col_notes eq_refl). cbn in Hsup. by injection Hsup.
Defined.

(** The example of the specification: a patch of [notes] alone. *)
Lemma update_resident_notes_only (resident_id : Z) (x : string)
    (r : Resident.t) (s : Session) :
  residents (txn s) !! resident_id = Some r →
  update_resident resident_id (notes_patch x) s
  = (Returned (Some
       (Resident.mk (Resident.id r) (Resident.full_name r) (Resident.unit r)
          (Resident.building r) (Resident.floor r) (Resident.phone r)
          (Resident.email r) (Resident.photo_url r) (Some x)
          (Resident.is_active r) (Resident.created_at r)
          (Resident.updated_at r) (Resident.deactivated_at r))),
     updated_session s resident_id
       (Resident.mk (Resident.id r) (Resident.full_name r) (Resident.unit r)
          (Resident.building r) (Resident.floor r) (Resident.phone r)
          (Resident.email r) (Resident.photo_url r) (Some x)
          (Resident.is_active r) (Resident.created_at r)
          (Resident.updated_at r) (Resident.deactivated_at r))).
Proof. intros Hl. by apply update_resident_run with r. Qed.

(** C6 as stated fails: the patch [{is_active: False}] does not supply
    [deactivated_at], and yet changes it on an active resident. *)
Lemma update_resident_changes_unsupplied_column :
  ∃ r', update_resident 1 deactivate_patch sample_session
        = (Returned (Some r'), updated_session sample_session 1 r')
      ∧ residents (txn sample_session) !! 1 = Some alice
      ∧ supplied deactivate_patch col_deactivated_at = false
      ∧ ¬ retained col_deactivated_at alice r'.
Proof.
  eexists. split; [reflexivity|]. split; [reflexivity|].
  split; [reflexivity|]. discriminate.
Qed.

(** *** The deactivation invariant *)

(** A patch that supplies [is_active] leaves the row consistent, whatever
    it was: [true] clears [deactivated_at], [false] sets it to the current
    time. *)
Lemma update_row_sets_deactivation (now : Time) (patch : Patch.t)
    (r r' : Resident.t) (a : bool) :
  update_row now patch r = Some r' →
  Patch.is_active patch = Some (Some a) →
  Resident.is_active r' = a
  ∧ Resident.deactivated_at r' = (if a then None else Some now)
  ∧ deactivation_consistent r'.
Proof.
  unfold update_row, deactivation_consistent. intros Hu Ha. rewrite Ha in Hu.
  destruct (set_required (Patch.full_name patch) _); [|done].
  destruct (set_required (Patch.unit patch) _); [|done].
  cbn in Hu. simplify_eq. by destruct a; cbn; split_and!.
Qed.

(** A patch without [is_active] keeps the row's consistency. *)
Lemma update_row_keeps_deactivation (now : Time) (patch : Patch.t)
    (r r' : Resident.t) :
  update_row now patch r = Some r' →
  Patch.is_active patch = None →
  deactivation_consistent r → deactivation_consistent r'.
Proof.
  unfold update_row, deactivation_consistent. intros Hu Ha. rewrite Ha in Hu.
  destruct (set_required (Patch.full_name patch) _); [|done].
  destruct (set_required (Patch.unit patch) _); [|done].
  cbn in Hu. by simplify_eq.
Qed.

Lemma with_photo_url_keeps_deactivation (url : string) (r : Resident.t) :
  deactivation_consistent r → deactivation_consistent (with_photo_url url r).
Proof. done. Qed.

(** An INSERT of an active resident is consistent. *)
Lemma insert_row_active_consistent (now : Time) (data : NewResident.t)
    (t : Store) :
  NewResident.is_active data = true →
  deactivation_consistent (insert_row now data t).
Proof.
  unfold deactivation_consistent. cbn. intros ->. split; [done|]. by intros [].
Qed.

(** Whatever constant the column default of [deactivated_at] is, it is
    consistent with one value of [is_active] only. *)
Lemma no_default_is_consistent (dflt : option Time) (r : Resident.t) :
  ∃ a, ¬ deactivation_consistent
           (Resident.mk (Resident.id r) (Resident.full_name r)
              (Resident.unit r) (Resident.building r) (Resident.floor r)
              (Resident.phone r) (Resident.email r) (Resident.photo_url r)
              (Resident.notes r) a (Resident.created_at r)
              (Resident.updated_at r) dflt).
Proof.
  unfold deactivation_consistent. destruct dflt as [t|].
  - exists true. cbn. intros [_ H]. by discriminate H.
  - exists false. cbn. intros [H _]. by apply H.
Qed.


(** ** The audit recorder *)

(** [write_audit_log] raises the [TypeError] of [json.dumps] on [before],
    or else on [after], and writes nothing; or else it appends the entry. *)
Lemma write_audit_log_run (json_error : JsonDumps)
    (actor : option CurrentUser.t) (action : string)
    (entity_type entity_id : option string)
    (before after : option Resident.t) (metadata : option Metadata)
    (s : Session) :
  write_audit_log json_error actor action entity_type entity_id before after
    metadata s
  = match dumps_error json_error before with
    | Some msg => (Raised (TypeError msg), s)
    | None =>
        match dumps_error json_error after with
        | Some msg => (Raised (TypeError msg), s)
        | None =>
            (Returned (),
             audited
               (AuditEntry.mk (CurrentUser.id <$> actor)
                  (CurrentUser.email <$> actor) action entity_type entity_id
                  before after metadata (utc_now s)) s)
        end
    end.
Proof.
  unfold write_audit_log, json_dumps, dumps_error, audited. run_m.
  destruct before as [b|]; cbn; [destruct (json_error b); [done|]|];
    (destruct after as [a|]; cbn; [by destruct (json_error a)|done]).
Qed.

(** ** The mutation orchestrator *)

(** Nothing that the repository or the recorder writes is durable before
    the commit. *)
Lemma writes_stay_uncommitted (s : Session) :
  (∀ data, durable (create_resident data s).2 = durable s)
  ∧ (∀ i patch, durable (update_resident i patch s).2 = durable s)
  ∧ (∀ i url, durable (set_resident_photo_url i url s).2 = durable s)
  ∧ (∀ json_error actor action ty i b a m,
       durable (write_audit_log json_error actor action ty i b a m s).2
       = durable s).
Proof.
  split_and!; try done.
  - intros i patch. unfold update_resident.
    destruct (Patch.is_empty patch); [done|].
    destruct (residents (txn s) !! i); [|done].
    by destruct (update_row _ _ _).
  - intros i url. unfold set_resident_photo_url.
    by destruct (residents (txn s) !! i).
  - intros. rewrite write_audit_log_run.
    destruct (dumps_error _ b); [done|]. by destruct (dumps_error _ a).
Qed.


Lemma truthy_ne (x : string) : x ≠ "" → PyStr.truthy x = true.
Proof. by destruct x. Qed.

Lemma truthy_true (x : string) : PyStr.truthy x = true → x ≠ "".
Proof. by destruct x. Qed.

(** C7: on an id that no resident has, update, deactivation and photo
    upload fail with 404 "Resident not found", and a CSV row that names the
    id is skipped as not found; the session is left as it was, so nothing
    is changed and no audit entry is written. *)
Theorem missing_resident_not_found (json_error : JsonDumps)
    (settings : Settings)
    (user : CurrentUser.t) (resident_id : Z) (s : Session) :
  residents (txn s) !! resident_id = None →
  (∀ patch, residents_update json_error resident_id patch user s
            = (Raised (HTTPException 404 "Resident not found"), s))
  ∧ residents_deactivate json_error resident_id user s
    = (Raised (HTTPException 404 "Resident not found"), s)
  ∧ (∀ ext size, upload_photo json_error settings resident_id ext size user s
                 = (Raised (HTTPException 404 "Resident not found"), s))
  ∧ (∀ idx row st,
       db st = s →
       column row "full_name" ≠ "" →
       column row "unit" ≠ "" →
       column row "id" ≠ "" →
       PyStr.int (column row "id") = Some resident_id →
       import_row json_error user idx row st
       = (Returned (),
          skipped_state idx
            (ValueError ("id=" +:+ PyStr.str_int resident_id
                         +:+ " not found for update")) st)).
Proof.
  intros Hl. split_and!.
  - intros patch. unfold residents_update. run_m. by rewrite Hl.
  - unfold residents_deactivate. run_m. by rewrite Hl.
  - intros ext size. unfold upload_photo. run_m. by rewrite Hl.
  - intros idx row st <- Hn Hu Hi Hp.
    unfold import_row, import_row_body, try_except.
    rewrite (truthy_ne _ Hn), (truthy_ne _ Hu), (truthy_ne _ Hi). cbn.
    unfold parse_id. rewrite Hp. unfold on_db. run_m. by rewrite Hl.
Qed.

Lemma missing_resident_not_found_witness :
  residents (txn sample_session) !! 7 = None
  ∧ residents_update json_rejects 7 (notes_patch "x") admin sample_session
    = (Raised (HTTPException 404 "Resident not found"), sample_session)
  ∧ import_row json_rejects admin 2 stale_row
      (mkImport sample_session 0 0 0 [])
    = (Returned (),
       mkImport sample_session 0 0 1 ["Line 2: id=7 not found for update"]).
Proof.
  destruct (missing_resident_not_found json_rejects (mkSettings "uploads" "")
              admin 7 sample_session eq_refl) as (Hu & _ & _ & Hrow).
  split; [reflexivity|]. split; [apply Hu|].
  apply (Hrow 2 stale_row (mkImport sample_session 0 0 0 []));
    [reflexivity|discriminate|discriminate|discriminate|reflexivity].
Defined.

(** ** The CSV import *)

(** The patch of a row never gives NULL to a mandatory column, so the
    UPDATE of a row is never rejected. *)
Lemma row_patch_accepted (full_name unit : string) (row : CsvRow) :
  patch_accepted (row_patch full_name unit row).
Proof.
  unfold patch_accepted, row_patch. cbn. split_and!; [done..|].
  by destruct (is_active_column row).
Qed.

Lemma row_patch_not_empty (full_name unit : string) (row : CsvRow) :
  Patch.is_empty (row_patch full_name unit row) = false.
Proof. done. Qed.

Lemma update_row_row_patch (now : Time) (row : CsvRow) (r : Resident.t) :
  update_row now (row_patch (column row "full_name") (column row "unit") row) r
  = Some (imported_over now row r).
Proof.
  unfold update_row, row_patch, imported_over. cbn.
  by destruct (is_active_column row) as [[]|].
Qed.

(** What an update row does when its resident exists: the UPDATE, the
    counter, and then the audit write. *)
Lemma import_row_update (json_error : JsonDumps) (user : CurrentUser.t)
    (idx : Z) (row : CsvRow)
    (st : ImportState) (resident_id : Z) (r : Resident.t) :
  column row "full_name" ≠ "" →
  column row "unit" ≠ "" →
  column row "id" ≠ "" →
  PyStr.int (column row "id") = Some resident_id →
  residents (txn (db st)) !! resident_id = Some r →
  let r' := imported_over (db_now (db st)) row r in
  import_row json_error user idx row st
  = (Returned (),
     row_audited json_error idx
       (AuditEntry.mk (Some (CurrentUser.id user))
          (Some (CurrentUser.email user)) "IMPORT_UPDATE_RESIDENT"
          (Some "resident") (Some (PyStr.str_int resident_id))
          (Some r) (Some r') (Some (MetaRow idx)) (utc_now (db st)))
       (mkImport (updated_session (db st) resident_id r')
          (created st) (updated st + 1) (skipped st) (errors st))).
Proof.
  intros Hn Hu Hi Hp Hl r'.
  unfold import_row, import_row_body, try_except.
  rewrite (truthy_ne _ Hn), (truthy_ne _ Hu), (truthy_ne _ Hi).
  cbn [negb orb]. unfold parse_id. rewrite Hp.
  unfold on_db, incr_updated, update_resident. run_m.
  rewrite row_patch_not_empty. cbn [db]. rewrite Hl. cbn [db].
  rewrite Hl, update_row_row_patch. cbn [db].
  rewrite write_audit_log_run. unfold row_audited, skip_row, modify.
  cbn [AuditEntry.before AuditEntry.after dumps_error mbind option_bind].
  fold r'. destruct (json_error r); [done|].
  by destruct (json_error r').
Qed.

(** What a row without id does: the INSERT, the counter, and then the
    audit write. *)
Lemma import_row_create (json_error : JsonDumps) (user : CurrentUser.t)
    (idx : Z) (row : CsvRow) (st : ImportState) :
  column row "full_name" ≠ "" →
  column row "unit" ≠ "" →
  column row "id" = "" →
  let r := insert_row (db_now (db st))
             (row_insert (column row "full_name") (column row "unit") row)
             (txn (db st)) in
  import_row json_error user idx row st
  = (Returned (),
     row_audited json_error idx
       (AuditEntry.mk (Some (CurrentUser.id user))
          (Some (CurrentUser.email user)) "IMPORT_CREATE_RESIDENT"
          (Some "resident") (Some (PyStr.str_int (Resident.id r)))
          None (Some r) (Some (MetaRow idx)) (utc_now (db st)))
       (mkImport
          (with_txn (db st)
             (mkStore (<[next_id (txn (db st)) := r]>
                         (residents (txn (db st))))
                      (next_id (txn (db st)) + 1)
                      (audit_log (txn (db st)))))
          (created st + 1) (updated st) (skipped st) (errors st))).
Proof.
  intros Hn Hu Hi r.
  unfold import_row, import_row_body, try_except.
  rewrite (truthy_ne _ Hn), (truthy_ne _ Hu), Hi.
  cbn [negb orb PyStr.truthy]. unfold on_db, incr_created, create_resident.
  run_m. cbn [db]. rewrite write_audit_log_run.
  unfold row_audited, skip_row, modify.
  cbn [AuditEntry.before AuditEntry.after dumps_error mbind option_bind].
  fold r. by destruct (json_error r).
Qed.

(** A row whose name or unit is missing or blank. *)
Lemma import_row_invalid (json_error : JsonDumps) (user : CurrentUser.t)
    (idx : Z) (row : CsvRow) (st : ImportState) :
  column row "full_name" = "" ∨ column row "unit" = "" →
  import_row_body json_error user idx row st
  = (Raised (ValueError "full_name and unit are required"), st).
Proof.
  intros H. unfold import_row_body.
  by destruct H as [-> | ->]; [|destruct (PyStr.truthy _)].
Qed.

(** The ways in which the body of a row raises.  In the first three the
    row has done nothing: neither the session nor the counters have
    changed.  In the fourth the row has written and counted, and
    [json.dumps] has rejected a snapshot of its audit entry. *)
Lemma import_row_body_errors (json_error : JsonDumps) (user : CurrentUser.t)
    (idx : Z) (row : CsvRow) (st st' : ImportState) (e : Exn) :
  import_row_body json_error user idx row st = (Raised e, st') →
  (st' = st
   ∧ (e = ValueError "full_name and unit are required"
      ∨ e = ValueError ("invalid literal for int() with base 10: '"
                        +:+ column row "id" +:+ "'")
      ∨ ∃ i, PyStr.int (column row "id") = Some i
           ∧ residents (txn (db st)) !! i = None
           ∧ e = ValueError ("id=" +:+ PyStr.str_int i
                             +:+ " not found for update")))
  ∨ (∃ msg, e = TypeError msg
       ∧ created st' + updated st' = created st + updated st + 1
       ∧ skipped st' = skipped st ∧ errors st' = errors st).
Proof.
  unfold import_row_body.
  destruct (negb _ || negb _);
    [unfold raise; intros [= <- <-]; left; split; [done|by left]|].
  destruct (PyStr.truthy (column row "id")).
  - unfold parse_id. destruct (PyStr.int _) as [i|];
      [|unfold raise, mbind, M_bind; intros [= <- <-]; left;
        split; [done|right; by left]].
    unfold on_db, incr_updated, update_resident. run_m.
    rewrite row_patch_not_empty. cbn [db].
    destruct (residents (txn (db st)) !! i) as [r|] eqn:Hl.
    + cbn [db]. rewrite Hl, update_row_row_patch. cbn [db].
      rewrite write_audit_log_run.
      destruct (dumps_error _ _) as [msg|];
        [intros [= <- <-]; right; exists msg; cbn; split_and!; [done|lia|done..]|].
      destruct (dumps_error _ _) as [msg|]; [|done].
      intros [= <- <-]. right. exists msg. cbn. split_and!; [done|lia|done..].
    + intros [= <- <-]. left. split; [by destruct st|].
      right; right. by exists i.
  - unfold on_db, incr_created, create_resident. run_m. cbn [db].
    rewrite write_audit_log_run.
    destruct (dumps_error _ _) as [msg|];
      [intros [= <- <-]; right; exists msg; cbn; split_and!; [done|lia|done..]|].
    destruct (dumps_error _ _) as [msg|]; [|done].
    intros [= <- <-]. right. exists msg. cbn. split_and!; [done|lia|done..].
Qed.

(** When the body of a row raises anything but the [TypeError] of the
    audit write, the row has done nothing. *)
Lemma import_row_body_raises (json_error : JsonDumps) (user : CurrentUser.t)
    (idx : Z) (row : CsvRow) (st st' : ImportState) (e : Exn) :
  import_row_body json_error user idx row st = (Raised e, st') →
  (∀ msg, e ≠ TypeError msg) → st' = st.
Proof.
  intros Hb He.
  apply import_row_body_errors in Hb as [[-> _]|(msg & -> & _)]; [done|].
  by destruct (He msg).
Qed.

(** A row never raises out of its [try] block. *)
Lemma import_row_returns (json_error : JsonDumps) (user : CurrentUser.t)
    (idx : Z) (row : CsvRow) (st : ImportState) :
  import_row json_error user idx row st
  = (Returned (), (import_row json_error user idx row st).2).
Proof.
  unfold import_row, try_except.
  destruct (import_row_body json_error user idx row st)
    as [[e|[]] st'] eqn:Hb; done.
Qed.

Lemma import_rows_cons (json_error : JsonDumps) (user : CurrentUser.t)
    (row : CsvRow) (rest : list CsvLine) (idx : Z) (st : ImportState) :
  import_rows json_error user idx (RecordLine row :: rest) st
  = import_rows json_error user (idx + 1) rest
      (import_row json_error user idx row st).2.
Proof.
  cbn [import_rows]. unfold mbind, M_bind. by rewrite import_row_returns.
Qed.

(** A file that the reader reads to its end is imported to its end. *)
Lemma import_rows_returns (json_error : JsonDumps) (user : CurrentUser.t)
    (rows : list CsvRow) (idx : Z) (st : ImportState) :
  import_rows json_error user idx (records rows) st
  = (Returned (), (import_rows json_error user idx (records rows) st).2).
Proof.
  revert idx st. induction rows as [|row rest IH]; intros idx st; [done|].
  unfold records. rewrite fmap_cons, import_rows_cons. apply IH.
Qed.

Lemma import_rows_app (json_error : JsonDumps) (user : CurrentUser.t)
    (pre : list CsvRow) (post : list CsvLine)
    (idx : Z) (st : ImportState) :
  import_rows json_error user idx (records pre ++ post) st
  = import_rows json_error user (idx + Z.of_nat (length pre)) post
      (import_rows json_error user idx (records pre) st).2.
Proof.
  revert idx st. induction pre as [|row pre IH]; intros idx st.
  - cbn. by rewrite Z.add_0_r.
  - unfold records in *. rewrite fmap_cons, <- app_comm_cons.
    rewrite !import_rows_cons, IH. f_equal.
    rewrite length_cons. lia.
Qed.

(** A failing row in any position: the rows before it have taken the
    import to [st1]; the row is counted as skipped, its message is filed
    under its number, and the loop goes on with the lines after it from
    the state in which the row has left the session and the other
    counters. *)
Lemma import_rows_isolates_failure (json_error : JsonDumps)
    (user : CurrentUser.t) (pre : list CsvRow) (post : list CsvLine)
    (row : CsvRow) (st st2 : ImportState) (e : Exn) :
  let st1 := (import_rows json_error user 2 (records pre) st).2 in
  let n := 2 + Z.of_nat (length pre) in
  import_row_body json_error user n row st1 = (Raised e, st2) →
  import_rows json_error user 2 (records pre ++ RecordLine row :: post) st
  = import_rows json_error user (n + 1) post (skipped_state n e st2).
Proof.
  intros st1 n He. rewrite import_rows_app, import_rows_cons. f_equal.
  fold st1 n. unfold import_row, try_except. by rewrite He.
Qed.

Lemma column_absent (row : CsvRow) (key : string) :
  row !! key = None → column row key = "".
Proof. unfold column. by intros ->. Qed.

(** The three things a row can do: fail before it writes; insert; update.
    After an insert or an update comes the audit write. *)
Lemma import_row_cases (json_error : JsonDumps) (user : CurrentUser.t)
    (idx : Z) (row : CsvRow) (st : ImportState) :
  (∃ e, (∀ msg, e ≠ TypeError msg)
     ∧ import_row json_error user idx row st
       = (Returned (), skipped_state idx e st))
  ∨ (∃ r e,
       r = imported_new (db_now (db st)) row (txn (db st))
       ∧ column row "id" = ""
       ∧ AuditEntry.action e = "IMPORT_CREATE_RESIDENT"
       ∧ AuditEntry.before e = None
       ∧ AuditEntry.after e = Some r
       ∧ import_row json_error user idx row st
         = (Returned (),
            row_audited json_error idx e
              (mkImport
                 (with_txn (db st)
                    (mkStore (<[next_id (txn (db st)) := r]>
                                (residents (txn (db st))))
                             (next_id (txn (db st)) + 1)
                             (audit_log (txn (db st)))))
                 (created st + 1) (updated st) (skipped st) (errors st))))
  ∨ (∃ i r e,
       PyStr.int (column row "id") = Some i
       ∧ residents (txn (db st)) !! i = Some r
       ∧ AuditEntry.action e = "IMPORT_UPDATE_RESIDENT"
       ∧ AuditEntry.before e = Some r
       ∧ AuditEntry.after e = Some (imported_over (db_now (db st)) row r)
       ∧ import_row json_error user idx row st
         = (Returned (),
            row_audited json_error idx e
              (mkImport
                 (updated_session (db st) i
                    (imported_over (db_now (db st)) row r))
                 (created st) (updated st + 1) (skipped st) (errors st)))).
Proof.
  destruct (decide (column row "full_name" = "")) as [Hn|Hn].
  { left. eexists. split; [|unfold import_row, try_except;
      rewrite import_row_invalid by (by left); done]. done. }
  destruct (decide (column row "unit" = "")) as [Hu|Hu].
  { left. eexists. split; [|unfold import_row, try_except;
      rewrite import_row_invalid by (by right); done]. done. }
  destruct (decide (column row "id" = "")) as [Hi|Hi].
  { right; left. eexists _, _. split; [reflexivity|]. split; [done|].
    rewrite import_row_create by done.
    split_and!; [| |  |reflexivity]; done. }
  destruct (PyStr.int (column row "id")) as [i|] eqn:Hp.
  - destruct (residents (txn (db st)) !! i) as [r|] eqn:Hl.
    + right; right. exists i, r. eexists. split; [done|]. split; [done|].
      rewrite (import_row_update json_error user idx row st i r) by done.
      split_and!; [| | |reflexivity]; done.
    + left. eexists. split;
        [|unfold import_row, import_row_body, try_except;
          rewrite (truthy_ne _ Hn), (truthy_ne _ Hu), (truthy_ne _ Hi);
          cbn [negb orb]; unfold parse_id; rewrite Hp;
          unfold on_db; run_m; cbn [db]; rewrite Hl;
          unfold skip_row, modify, skipped_state; by destruct st].
      done.
  - left. eexists. split;
      [|unfold import_row, import_row_body, try_except;
        rewrite (truthy_ne _ Hn), (truthy_ne _ Hu), (truthy_ne _ Hi);
        cbn [negb orb]; unfold parse_id; rewrite Hp; done].
    done.
Qed.

Lemma row_audited_durable (json_error : JsonDumps) (idx : Z)
    (e : AuditEntry.t) (st : ImportState) :
  durable (db (row_audited json_error idx e st)) = durable (db st).
Proof.
  unfold row_audited. destruct (dumps_error _ _); [done|].
  by destruct (dumps_error _ _).
Qed.

Lemma import_row_durable (json_error : JsonDumps) (user : CurrentUser.t)
    (idx : Z) (row : CsvRow) (st : ImportState) :
  durable (db (import_row json_error user idx row st).2) = durable (db st).
Proof.
  destruct (import_row_cases json_error user idx row st)
    as [(e & _ & ->)|[(r & e & _ & _ & _ & _ & _ & ->)
                     |(i & r & e & _ & _ & _ & _ & _ & ->)]];
    [done|cbn [snd]; by rewrite row_audited_durable..].
Qed.

(** Whatever the loop does, and whether it ends or is stopped by the
    reader, nothing is committed in it. *)
Lemma import_rows_durable (json_error : JsonDumps) (user : CurrentUser.t)
    (lines : list CsvLine) :
  ∀ (idx : Z) (st : ImportState),
  durable (db (import_rows json_error user idx lines st).2) = durable (db st).
Proof.
  induction lines as [|[|row|msg] rest IH]; intros idx st; [done| |  |done].
  - apply IH.
  - rewrite import_rows_cons, IH. apply import_row_durable.
Qed.

(** Empty lines are passed over: they do not advance the number of the
    next record. *)
Lemma import_rows_blank (json_error : JsonDumps) (user : CurrentUser.t)
    (k : nat) (rest : list CsvLine) (idx : Z) (st : ImportState) :
  import_rows json_error user idx (replicate k BlankLine ++ rest) st
  = import_rows json_error user idx rest st.
Proof. induction k as [|k IH]; [done|]. exact IH. Qed.

(** The reader raises in the loop header: the request fails there. *)
Lemma import_rows_bad (json_error : JsonDumps) (user : CurrentUser.t)
    (pre : list CsvRow) (msg : string) (post : list CsvLine)
    (idx : Z) (st : ImportState) :
  import_rows json_error user idx (records pre ++ BadLine msg :: post) st
  = (Raised (CsvError msg),
     (import_rows json_error user idx (records pre) st).2).
Proof. by rewrite import_rows_app. Qed.

(** When the loop ends, the import writes its summary entry, which has no
    snapshot, commits, and answers with the counters. *)
Lemma import_csv_run (json_error : JsonDumps) (user : CurrentUser.t)
    (lines : list CsvLine) (s : Session) (st : ImportState) :
  import_rows json_error user 2 lines (mkImport s 0 0 0 []) = (Returned (), st) →
  import_csv json_error (Some lines) user s
  = (Returned (CsvImportResult.mk (created st) (updated st) (skipped st)
                 (errors st)),
     mkSession
       (mkStore (residents (txn (db st))) (next_id (txn (db st)))
          (audit_log (txn (db st))
           ++ [AuditEntry.mk (Some (CurrentUser.id user))
                 (Some (CurrentUser.email user)) "IMPORT_CSV"
                 (Some "resident") None None None
                 (Some (MetaCounts (created st) (updated st) (skipped st)))
                 (utc_now (db st))]))
       (mkStore (residents (txn (db st))) (next_id (txn (db st)))
          (audit_log (txn (db st))
           ++ [AuditEntry.mk (Some (CurrentUser.id user))
                 (Some (CurrentUser.email user)) "IMPORT_CSV"
                 (Some "resident") None None None
                 (Some (MetaCounts (created st) (updated st) (skipped st)))
                 (utc_now (db st))]))
       (db_now (db st)) (utc_now (db st))).
Proof.
  intros Hrun. unfold import_csv. rewrite Hrun. run_m.
  by rewrite write_audit_log_run.
Qed.

(** What the audit write of a row leaves as it is, and what it adds. *)
Lemma row_audited_residents (json_error : JsonDumps) (idx : Z)
    (e : AuditEntry.t) (st : ImportState) :
  residents (txn (db (row_audited json_error idx e st)))
  = residents (txn (db st)).
Proof.
  unfold row_audited. destruct (dumps_error _ _); [done|].
  by destruct (dumps_error _ _).
Qed.

Lemma row_audited_next_id (json_error : JsonDumps) (idx : Z)
    (e : AuditEntry.t) (st : ImportState) :
  next_id (txn (db (row_audited json_error idx e st)))
  = next_id (txn (db st)).
Proof.
  unfold row_audited. destruct (dumps_error _ _); [done|].
  by destruct (dumps_error _ _).
Qed.

Lemma row_audited_clock (json_error : JsonDumps) (idx : Z)
    (e : AuditEntry.t) (st : ImportState) :
  db_now (db (row_audited json_error idx e st)) = db_now (db st)
  ∧ utc_now (db (row_audited json_error idx e st)) = utc_now (db st).
Proof.
  unfold row_audited. destruct (dumps_error _ _); [done|].
  by destruct (dumps_error _ _).
Qed.

Lemma row_audited_written (json_error : JsonDumps) (idx : Z)
    (e : AuditEntry.t) (st : ImportState) :
  created (row_audited json_error idx e st) = created st
  ∧ updated (row_audited json_error idx e st) = updated st.
Proof.
  unfold row_audited. destruct (dumps_error _ _); [done|].
  by destruct (dumps_error _ _).
Qed.

Lemma row_audited_create (json_error : JsonDumps) (idx : Z)
    (e : AuditEntry.t) (r : Resident.t) (st : ImportState) :
  AuditEntry.before e = None → AuditEntry.after e = Some r →
  skipped (row_audited json_error idx e st)
  = skipped st + Z.of_nat (length (audit_failure json_error idx r))
  ∧ errors (row_audited json_error idx e st)
    = errors st ++ audit_failure json_error idx r.
Proof.
  intros Hb Ha. unfold row_audited, audit_failure. rewrite Hb, Ha. cbn.
  destruct (json_error r); cbn; [done|]. by rewrite Z.add_0_r, app_nil_r.
Qed.

Lemma row_audited_update (json_error : JsonDumps) (idx : Z)
    (e : AuditEntry.t) (r r' : Resident.t) (st : ImportState) :
  AuditEntry.before e = Some r → AuditEntry.after e = Some r' →
  skipped (row_audited json_error idx e st)
  = skipped st + Z.of_nat (length (update_failure json_error idx r r'))
  ∧ errors (row_audited json_error idx e st)
    = errors st ++ update_failure json_error idx r r'.
Proof.
  intros Hb Ha. unfold row_audited, update_failure, audit_failure.
  rewrite Hb, Ha. cbn.
  destruct (json_error r); cbn; [done|].
  destruct (json_error r'); cbn; [done|]. by rewrite Z.add_0_r, app_nil_r.
Qed.

Lemma imported_new_at (now : Time) (row : CsvRow) (t t' : Store) :
  next_id t = next_id t' → imported_new now row t = imported_new now row t'.
Proof. unfold imported_new, insert_row. by intros ->. Qed.

(** A row that asks for a creation, field by field of the state. *)
Lemma import_row_creatable (json_error : JsonDumps) (user : CurrentUser.t)
    (idx : Z) (row : CsvRow) (st : ImportState) :
  creatable row →
  let r := imported_new (db_now (db st)) row (txn (db st)) in
  let st' := (import_row json_error user idx row st).2 in
  created st' = created st + 1
  ∧ updated st' = updated st
  ∧ skipped st'
    = skipped st + Z.of_nat (length (audit_failure json_error idx r))
  ∧ errors st' = errors st ++ audit_failure json_error idx r
  ∧ residents (txn (db st'))
    = <[next_id (txn (db st)) := r]> (residents (txn (db st)))
  ∧ next_id (txn (db st')) = next_id (txn (db st)) + 1
  ∧ db_now (db st') = db_now (db st)
  ∧ utc_now (db st') = utc_now (db st).
Proof.
  intros (Hn & Hu & Hi) r st'. subst st'.
  rewrite import_row_create by done. cbn [snd].
  destruct (row_audited_create json_error idx
              (AuditEntry.mk (Some (CurrentUser.id user))
                 (Some (CurrentUser.email user)) "IMPORT_CREATE_RESIDENT"
                 (Some "resident") (Some (PyStr.str_int (Resident.id r)))
                 None (Some r) (Some (MetaRow idx)) (utc_now (db st))) r
              (mkImport
                 (with_txn (db st)
                    (mkStore (<[next_id (txn (db st)) := r]>
                                (residents (txn (db st))))
                       (next_id (txn (db st)) + 1) (audit_log (txn (db st)))))
                 (created st + 1) (updated st) (skipped st) (errors st))
              eq_refl eq_refl) as [Hk He].
  fold (imported_new (db_now (db st)) row (txn (db st))). fold r.
  rewrite Hk, He, row_audited_residents, row_audited_next_id.
  destruct (row_audited_written json_error idx
              (AuditEntry.mk (Some (CurrentUser.id user))
                 (Some (CurrentUser.email user)) "IMPORT_CREATE_RESIDENT"
                 (Some "resident") (Some (PyStr.str_int (Resident.id r)))
                 None (Some r) (Some (MetaRow idx)) (utc_now (db st)))
              (mkImport
                 (with_txn (db st)
                    (mkStore (<[next_id (txn (db st)) := r]>
                                (residents (txn (db st))))
                       (next_id (txn (db st)) + 1) (audit_log (txn (db st)))))
                 (created st + 1) (updated st) (skipped st) (errors st)))
    as [-> ->].
  destruct (row_audited_clock json_error idx
              (AuditEntry.mk (Some (CurrentUser.id user))
                 (Some (CurrentUser.email user)) "IMPORT_CREATE_RESIDENT"
                 (Some "resident") (Some (PyStr.str_int (Resident.id r)))
                 None (Some r) (Some (MetaRow idx)) (utc_now (db st)))
              (mkImport
                 (with_txn (db st)
                    (mkStore (<[next_id (txn (db st)) := r]>
                                (residents (txn (db st))))
                       (next_id (txn (db st)) + 1) (audit_log (txn (db st)))))
                 (created st + 1) (updated st) (skipped st) (errors st)))
    as [-> ->].
  done.
Qed.

(** C2 fails on creation: the INSERT stores [is_active = false] as given
    and leaves [deactivated_at] to its default, so a resident created
    inactive has no deactivation time.  POST /residents answers with that
    resident and commits it when [json.dumps] serialises its snapshot, and
    fails with the [TypeError], leaving the database as it was, when it
    does not; the import of a row without id whose [is_active] column
    reads as false commits such a resident in either case. *)
Theorem residents_create_inactive_inconsistent (json_error : JsonDumps)
    (user : CurrentUser.t) (d : Store) (now utc : Time) :
  (∀ payload : ResidentCreate.t,
     ResidentCreate.is_active payload = false →
     ∃ r s',
       create_resident
         (NewResident.mk (ResidentCreate.full_name payload)
            (ResidentCreate.unit payload) (ResidentCreate.building payload)
            (ResidentCreate.floor payload) (ResidentCreate.phone payload)
            (ResidentCreate.email payload) None (ResidentCreate.notes payload)
            (ResidentCreate.is_active payload))
         (begin d now utc)
       = (Returned r, s')
       ∧ residents (txn s') !! next_id d = Some r
       ∧ Resident.is_active r = false
       ∧ Resident.deactivated_at r = None
       ∧ ¬ deactivation_consistent r
       ∧ match json_error r with
         | None =>
             ∃ d', run_request (residents_create json_error payload user)
                     d now utc
                   = (Returned r, d')
               ∧ residents d' !! next_id d = Some r
         | Some msg =>
             run_request (residents_create json_error payload user) d now utc
             = (Raised (TypeError msg), d)
         end)
  ∧ (∀ row : CsvRow,
       creatable row → is_active_column row = Some false →
       let r := imported_new now row d in
       ∃ res d',
         run_request (import_csv json_error (Some (records [row])) user)
           d now utc
         = (Returned res, d')
         ∧ CsvImportResult.created res = 1
         ∧ residents d' !! next_id d = Some r
         ∧ Resident.is_active r = false
         ∧ Resident.deactivated_at r = None
         ∧ ¬ deactivation_consistent r).
Proof.
  split.
  - intros payload Ha. eexists _, _. split; [reflexivity|]. cbn.
    split; [apply lookup_insert_eq|]. split; [done|]. split; [done|]. split.
    { unfold deactivation_consistent. cbn. intros [H _]. by apply H. }
    unfold run_request, residents_create, create_resident. run_m.
    rewrite write_audit_log_run. cbn [dumps_error mbind option_bind].
    destruct (json_error _); [done|].
    eexists. split; [reflexivity|]. cbn. apply lookup_insert_eq.
  - intros row Hc Ha r. unfold run_request.
    rewrite (import_csv_run _ _ _ _ _
               (import_rows_returns json_error user [row] 2 _)).
    unfold records. rewrite fmap_cons, import_rows_cons.
    cbn [fmap list_fmap import_rows]. unfold mret, M_ret. cbn [snd].
    destruct (import_row_creatable json_error user 2 row
                (mkImport (begin d now utc) 0 0 0 []) Hc)
      as (C1 & _ & _ & _ & R1 & _).
    cbn [db created begin txn db_now residents next_id] in C1, R1.
    fold r in R1.
    eexists _, _. split; [reflexivity|].
    cbn [CsvImportResult.created durable residents].
    split; [by rewrite C1|]. split; [rewrite R1; apply lookup_insert_eq|].
    assert (Hr : Resident.is_active r = false).
    { unfold r, imported_new, insert_row, row_insert. cbn. by rewrite Ha. }
    split; [done|]. split; [done|].
    unfold deactivation_consistent. rewrite Hr. intros [H _]. by apply H.
Qed.

(** C2 at its failing inputs: the payload and the row of an inactive
    Carol.  The route, where [json.dumps] serialises the snapshot, and the
    import, where it does not, commit her as resident 3, inactive and
    without deactivation time. *)
Lemma residents_create_inactive_inconsistent_witness :
  ResidentCreate.is_active inactive_payload = false
  ∧ (∃ r d', run_request (residents_create json_accepts inactive_payload admin)
               sample_store 9 10 = (Returned r, d')
       ∧ residents d' !! 3 = Some r
       ∧ Resident.is_active r = false
       ∧ Resident.deactivated_at r = None
       ∧ ¬ deactivation_consistent r)
  ∧ (∃ r res d',
       run_request
         (import_csv json_rejects (Some [RecordLine row_carol_inactive]) admin)
         sample_store 9 10
       = (Returned res, d')
       ∧ CsvImportResult.created res = 1
       ∧ residents d' !! 3 = Some r
       ∧ Resident.is_active r = false
       ∧ Resident.deactivated_at r = None).
Proof.
  split; [reflexivity|]. split.
  - destruct (residents_create_inactive_inconsistent json_accepts admin
                sample_store 9 10) as [Hpost _].
    destruct (Hpost inactive_payload eq_refl)
      as (r & s' & _ & _ & Ha & Hd & Hi & d' & Hrun & Hl).
    by exists r, d'.
  - destruct (residents_create_inactive_inconsistent json_rejects admin
                sample_store 9 10) as [_ Hcsv].
    destruct (Hcsv row_carol_inactive) as (res & d' & Hrun & Hc & Hl & Ha & Hd & _).
    + repeat split; (discriminate || reflexivity).
    + reflexivity.
    + eexists _, res, d'. by split_and!.
Defined.

(** The batch of the specification: three rows, the second without unit. *)
Lemma import_three_rows (json_error : JsonDumps) (user : CurrentUser.t)
    (r1 r2 r3 : CsvRow) (d : Store) (now utc : Time) :
  creatable r1 → column r2 "unit" = "" → creatable r3 →
  let a1 := imported_new now r1 d in
  let a3 := imported_new now r3
              (mkStore (residents d) (next_id d + 1) (audit_log d)) in
  let errs := audit_failure json_error 2 a1
              ++ ["Line 3: full_name and unit are required"]
              ++ audit_failure json_error 4 a3 in
  ∃ d', run_request (import_csv json_error (Some (records [r1; r2; r3])) user)
          d now utc
        = (Returned (CsvImportResult.mk 2 0 (Z.of_nat (length errs)) errs),
           d')
      ∧ residents d' !! next_id d = Some a1
      ∧ residents d' !! (next_id d + 1) = Some a3
      ∧ (∀ j, j ≠ next_id d → j ≠ next_id d + 1 →
              residents d' !! j = residents d !! j).
Proof.
  intros H1 Hu2 H3 a1 a3 errs.
  unfold run_request.
  rewrite (import_csv_run _ _ _ _ _
             (import_rows_returns json_error user [r1; r2; r3] 2 _)).
  unfold records. rewrite !fmap_cons.
  set (st0 := mkImport (begin d now utc) 0 0 0 []).
  rewrite import_rows_cons.
  pose proof (import_row_creatable json_error user 2 r1 st0 H1) as P1.
  set (st1 := (import_row json_error user 2 r1 st0).2) in *.
  rewrite import_rows_cons.
  assert (P2 : (import_row json_error user (2 + 1) r2 st1).2
               = skipped_state 3 (ValueError "full_name and unit are required")
                   st1).
  { unfold import_row, try_except. by rewrite import_row_invalid by by right. }
  rewrite P2.
  set (st2 := skipped_state 3 _ st1).
  rewrite import_rows_cons.
  pose proof (import_row_creatable json_error user (2 + 1 + 1) r3 st2 H3) as P3.
  set (st3 := (import_row json_error user (2 + 1 + 1) r3 st2).2) in *.
  cbn [fmap list_fmap import_rows]. unfold mret, M_ret. cbn [snd].
  cbn zeta in P1, P3.
  destruct P1 as (C1 & U1 & K1 & E1 & R1 & N1 & T1 & V1).
  destruct P3 as (C3 & U3 & K3 & E3 & R3 & N3 & T3 & V3).
  cbn [st0 st2 skipped_state db created updated skipped errors begin txn
       db_now utc_now next_id residents] in *.
  assert (A1 : imported_new now r1 d = a1) by done.
  assert (A3 : imported_new (db_now (db st1)) r3 (txn (db st1)) = a3).
  { rewrite T1. apply imported_new_at. by rewrite N1. }
  rewrite A1 in *. rewrite A3 in *.
  rewrite C3, U3, K3, E3, R3, N3, C1, U1, K1, E1, R1, N1.
  change (2 + 1 + 1) with 4.
  replace (0 + Z.of_nat (length (audit_failure json_error 2 a1)) + 1
           + Z.of_nat (length (audit_failure json_error 4 a3)))
    with (Z.of_nat (length errs))
    by (unfold errs; rewrite !length_app; cbn [length]; lia).
  replace ((([] ++ audit_failure json_error 2 a1)
            ++ ["Line " +:+ PyStr.str_int 3 +:+ ": "
                +:+ str_exn (ValueError "full_name and unit are required")])
           ++ audit_failure json_error 4 a3)
    with errs by (unfold errs; by rewrite <- !app_assoc).
  eexists. split; [reflexivity|]. cbn. split_and!.
  - rewrite lookup_insert_ne by lia. apply lookup_insert_eq.
  - by rewrite lookup_insert_eq.
  - intros j Hj1 Hj2. by rewrite !lookup_insert_ne.
Qed.

(** C3, as the code has it.  A row whose [try] block raises is counted in
    [skipped] and reported as "Line n: message", and the loop goes on with
    the lines after it; but n is the number of the record among the
    records that the reader yields, the header counting as 1, so that a
    record after [k] empty lines, which stands on line [2 + k], is reported
    as line 2; and a row whose audit snapshot [json.dumps] rejects has
    written and is counted as created or updated before it is counted as
    skipped.  In the batch of three rows whose second has no unit, the
    first and the third are created and committed, and [skipped] is 1 plus
    the number of created residents whose snapshot is rejected.  An error of
    the reader stops the request, and nothing is committed. *)
Theorem import_csv_isolates_row_failures (json_error : JsonDumps)
    (user : CurrentUser.t) :
  (∀ (pre : list CsvRow) (post : list CsvLine) (row : CsvRow)
     (st st2 : ImportState) (e : Exn),
     let st1 := (import_rows json_error user 2 (records pre) st).2 in
     let n := 2 + Z.of_nat (length pre) in
     import_row_body json_error user n row st1 = (Raised e, st2) →
     import_rows json_error user 2 (records pre ++ RecordLine row :: post) st
     = import_rows json_error user (n + 1) post
         (mkImport (db st2) (created st2) (updated st2) (skipped st2 + 1)
            (errors st2 ++
             ["Line " +:+ PyStr.str_int n +:+ ": " +:+ str_exn e]))
     ∧ ((∀ msg, e ≠ TypeError msg) → st2 = st1))
  ∧ (∀ (k : nat) (row : CsvRow) (d : Store) (now utc : Time),
       column row "unit" = "" →
       ∃ d', run_request
               (import_csv json_error
                  (Some (replicate k BlankLine ++ [RecordLine row])) user)
               d now utc
             = (Returned (CsvImportResult.mk 0 0 1
                            ["Line 2: full_name and unit are required"]),
                d'))
  ∧ (∀ (r1 r2 r3 : CsvRow) (d : Store) (now utc : Time),
       creatable r1 → column r2 "unit" = "" → creatable r3 →
       let a1 := imported_new now r1 d in
       let a3 := imported_new now r3
                   (mkStore (residents d) (next_id d + 1) (audit_log d)) in
       let errs := audit_failure json_error 2 a1
                   ++ ["Line 3: full_name and unit are required"]
                   ++ audit_failure json_error 4 a3 in
       ∃ d', run_request
               (import_csv json_error (Some (records [r1; r2; r3])) user)
               d now utc
             = (Returned
                  (CsvImportResult.mk 2 0 (Z.of_nat (length errs)) errs), d')
           ∧ residents d' !! next_id d = Some a1
           ∧ residents d' !! (next_id d + 1) = Some a3
           ∧ (∀ j, j ≠ next_id d → j ≠ next_id d + 1 →
                   residents d' !! j = residents d !! j))
  ∧ (∀ (pre : list CsvRow) (msg : string) (post : list CsvLine)
       (d : Store) (now utc : Time),
       run_request
         (import_csv json_error (Some (records pre ++ BadLine msg :: post))
            user) d now utc
       = (Raised (CsvError msg), d)).
Proof.
  split_and!.
  - intros pre post row st st2 e st1 n Hb. split.
    + by apply import_rows_isolates_failure.
    + by apply (import_row_body_raises json_error user n row).
  - intros k row d now utc Hu. unfold run_request.
    assert (Hrun :
      import_rows json_error user 2 (replicate k BlankLine ++ [RecordLine row])
        (mkImport (begin d now utc) 0 0 0 [])
      = (Returned (),
         skipped_state 2 (ValueError "full_name and unit are required")
           (mkImport (begin d now utc) 0 0 0 []))).
    { rewrite import_rows_blank, import_rows_cons.
      unfold import_row, try_except.
      by rewrite import_row_invalid by by right. }
    rewrite (import_csv_run _ _ _ _ _ Hrun). cbn. by eexists.
  - intros. by apply import_three_rows.
  - intros pre msg post d now utc. unfold run_request, import_csv.
    rewrite import_rows_bad. cbn [fst snd].
    by rewrite import_rows_durable.
Qed.

(** C3 at its failing inputs.  An empty line before a row without unit:
    the row stands on line 3 and is reported as line 2.  The batch of the
    specification where [created_at] and [updated_at] are timestamps:
    both created rows are counted as skipped too. *)
Lemma import_csv_isolates_row_failures_witness :
  column row_no_unit "unit" = ""
  ∧ [BlankLine; RecordLine row_no_unit] !! 1%nat = Some (RecordLine row_no_unit)
  ∧ (run_request
       (import_csv json_accepts (Some [BlankLine; RecordLine row_no_unit])
          admin) sample_store 9 10).1
    = Returned (CsvImportResult.mk 0 0 1
                  ["Line 2: full_name and unit are required"])
  ∧ (run_request
       (import_csv json_rejects
          (Some (records [row_ann; row_no_unit; row_cy])) admin)
       sample_store 9 10).1
    = Returned
        (CsvImportResult.mk 2 0 3
           ["Line 2: Object of type datetime is not JSON serializable";
            "Line 3: full_name and unit are required";
            "Line 4: Object of type datetime is not JSON serializable"]).
Proof.
  split; [reflexivity|]. split; [reflexivity|]. split.
  - destruct (import_csv_isolates_row_failures json_accepts admin)
      as (_ & Hblank & _).
    destruct (Hblank 1%nat row_no_unit sample_store 9 10 eq_refl)
      as (d' & Hrun).
    exact (f_equal fst Hrun).
  - destruct (import_csv_isolates_row_failures json_rejects admin)
      as (_ & _ & Hex & _).
    destruct (Hex row_ann row_no_unit row_cy sample_store 9 10)
      as (d' & Hrun & _).
    + repeat split; (discriminate || reflexivity).
    + reflexivity.
    + repeat split; (discriminate || reflexivity).
    + exact (f_equal fst Hrun).
Defined.

Lemma nullable_column_absent (row : CsvRow) (key : string) :
  row !! key = None → nullable_column row key = None.
Proof. unfold nullable_column. intros H. by rewrite (column_absent _ _ H). Qed.

Lemma nullable_column_present (row : CsvRow) (key v : string) :
  row !! key = Some v →
  nullable_column row key
  = if bool_decide (PyStr.strip v = "") then None else Some (PyStr.strip v).
Proof.
  unfold nullable_column, column, PyStr.or_none. intros ->. cbn.
  unfold PyStr.strip. destruct (PyStr.rstrip (PyStr.lstrip v)).
  - by rewrite bool_decide_eq_true_2.
  - by rewrite bool_decide_eq_false_2.
Qed.

(** C4, as the import builds it: the patch of a row always carries
    [building], [floor], [phone], [email] and [notes]; a column that is
    blank, and likewise a column that the file does not have, gives null,
    and an update row writes that null over the stored value.  Only
    [is_active] is left out of the patch when its column is absent or
    blank. *)
Theorem row_patch_nulls_blank_and_absent (json_error : JsonDumps)
    (user : CurrentUser.t) (full_name unit : string) (row : CsvRow) :
  let patch := row_patch full_name unit row in
  (Patch.building patch = Some (nullable_column row "building")
   ∧ Patch.floor patch = Some (nullable_column row "floor")
   ∧ Patch.phone patch = Some (nullable_column row "phone")
   ∧ Patch.email patch = Some (nullable_column row "email")
   ∧ Patch.notes patch = Some (nullable_column row "notes"))
  ∧ (∀ key, row !! key = None → nullable_column row key = None)
  ∧ (∀ key v, row !! key = Some v →
       nullable_column row key
       = if bool_decide (PyStr.strip v = "") then None
         else Some (PyStr.strip v))
  ∧ (row !! "is_active" = None → Patch.is_active patch = None)
  ∧ (∀ v, row !! "is_active" = Some v → PyStr.strip v = "" →
          Patch.is_active patch = None)
  ∧ (∀ idx st resident_id r,
       column row "full_name" ≠ "" →
       column row "unit" ≠ "" →
       column row "id" ≠ "" →
       PyStr.int (column row "id") = Some resident_id →
       residents (txn (db st)) !! resident_id = Some r →
       residents (txn (db (import_row json_error user idx row st).2))
         !! resident_id
       = Some (imported_over (db_now (db st)) row r)).
Proof.
  intros patch. split_and!; try done.
  - apply nullable_column_absent.
  - apply nullable_column_present.
  - unfold patch, row_patch, is_active_column. cbn. by intros ->.
  - unfold patch, row_patch, is_active_column. cbn. intros v -> Hv.
    by rewrite bool_decide_eq_false_2 by (by intros []).
  - intros idx st i r Hn Hu Hi Hp Hl.
    rewrite (import_row_update json_error user idx row st i r) by done.
    cbn [snd]. rewrite row_audited_residents. cbn. apply lookup_insert_eq.
Qed.

Lemma row_patch_nulls_blank_and_absent_witness :
  row_alice_short !! "building" = None
  ∧ nullable_column row_alice_short "building" = None
  ∧ residents (txn sample_session) !! 1 = Some alice
  ∧ residents
      (txn (db (import_row json_rejects admin 2 row_alice_short
                  (mkImport sample_session 0 0 0 [])).2)) !! 1
    = Some (imported_over 9 row_alice_short alice).
Proof.
  destruct (row_patch_nulls_blank_and_absent json_rejects admin "Alice" "12"
              row_alice_short) as (_ & Habs & _ & _ & _ & Hupd).
  split; [reflexivity|]. split; [by apply Habs|]. split; [reflexivity|].
  apply (Hupd 2 (mkImport sample_session 0 0 0 []) 1 alice);
    [discriminate|discriminate|discriminate|reflexivity|reflexivity].
Defined.

(** C4 as stated fails: the file has no [building] column, and the update
    row sets the resident's building to null, whether or not [json.dumps]
    serialises the snapshots of the row's audit entry. *)
Lemma import_update_clears_absent_column :
  row_alice_short !! "building" = None
  ∧ Patch.building (row_patch "Alice" "12" row_alice_short) = Some None
  ∧ Resident.building <$> residents sample_store !! 1 = Some (Some "A")
  ∧ (∃ d', run_request
             (import_csv json_accepts (Some [RecordLine row_alice_short])
                admin) sample_store 9 10
           = (Returned (CsvImportResult.mk 0 1 0 []), d')
         ∧ Resident.building <$> residents d' !! 1 = Some None)
  ∧ (∃ res d', run_request
                 (import_csv json_rejects (Some [RecordLine row_alice_short])
                    admin) sample_store 9 10
               = (Returned res, d')
         ∧ CsvImportResult.updated res = 1
         ∧ Resident.building <$> residents d' !! 1 = Some None).
Proof.
  split; [reflexivity|]. split; [reflexivity|]. split; [reflexivity|]. split.
  - exists (run_request
              (import_csv json_accepts (Some [RecordLine row_alice_short])
                 admin) sample_store 9 10).2.
    split; vm_compute; reflexivity.
  - eexists _, (run_request
                  (import_csv json_rejects (Some [RecordLine row_alice_short])
                     admin) sample_store 9 10).2.
    split; [vm_compute; reflexivity|]. split; vm_compute; reflexivity.
Qed.

(** ** The order of a listing *)

Lemma cmp_eq_r {A} (c : A → A → comparison) (a b d : A) :
  CmpOrder c → c b d = Eq → c a b = c a d.
Proof.
  intros H Hbd.
  rewrite (cmp_flip c H b a), (cmp_flip c H d a). f_equal.
  apply (cmp_eq_l c H). done.
Qed.

Lemma cmp_refl {A} (c : A → A → comparison) (a : A) :
  CmpOrder c → c a a = Eq.
Proof.
  intros H. pose proof (cmp_flip c H a a) as Hf. by destruct (c a a).
Qed.

Lemma cmp_text_order : CmpOrder cmp_text.
Proof.
  assert (Heq : ∀ a b, cmp_text a b = Eq → a = b).
  { intros a b H. unfold cmp_text in H.
    by destruct (String_as_OT.compare_spec a b). }
  assert (Hflip : ∀ a b, cmp_text b a = CompOpp (cmp_text a b)).
  { intros a b. unfold cmp_text.
    destruct (String_as_OT.compare_spec a b) as [Hab|Hab|Hab];
      destruct (String_as_OT.compare_spec b a) as [Hba|Hba|Hba];
      cbn; try done; exfalso.
    all: unfold String_as_OT.eq in *; subst.
    all: first [ eapply (irreflexivity String_as_OT.lt); eassumption
               | eapply (irreflexivity String_as_OT.lt); etrans;
                 eassumption ]. }
  assert (Hlt : ∀ a b d, cmp_text a b = Lt → cmp_text b d = Lt →
                         cmp_text a d = Lt).
  { intros a b d. apply (transitivity (R := String_as_OT.lt)). }
  split; [done| |].
  - intros a b d [] Hab Hbd.
    + apply Heq in Hab as ->. done.
    + by apply Hlt with b.
    + rewrite Hflip. rewrite (Hlt d b a); [done|..].
      * rewrite Hflip, Hbd. done.
      * rewrite Hflip, Hab. done.
  - intros a b d Hab. by apply Heq in Hab as ->.
Qed.

Lemma cmp_bool_desc_order : CmpOrder cmp_bool_desc.
Proof.
  split.
  - by intros [] [].
  - intros [] [] [] x; cbn; congruence.
  - by intros [] [] [].
Qed.

Lemma cmp_nulls_last_order {A} (c : A → A → comparison) :
  CmpOrder c → CmpOrder (cmp_nulls_last c).
Proof.
  intros H. split.
  - intros [a|] [b|]; cbn; try done. apply (cmp_flip c H).
  - intros [a|] [b|] [d|] x; cbn; try congruence. apply (cmp_trans c H).
  - intros [a|] [b|] [d|]; cbn; try done. apply (cmp_eq_l c H).
Qed.

Lemma cmp_on_order {A B} (f : A → B) (c : B → B → comparison) :
  CmpOrder c → CmpOrder (λ a b, c (f a) (f b)).
Proof.
  intros H. split.
  - intros a b. apply (cmp_flip c H).
  - intros a b d x. apply (cmp_trans c H).
  - intros a b d. apply (cmp_eq_l c H).
Qed.

Lemma lex_order {A} (c1 c2 : A → A → comparison) :
  CmpOrder c1 → CmpOrder c2 → CmpOrder (λ a b, lex (c1 a b) (c2 a b)).
Proof.
  intros H1 H2. split.
  - intros a b. rewrite (cmp_flip c1 H1 a b), (cmp_flip c2 H2 a b).
    by destruct (c1 a b).
  - intros a b d x. unfold lex.
    destruct (c1 a b) eqn:Hab.
    + rewrite (cmp_eq_l c1 H1 a b d Hab).
      destruct (c1 b d) eqn:Hbd; [apply (cmp_trans c2 H2)|congruence..].
    + intros <-. destruct (c1 b d) eqn:Hbd;
        [|by rewrite (cmp_trans c1 H1 a b d Lt)|done].
      by rewrite <- (cmp_eq_r c1 a b d H1 Hbd), Hab.
    + intros <-. destruct (c1 b d) eqn:Hbd;
        [|done|by rewrite (cmp_trans c1 H1 a b d Gt)].
      by rewrite <- (cmp_eq_r c1 a b d H1 Hbd), Hab.
  - intros a b d. unfold lex. destruct (c1 a b) eqn:Hab; [|done..].
    intros Hab2. rewrite (cmp_eq_l c1 H1 a b d Hab).
    by rewrite (cmp_eq_l c2 H2 a b d Hab2).
Qed.

Lemma order_by_order : CmpOrder order_by.
Proof.
  unfold order_by.
  apply (lex_order (λ a b, cmp_bool_desc (Resident.is_active a)
                             (Resident.is_active b))).
  { apply (cmp_on_order Resident.is_active), cmp_bool_desc_order. }
  apply (lex_order (λ a b, cmp_nulls_last cmp_text (Resident.building a)
                             (Resident.building b))).
  { apply (cmp_on_order Resident.building), cmp_nulls_last_order,
      cmp_text_order. }
  apply (lex_order (λ a b, cmp_nulls_last cmp_text (Resident.floor a)
                             (Resident.floor b))).
  { apply (cmp_on_order Resident.floor), cmp_nulls_last_order,
      cmp_text_order. }
  apply (lex_order (λ a b, cmp_text (Resident.unit a) (Resident.unit b))).
  { apply (cmp_on_order Resident.unit), cmp_text_order. }
  apply (cmp_on_order Resident.full_name), cmp_text_order.
Qed.

#[global] Instance order_le_total : Total order_le.
Proof.
  intros a b. unfold order_le.
  rewrite (cmp_flip order_by order_by_order a b).
  destruct (order_by a b); cbn; by eauto.
Qed.

#[global] Instance order_le_trans : Transitive order_le.
Proof.
  intros a b d. unfold order_le. intros Hab Hbd.
  destruct (order_by a b) eqn:Eab; [| |done].
  - by rewrite (cmp_eq_l order_by order_by_order a b d Eab).
  - destruct (order_by b d) eqn:Ebd; [| |done].
    + by rewrite <- (cmp_eq_r order_by a b d order_by_order Ebd), Eab.
    + by rewrite (cmp_trans order_by order_by_order a b d Lt).
Qed.

Lemma lex_le (c1 c2 : comparison) :
  lex c1 c2 ≠ Gt → c1 ≠ Gt ∧ (c1 = Eq → c2 ≠ Gt).
Proof. by destruct c1. Qed.

Lemma nulls_last_le_cmp (x y : option string) :
  cmp_nulls_last cmp_text x y ≠ Gt → nulls_last_le x y.
Proof. by destruct x, y. Qed.

Lemma cmp_nulls_last_refl (x : option string) :
  cmp_nulls_last cmp_text x x = Eq.
Proof. apply cmp_refl, cmp_nulls_last_order, cmp_text_order. Qed.

Lemma order_le_listed_before (a b : Resident.t) :
  order_le a b → listed_before a b.
Proof.
  unfold order_le, order_by, listed_before. intros H.
  apply lex_le in H as [Hact H]. split.
  { by destruct (Resident.is_active a), (Resident.is_active b). }
  intros Ea. rewrite Ea in H.
  specialize (H (cmp_refl _ _ cmp_bool_desc_order)).
  apply lex_le in H as [Hb H]. split; [by apply nulls_last_le_cmp|].
  intros Eb. rewrite Eb in H. specialize (H (cmp_nulls_last_refl _)).
  apply lex_le in H as [Hf H]. split; [by apply nulls_last_le_cmp|].
  intros Ef. rewrite Ef in H. specialize (H (cmp_nulls_last_refl _)).
  apply lex_le in H as [Hu H]. split; [done|].
  intros Eu. rewrite Eu in H. apply H, cmp_refl, cmp_text_order.
Qed.

Lemma StronglySorted_lookup {A} (R : relation A) (l : list A) (i j : nat)
    (a b : A) :
  StronglySorted R l → (i < j)%nat →
  l !! i = Some a → l !! j = Some b → R a b.
Proof.
  intros Hs. revert i j. induction Hs as [|x l Hs IH Hx]; intros i j Hij.
  { done. }
  destruct j as [|j]; [lia|]. destruct i as [|i]; cbn.
  - intros [= ->] Hb. rewrite Forall_lookup in Hx. by eapply Hx.
  - apply IH. lia.
Qed.

Lemma select_ordered_sorted (ilike : string → string → bool)
    (q building floor unit : option string) (is_active : option bool)
    (t : Store) :
  StronglySorted order_le
    (select_ordered ilike q building floor unit is_active t).
Proof. apply StronglySorted_merge_sort; apply _. Qed.

Lemma page_sorted {A} (R : relation A) (l : list A) (limit offset : nat) :
  StronglySorted R l → StronglySorted R (take limit (drop offset l)).
Proof.
  intros Hs. rewrite <- (take_drop offset l) in Hs.
  apply StronglySorted_app_1_r in Hs.
  rewrite <- (take_drop limit (drop offset l)) in Hs.
  by apply StronglySorted_app_1_l in Hs.
Qed.

(** C8: a page of [list_residents] is in the order of its ORDER BY clause:
    of two residents of the page the earlier one is listed before the
    later one, so every active resident comes before every inactive one,
    then building, floor, unit and full name ascend, each deciding among
    ties of the keys before it, and a null building or floor comes after
    every value. *)
Theorem list_residents_ordered (ilike : string → string → bool)
    (q building floor unit : option string) (is_active : option bool)
    (limit offset : Z) (s : Session) :
  0 ≤ limit → 0 ≤ offset →
  ∃ items total,
    list_residents ilike q building floor unit is_active limit offset s
    = (Returned (items, total), s)
    ∧ StronglySorted order_le items
    ∧ (∀ i j a b, (i < j)%nat → items !! i = Some a → items !! j = Some b →
         listed_before a b)
    ∧ (∀ i j a b, (i < j)%nat → items !! i = Some a → items !! j = Some b →
         Resident.is_active a = Resident.is_active b →
         (Resident.building a = None → Resident.building b = None)
         ∧ (Resident.building a = Resident.building b →
            Resident.floor a = None → Resident.floor b = None)).
Proof.
  intros Hl Ho. unfold list_residents.
  rewrite (proj2 (Z.ltb_ge limit 0) Hl), (proj2 (Z.ltb_ge offset 0) Ho). cbn.
  eexists _, _. split; [done|].
  assert (Hs : StronglySorted order_le
                 (take (Z.to_nat limit) (drop (Z.to_nat offset)
                    (select_ordered ilike q building floor unit is_active
                       (txn s))))).
  { apply page_sorted, select_ordered_sorted. }
  split; [done|].
  assert (Hp : ∀ i j a b, (i < j)%nat →
            take (Z.to_nat limit) (drop (Z.to_nat offset)
              (select_ordered ilike q building floor unit is_active (txn s)))
              !! i = Some a →
            take (Z.to_nat limit) (drop (Z.to_nat offset)
              (select_ordered ilike q building floor unit is_active (txn s)))
              !! j = Some b → listed_before a b).
  { intros i j a b Hij Ha Hb. apply order_le_listed_before.
    by apply (StronglySorted_lookup _ _ i j a b Hs). }
  split; [done|].
  intros i j a b Hij Ha Hb Eact.
  destruct (Hp i j a b Hij Ha Hb) as [_ Hk].
  destruct (Hk Eact) as [Hbld Hk']. split.
  - intros E. rewrite E in Hbld. by destruct (Resident.building b).
  - intros Eb E. destruct (Hk' Eb) as [Hfl _]. rewrite E in Hfl.
    by destruct (Resident.floor b).
Qed.

Lemma list_residents_ordered_witness :
  0 ≤ 50 ∧ 0 ≤ 0
  ∧ ∃ items total,
      list_residents (λ _ _, true) None None None None None 50 0
        sample_session = (Returned (items, total), sample_session)
      ∧ items = [alice; bob]
      ∧ StronglySorted order_le items.
Proof.
  split; [lia|]. split; [lia|].
  destruct (list_residents_ordered (λ _ _, true) None None None None None
              50 0 sample_session) as (items & total & Hr & Hs & _);
    [lia|lia|].
  exists items, total. split; [done|]. split; [|done].
  vm_compute in Hr. by injection Hr as <- _.
Defined.

(** ** Text of integers and booleans, read back *)

Lemma literal_ok_digits (d : Decimal.uint) :
  PyStr.literal_ok true (NilEmpty.string_of_uint d) = true.
Proof. induction d; cbn; done. Qed.

Lemma literal_ok_number (d : Decimal.uint) :
  d ≠ Decimal.Nil →
  PyStr.literal_ok false (NilEmpty.string_of_uint d) = true.
Proof. destruct d; [done|..]; intros _; cbn; apply literal_ok_digits. Qed.

Lemma drop_underscores_digits (d : Decimal.uint) :
  PyStr.drop_underscores (NilEmpty.string_of_uint d)
  = NilEmpty.string_of_uint d.
Proof. induction d; cbn; by rewrite ?IHd. Qed.

Lemma unsigned_literal_digits (d : Decimal.uint) :
  d ≠ Decimal.Nil →
  PyStr.unsigned_literal (NilEmpty.string_of_uint d) = Some (Z.of_uint d).
Proof.
  intros Hd. unfold PyStr.unsigned_literal.
  rewrite literal_ok_number by done.
  by rewrite drop_underscores_digits, NilEmpty.usu.
Qed.

Lemma int_digits (d : Decimal.uint) :
  d ≠ Decimal.Nil →
  PyStr.int (NilEmpty.string_of_uint d) = Some (Z.of_uint d).
Proof.
  intros Hd. rewrite <- (unsigned_literal_digits d Hd).
  by destruct d.
Qed.

Lemma of_uint_pos (p : positive) : Z.of_uint (Pos.to_uint p) = Z.pos p.
Proof. unfold Z.of_uint. by rewrite DecimalPos.Unsigned.of_to. Qed.

(** [int(str(n)) == n] *)
Lemma int_str_int (z : Z) : PyStr.int (PyStr.str_int z) = Some z.
Proof.
  unfold PyStr.str_int.
  destruct z as [|p|p]; cbn [Z.to_int NilEmpty.string_of_int].
  - done.
  - rewrite int_digits by apply DecimalPos.Unsigned.to_uint_nonnil.
    by rewrite of_uint_pos.
  - cbn [PyStr.int].
    rewrite unsigned_literal_digits
      by apply DecimalPos.Unsigned.to_uint_nonnil.
    by rewrite of_uint_pos.
Qed.

Lemma rstrip_no_space (s : string) : no_space s = true → PyStr.rstrip s = s.
Proof.
  induction s as [|c t IH]; [done|]. cbn.
  intros [Hc Ht]%andb_prop. rewrite (IH Ht).
  destruct t; [|done]. by destruct (PyStr.is_space c).
Qed.

Lemma strip_no_space (s : string) : no_space s = true → PyStr.strip s = s.
Proof.
  intros H. unfold PyStr.strip.
  assert (PyStr.lstrip s = s) as ->; [|by apply rstrip_no_space].
  destruct s as [|c t]; [done|]. cbn in *.
  by destruct (PyStr.is_space c).
Qed.

Lemma no_space_digits (d : Decimal.uint) :
  no_space (NilEmpty.string_of_uint d) = true.
Proof. induction d; cbn; done. Qed.

Lemma no_space_str_int (z : Z) : no_space (PyStr.str_int z) = true.
Proof.
  unfold PyStr.str_int.
  destruct z; cbn [Z.to_int NilEmpty.string_of_int];
    [done|apply no_space_digits|cbn; apply no_space_digits].
Qed.

Lemma strip_str_int (z : Z) : PyStr.strip (PyStr.str_int z) = PyStr.str_int z.
Proof. apply strip_no_space, no_space_str_int. Qed.

Lemma str_int_not_empty (z : Z) : PyStr.str_int z ≠ "".
Proof.
  intros H. pose proof (int_str_int z) as Hi. by rewrite H in Hi.
Qed.

(** ** Export followed by import *)

Section RoundTrip.

Variable json_error : JsonDumps.
Variable ilike : string → string → bool.
Variable str_datetime : Time → string.

Ltac lookup_written :=
  unfold writerow; cbn [list_to_map foldr uncurry fst snd];
  repeat (rewrite lookup_insert_ne by done); apply lookup_insert_eq.

Lemma writerow_id r :
  writerow str_datetime r !! "id" = Some (PyStr.str_int (Resident.id r)).
Proof. lookup_written. Qed.

Lemma writerow_full_name r :
  writerow str_datetime r !! "full_name" = Some (Resident.full_name r).
Proof. lookup_written. Qed.

Lemma writerow_unit r :
  writerow str_datetime r !! "unit" = Some (Resident.unit r).
Proof. lookup_written. Qed.

Lemma writerow_building r :
  writerow str_datetime r !! "building" = Some (cell id (Resident.building r)).
Proof. lookup_written. Qed.

Lemma writerow_floor r :
  writerow str_datetime r !! "floor" = Some (cell id (Resident.floor r)).
Proof. lookup_written. Qed.

Lemma writerow_phone r :
  writerow str_datetime r !! "phone" = Some (cell id (Resident.phone r)).
Proof. lookup_written. Qed.

Lemma writerow_email r :
  writerow str_datetime r !! "email" = Some (cell id (Resident.email r)).
Proof. lookup_written. Qed.

Lemma writerow_notes r :
  writerow str_datetime r !! "notes" = Some (cell id (Resident.notes r)).
Proof. lookup_written. Qed.

Lemma writerow_is_active r :
  writerow str_datetime r !! "is_active"
  = Some (PyStr.str_bool (Resident.is_active r)).
Proof. lookup_written. Qed.

Lemma column_written_id r :
  column (writerow str_datetime r) "id" = PyStr.str_int (Resident.id r).
Proof. unfold column. rewrite writerow_id. apply strip_str_int. Qed.

Lemma nullable_written (o : option string) (row : CsvRow) (key : string) :
  row !! key = Some (cell id o) → nullable_column row key = normalized o.
Proof.
  unfold nullable_column, column, normalized. intros ->. by destruct o.
Qed.

Lemma is_active_written r :
  is_active_column (writerow str_datetime r) = Some (Resident.is_active r).
Proof.
  unfold is_active_column. rewrite writerow_is_active.
  by destruct (Resident.is_active r).
Qed.

(** Reading back the record written for [r] gives [reimported]. *)
Lemma imported_over_written (now : Time) (r : Resident.t) :
  imported_over now (writerow str_datetime r) r = reimported now r.
Proof.
  unfold imported_over, reimported.
  rewrite is_active_written.
  rewrite (nullable_written (Resident.building r)) by apply writerow_building.
  rewrite (nullable_written (Resident.floor r)) by apply writerow_floor.
  rewrite (nullable_written (Resident.phone r)) by apply writerow_phone.
  rewrite (nullable_written (Resident.email r)) by apply writerow_email.
  rewrite (nullable_written (Resident.notes r)) by apply writerow_notes.
  unfold column. rewrite writerow_full_name, writerow_unit. cbn.
  by destruct (Resident.is_active r).
Qed.

(** The record written for a stored resident is read back as an update of
    that resident, field by field of the state. *)
Lemma import_row_written (user : CurrentUser.t) (idx : Z) (r : Resident.t)
    (st : ImportState) :
  nonblank r →
  residents (txn (db st)) !! Resident.id r = Some r →
  let r' := reimported (db_now (db st)) r in
  let st' := (import_row json_error user idx (writerow str_datetime r) st).2 in
  created st' = created st
  ∧ updated st' = updated st + 1
  ∧ skipped st'
    = skipped st + Z.of_nat (length (update_failure json_error idx r r'))
  ∧ errors st' = errors st ++ update_failure json_error idx r r'
  ∧ residents (txn (db st')) = <[Resident.id r := r']> (residents (txn (db st)))
  ∧ db_now (db st') = db_now (db st)
  ∧ utc_now (db st') = utc_now (db st)
  ∧ durable (db st') = durable (db st).
Proof.
  intros [Hn Hu] Hl r' st'. subst st'.
  rewrite (import_row_update json_error user idx _ st (Resident.id r) r).
  - rewrite imported_over_written. fold r'. cbn [snd].
    set (e := AuditEntry.mk _ _ _ _ _ _ _ _ _).
    set (st1 := mkImport _ _ _ _ _).
    destruct (row_audited_update json_error idx e r r' st1 eq_refl eq_refl)
      as [-> ->].
    destruct (row_audited_written json_error idx e st1) as [-> ->].
    destruct (row_audited_clock json_error idx e st1) as [-> ->].
    by rewrite row_audited_residents, row_audited_durable.
  - unfold column. by rewrite writerow_full_name.
  - unfold column. by rewrite writerow_unit.
  - rewrite column_written_id. apply str_int_not_empty.
  - rewrite column_written_id. apply int_str_int.
  - done.
Qed.

(** The loop over the records written for [items], residents of the
    session with distinct ids: every row is an update, and is counted as
    skipped too when [json.dumps] rejects a snapshot of its audit entry. *)
Lemma import_rows_written (user : CurrentUser.t) (items : list Resident.t) :
  ∀ (idx : Z) (st : ImportState),
  NoDup (Resident.id <$> items) →
  Forall nonblank items →
  (∀ r, r ∈ items → residents (txn (db st)) !! Resident.id r = Some r) →
  let errs := reimport_failures json_error (db_now (db st)) idx items in
  let st' := (import_rows json_error user idx
                (records (writerow str_datetime <$> items)) st).2 in
  created st' = created st
  ∧ updated st' = updated st + Z.of_nat (length items)
  ∧ skipped st' = skipped st + Z.of_nat (length errs)
  ∧ errors st' = errors st ++ errs
  ∧ db_now (db st') = db_now (db st)
  ∧ utc_now (db st') = utc_now (db st)
  ∧ durable (db st') = durable (db st)
  ∧ (∀ r, r ∈ items →
       residents (txn (db st')) !! Resident.id r
       = Some (reimported (db_now (db st)) r))
  ∧ (∀ j, j ∉ Resident.id <$> items →
       residents (txn (db st')) !! j = residents (txn (db st)) !! j).
Proof.
  induction items as [|r items IH]; intros idx st Hnd Hnb Hl.
  { cbn. split_and!; try done; [lia|lia|by rewrite app_nil_r|].
    intros r Hr. by apply elem_of_nil in Hr. }
  rewrite fmap_cons in Hnd. apply NoDup_cons in Hnd as [Hr Hnd].
  apply Forall_cons in Hnb as [Hb Hnb].
  unfold records. rewrite !fmap_cons, import_rows_cons.
  destruct (import_row_written user idx r st Hb (Hl r ltac:(left)))
    as (C1 & U1 & K1 & E1 & R1 & T1 & V1 & D1).
  set (st1 := (import_row json_error user idx (writerow str_datetime r) st).2)
    in *.
  assert (Hl1 : ∀ r', r' ∈ items →
            residents (txn (db st1)) !! Resident.id r' = Some r').
  { intros r' Hr'. rewrite R1, lookup_insert_ne.
    - apply Hl. by right.
    - intros E. apply Hr. rewrite E. by apply list_elem_of_fmap_2. }
  destruct (IH (idx + 1) st1 Hnd Hnb Hl1)
    as (Hc & Hu & Hs & He & Hn & Hut & Hd & Hin & Hout).
  fold (records (writerow str_datetime <$> items)).
  rewrite T1 in Hs, He, Hin.
  cbn [reimport_failures].
  split_and!.
  - by rewrite Hc.
  - rewrite Hu, U1, length_cons. lia.
  - rewrite Hs, K1, length_app. lia.
  - by rewrite He, E1, app_assoc.
  - by rewrite Hn.
  - by rewrite Hut.
  - by rewrite Hd.
  - intros r' [->|Hr']%elem_of_cons.
    + rewrite Hout by done. rewrite R1. apply lookup_insert_eq.
    + by rewrite Hin.
  - intros j [Hj1 Hj2]%not_elem_of_cons.
    rewrite Hout by done. rewrite R1. by rewrite lookup_insert_ne.
Qed.

(** When [json.dumps] serialises the snapshots of the residents, the
    import that reads their export back files no error. *)
Lemma reimport_failures_none (now : Time) (items : list Resident.t) :
  ∀ idx : Z,
  (∀ r, r ∈ items →
     json_error r = None ∧ json_error (reimported now r) = None) →
  reimport_failures json_error now idx items = [].
Proof.
  induction items as [|r items IH]; intros idx H; [done|].
  cbn. rewrite IH by (intros r' Hr'; apply H; by right).
  destruct (H r ltac:(left)) as [H1 H2].
  unfold update_failure, audit_failure. by rewrite H1, H2.
Qed.

Lemma select_ordered_stored (q building floor unit : option string)
    (is_active : option bool) (t : Store) (r : Resident.t) :
  r ∈ select_ordered ilike q building floor unit is_active t →
  ∃ k, residents t !! k = Some r.
Proof.
  unfold select_ordered. rewrite merge_sort_Permutation.
  intros [_ Hr]%list_elem_of_filter.
  apply list_elem_of_fmap in Hr as ([k r'] & -> & Hr).
  exists k. by apply elem_of_map_to_list.
Qed.

Lemma select_ordered_ids (q building floor unit : option string)
    (is_active : option bool) (t : Store) :
  keys_match t →
  NoDup (Resident.id <$>
           select_ordered ilike q building floor unit is_active t).
Proof.
  intros Hk. unfold select_ordered. rewrite merge_sort_Permutation.
  eapply sublist_NoDup; [|apply fmap_sublist, sublist_filter].
  rewrite <- list_fmap_compose.
  rewrite (list_fmap_ext _ fst).
  - apply NoDup_fst_map_to_list.
  - intros i [k r] Hi. cbn. apply Hk.
    apply elem_of_map_to_list, list_elem_of_lookup. by exists i.
Qed.

Lemma filter_all {A} (P : A → Prop) `{∀ x, Decision (P x)} (l : list A) :
  Forall P l → filter P l = l.
Proof.
  induction 1 as [|x l Hx Hl IH]; [done|].
  by rewrite filter_cons_True, IH.
Qed.

Lemma select_ordered_all (t : Store) :
  length (select_ordered ilike None None None None None t)
  = size (residents t).
Proof.
  unfold select_ordered. rewrite merge_sort_Permutation.
  rewrite filter_all by by apply Forall_forall.
  by rewrite length_fmap, length_map_to_list.
Qed.

Lemma exported_sublist (q building floor unit : option string)
    (is_active : option bool) (d : Store) :
  exported ilike q building floor unit is_active d
  `sublist_of` select_ordered ilike q building floor unit is_active d.
Proof.
  unfold exported. etrans; [apply sublist_take|apply sublist_drop].
Qed.

(** C5, as the code has it.  In a database whose residents have a name and
    a unit that are not blank, an export (under any filter) followed by the
    import of the records it wrote, read back as they were written, updates
    every exported resident and creates nothing: [created] is 0 and
    [updated] is the number of records.  A row is counted in [skipped] as
    well, with an error line, exactly when [json.dumps] rejects a snapshot
    of its audit entry; when it rejects none, nothing is skipped.  After the
    round trip an exported resident [r] is [reimported now r]: id, photo,
    activity and the creation and update times are as before, the text
    columns are trimmed and null when blank, and [deactivated_at] is null
    for an active resident and the time of the import for an inactive one.
    The other residents are as before. *)
Theorem export_import_round_trip (user : CurrentUser.t)
    (q building floor unit : option string) (is_active : option bool)
    (d : Store) (now utc now' utc' : Time) :
  keys_match d →
  all_nonblank d →
  let items := exported ilike q building floor unit is_active d in
  let errs := reimport_failures json_error now' 2 items in
  ∃ d1 d2,
    run_request
      (export_csv json_error ilike str_datetime q building floor unit
         is_active user)
      d now utc
    = (Returned (fieldnames, writerow str_datetime <$> items), d1)
    ∧ residents d1 = residents d
    ∧ run_request
        (import_csv json_error
           (Some (records (writerow str_datetime <$> items))) user)
        d1 now' utc'
      = (Returned
           (CsvImportResult.mk 0 (Z.of_nat (length items))
              (Z.of_nat (length errs)) errs), d2)
    ∧ ((∀ r, r ∈ items →
          json_error r = None ∧ json_error (reimported now' r) = None) →
       errs = [])
    ∧ (∀ r, r ∈ items →
         residents d !! Resident.id r = Some r
         ∧ residents d2 !! Resident.id r = Some (reimported now' r))
    ∧ (∀ j, j ∉ Resident.id <$> items →
         residents d2 !! j = residents d !! j)
    ∧ (q = None → building = None → floor = None → unit = None →
       is_active = None →
       length items = Nat.min (Z.to_nat 100000) (size (residents d))).
Proof.
  intros Hk Hnb items errs.
  assert (Hst : ∀ r, r ∈ items → residents d !! Resident.id r = Some r).
  { intros r Hr. eapply elem_of_sublist in Hr; [|apply exported_sublist].
    apply select_ordered_stored in Hr as [k Hr].
    by rewrite (Hk k r Hr). }
  assert (Hnd : NoDup (Resident.id <$> items)).
  { eapply sublist_NoDup; [by apply select_ordered_ids|].
    apply fmap_sublist, exported_sublist. }
  assert (Hb : Forall nonblank items).
  { apply Forall_forall. intros r Hr. by apply (Hnb (Resident.id r) r), Hst. }
  set (d1 := mkStore (residents d) (next_id d)
               (audit_log d ++
                [AuditEntry.mk (Some (CurrentUser.id user))
                   (Some (CurrentUser.email user)) "EXPORT_CSV"
                   (Some "resident") None None None
                   (Some (MetaFilters q building floor unit is_active)) utc])).
  pose (st0 := mkImport (begin d1 now' utc') 0 0 0 []).
  destruct (import_rows_written user items 2 st0 Hnd Hb)
    as (Hc & Hu & Hs & He & Hn & Hut & Hd & Hin & Hout); [done|].
  cbn [st0 db created updated skipped errors begin db_now utc_now durable]
    in Hc, Hu, Hs, He, Hn, Hut, Hd, Hin.
  fold errs in Hs, He.
  exists d1. eexists. split.
  { unfold run_request, export_csv, list_residents. run_m.
    change ((100000 <? 0) || (0 <? 0)) with false. cbn beta iota.
    by rewrite write_audit_log_run. }
  split; [done|]. split.
  { unfold run_request.
    rewrite (import_csv_run _ _ _ _ _
               (import_rows_returns json_error user _ 2 _)).
    fold st0. rewrite Hc, Hu, Hs, He, !Z.add_0_l, app_nil_l. reflexivity. }
  cbn [durable]. split_and!.
  - by apply reimport_failures_none.
  - intros r Hr. split; [by apply Hst|]. by rewrite Hin.
  - intros j Hj. by rewrite Hout.
  - intros -> -> -> -> ->. unfold items, exported.
    rewrite length_take, drop_0. by rewrite select_ordered_all.
Qed.

End RoundTrip.

(** [keys_match] is kept by every write of the repository. *)
Lemma keys_match_kept (s : Session) :
  keys_match (txn s) →
  (∀ data, keys_match (txn (create_resident data s).2))
  ∧ (∀ i patch, keys_match (txn (update_resident i patch s).2))
  ∧ (∀ i url, keys_match (txn (set_resident_photo_url i url s).2)).
Proof.
  intros Hk. split_and!.
  - intros data k r. cbn. intros [[<- <-]|[_ Hr]]%lookup_insert_Some; [done|].
    by apply Hk.
  - intros i patch. unfold update_resident.
    destruct (Patch.is_empty patch); [done|].
    destruct (residents (txn s) !! i) as [r0|] eqn:Hl; [|done].
    destruct (update_row (db_now s) patch r0) as [r'|] eqn:Hu; [|done].
    intros k r. cbn. intros [[<- <-]|[_ Hr]]%lookup_insert_Some.
    + trans (Resident.id r0); [|by apply Hk].
      by apply (update_row_frame _ _ _ _ col_id Hu).
    + by apply Hk.
  - intros i url. unfold set_resident_photo_url.
    destruct (residents (txn s) !! i) as [r0|] eqn:Hl; [|done].
    intros k r. cbn. intros [[<- <-]|[_ Hr]]%lookup_insert_Some.
    + cbn. by apply Hk.
    + by apply Hk.
Qed.

Lemma normalized_trimmed (o : option string) : trimmed o → normalized o = o.
Proof.
  destruct o as [x|]; [|done]. unfold normalized.
  change (default "" (Some x)) with x. intros [-> Hx]. by destruct x.
Qed.

(** A resident whose text is trimmed, with no blank column, and which is
    active without a deactivation time comes back from the round trip
    as it was. *)
Lemma reimported_clean (now : Time) (r : Resident.t) :
  PyStr.strip (Resident.full_name r) = Resident.full_name r →
  PyStr.strip (Resident.unit r) = Resident.unit r →
  trimmed (Resident.building r) → trimmed (Resident.floor r) →
  trimmed (Resident.phone r) → trimmed (Resident.email r) →
  trimmed (Resident.notes r) →
  Resident.is_active r = true → Resident.deactivated_at r = None →
  reimported now r = r.
Proof.
  intros Hn Hu Hb Hf Hp He Hno Ha Hd. unfold reimported.
  rewrite Hn, Hu, Ha, !normalized_trimmed by done.
  destruct r; cbn in *. by subst.
Qed.

Lemma export_import_round_trip_witness :
  keys_match sample_store
  ∧ all_nonblank sample_store
  ∧ ∃ d1 d2,
      run_request
        (export_csv json_rejects (λ _ _, true) PyStr.str_int None None None
           None None admin) sample_store 8 8
      = (Returned (fieldnames,
                   writerow PyStr.str_int <$>
                     exported (λ _ _, true) None None None None None
                       sample_store), d1)
      ∧ run_request
          (import_csv json_rejects
             (Some (records
                      (writerow PyStr.str_int <$>
                         exported (λ _ _, true) None None None None None
                           sample_store))) admin) d1 9 10
        = (Returned
             (CsvImportResult.mk 0 2 2
                ["Line 2: Object of type datetime is not JSON serializable";
                 "Line 3: Object of type datetime is not JSON serializable"]),
           d2)
      ∧ residents d2 !! 2 = Some (reimported 9 bob).
Proof.
  assert (Hk : keys_match sample_store) by compute_done.
  assert (Hb : all_nonblank sample_store) by compute_done.
  split; [exact Hk|]. split; [exact Hb|].
  destruct (export_import_round_trip json_rejects (λ _ _, true) PyStr.str_int
              admin None None None None None sample_store 8 8 9 10
              Hk Hb)
    as (d1 & d2 & Hex & _ & Him & _ & Hin & _).
  exists d1, d2. split; [exact Hex|]. split; [exact Him|].
  apply (Hin bob). vm_compute. apply list_elem_of_In. right. by left.
Defined.

(** C5 as stated fails.  Re-importing the export of the sample database at
    time 9 updates both residents, and Bob, inactive since time 5, is now
    inactive since time 9: [deactivated_at], which the import does not
    read from the file, has drifted.  Both rows are counted as skipped as
    well as updated, since [json.dumps] rejects the timestamps of their
    snapshots.  And the record of a resident whose unit is blank is
    skipped, not updated. *)
Lemma export_import_drifts :
  (round_trip json_rejects (λ _ _, true) PyStr.str_int admin sample_store
     8 8 9 10).1
  = Returned
      (CsvImportResult.mk 0 2 2
         ["Line 2: Object of type datetime is not JSON serializable";
          "Line 3: Object of type datetime is not JSON serializable"])
  ∧ Resident.deactivated_at <$> residents sample_store !! 2 = Some (Some 5)
  ∧ Resident.deactivated_at <$>
      residents
        (round_trip json_rejects (λ _ _, true) PyStr.str_int admin
           sample_store 8 8 9 10).2
      !! 2 = Some (Some 9)
  ∧ (round_trip json_rejects (λ _ _, true) PyStr.str_int admin blank_store
       8 8 9 10).1
    = Returned (CsvImportResult.mk 0 0 1
                  ["Line 2: full_name and unit are required"]).
Proof. split_and!; vm_compute; reflexivity. Qed.

(** * Further properties of the code *)

(** ** Text *)

Lemma lstrip_no_lead (s : string) :
  match PyStr.lstrip s with
  | String c _ => PyStr.is_space c = false
  | EmptyString => True
  end.
Proof.
  induction s as [|c t IH]; [done|]. cbn.
  destruct (PyStr.is_space c) eqn:Hc; [done|]. by rewrite Hc.
Qed.

Lemma rstrip_head (c : ascii) (t : string) :
  PyStr.is_space c = false →
  ∃ t', PyStr.rstrip (String c t) = String c t'.
Proof.
  intros Hc. cbn. destruct (PyStr.rstrip t); [|by eauto].
  rewrite Hc. by eauto.
Qed.

Lemma rstrip_idemp (s : string) : PyStr.rstrip (PyStr.rstrip s) = PyStr.rstrip s.
Proof.
  induction s as [|c t IH]; [done|]. cbn.
  destruct (PyStr.rstrip t) as [|c' t'] eqn:Ht.
  - destruct (PyStr.is_space c) eqn:Hc; [done|]. cbn. by rewrite Hc.
  - change (PyStr.rstrip (String c (String c' t')))
      with (match PyStr.rstrip (String c' t') with
            | EmptyString =>
                if PyStr.is_space c then EmptyString else String c EmptyString
            | t'' => String c t''
            end).
    by rewrite IH.
Qed.

(** [strip] is idempotent. *)
Lemma strip_idemp (s : string) : PyStr.strip (PyStr.strip s) = PyStr.strip s.
Proof.
  unfold PyStr.strip. pose proof (lstrip_no_lead s) as Hl.
  destruct (PyStr.lstrip s) as [|c t]; [done|].
  destruct (rstrip_head c t Hl) as [t' Ht]. rewrite Ht.
  cbn [PyStr.lstrip]. rewrite Hl, <- Ht. apply rstrip_idemp.
Qed.

Lemma occurs_lstrip ch s : occurs ch (PyStr.lstrip s) = true → occurs ch s = true.
Proof.
  induction s as [|c t IH]; [done|]. cbn.
  destruct (PyStr.is_space c); [|done]. intros H. rewrite (IH H).
  apply orb_true_r.
Qed.

Lemma occurs_rstrip ch s : occurs ch (PyStr.rstrip s) = true → occurs ch s = true.
Proof.
  induction s as [|c t IH]; [done|]. cbn.
  destruct (PyStr.rstrip t) as [|c' t'] eqn:Ht.
  - destruct (PyStr.is_space c); [done|]. cbn.
    rewrite orb_false_r. by intros ->.
  - cbn [occurs]. intros [->|H]%orb_prop; [done|].
    rewrite (IH H). apply orb_true_r.
Qed.

Lemma occurs_strip ch s : occurs ch (PyStr.strip s) = true → occurs ch s = true.
Proof. intros H. by apply occurs_lstrip, occurs_rstrip. Qed.

Lemma split_not_nil sep s : PyText.split sep s ≠ [].
Proof. induction s as [|c t IH]; [done|]. cbn. by repeat case_match. Qed.

(** No part of a split contains the separator. *)
Lemma split_no_sep sep s :
  Forall (λ x, occurs sep x = false) (PyText.split sep s).
Proof.
  induction s as [|c t IH]; cbn.
  - by repeat constructor.
  - destruct (Ascii.eqb c sep) eqn:Hc; [by constructor|].
    destruct (PyText.split sep t) as [|h rest]; [repeat constructor|].
    + cbn. by rewrite Hc.
    + apply Forall_cons in IH as [Hh Hr]. constructor; [|done].
      cbn. by rewrite Hc.
Qed.

Lemma split_single sep s : occurs sep s = false → PyText.split sep s = [s].
Proof.
  induction s as [|c t IH]; [done|]. cbn [PyText.split occurs].
  intros [Hc Ht]%orb_false_elim. by rewrite Hc, (IH Ht).
Qed.

Lemma split_app sep s t :
  occurs sep s = false →
  PyText.split sep (s +:+ String sep t) = s :: PyText.split sep t.
Proof.
  induction s as [|c s IH]; simpl.
  - intros _. by rewrite Ascii.eqb_refl.
  - intros [Hc Hs]%orb_false_elim. by rewrite Hc, (IH Hs).
Qed.

Lemma split_join (xs : list string) :
  xs ≠ [] → Forall (λ x, occurs "," x = false) xs →
  PyText.split "," (PyText.join "," xs) = xs.
Proof.
  induction xs as [|p rest IH]; [done|]. intros _ [Hp Hr]%Forall_cons.
  destruct rest as [|q rest]; [by apply split_single|].
  change (PyText.join "," (p :: q :: rest))
    with (p +:+ String "," (PyText.join "," (q :: rest))).
  rewrite split_app by done. by rewrite IH.
Qed.

Lemma join_truthy (xs : list string) :
  xs ≠ [] → Forall (λ x, x ≠ "") xs → PyStr.truthy (PyText.join "," xs) = true.
Proof.
  destruct xs as [|p rest]; [done|]. intros _ [Hp _]%Forall_cons.
  destruct p; [done|]. by destruct rest.
Qed.

(** ** Settings *)

(** X1: every item that [_split_csv] returns is trimmed, not empty and
    free of commas, whatever the text. *)
Theorem split_csv_items (value : option string) :
  Forall csv_item (_split_csv value).
Proof.
  destruct value as [value|]; [|constructor]. unfold _split_csv.
  destruct (negb (PyStr.truthy value)); [constructor|].
  apply Forall_fmap, Forall_forall. intros v [Hv Hin]%list_elem_of_filter.
  pose proof (split_no_sep "," value) as Hs.
  rewrite Forall_forall in Hs. specialize (Hs v Hin). cbn in Hs.
  split_and!; cbn.
  - apply strip_idemp.
  - by apply truthy_true.
  - destruct (occurs "," (PyStr.strip v)) eqn:Ho; [|done].
    apply occurs_strip in Ho. congruence.
Qed.

(** X2: [_split_csv] reads back a list that was written with commas: for
    items that are trimmed, not empty and free of commas,
    [_split_csv(",".join(items)) == items]. *)
Theorem split_csv_join (xs : list string) :
  Forall csv_item xs → _split_csv (Some (PyText.join "," xs)) = xs.
Proof.
  intros Hx. destruct (decide (xs = [])) as [->|Hne]; [done|].
  unfold _split_csv.
  rewrite join_truthy; [|done|by eapply Forall_impl; [done|intros ? (?&?&?)]].
  cbn [negb].
  rewrite split_join; [|done|by eapply Forall_impl; [done|intros ? (?&?&?)]].
  rewrite filter_all.
  - clear Hne. induction Hx as [|x xs (Hs & _ & _) _ IH]; [done|].
    by rewrite fmap_cons, Hs, IH.
  - eapply Forall_impl; [done|]. intros x (Hs & Hn & _). cbn.
    rewrite Hs. by apply truthy_ne.
Qed.

Lemma split_csv_join_witness :
  Forall csv_item ["GET"; "POST"; "PUT"]
  ∧ _split_csv (Some "GET,POST,PUT") = ["GET"; "POST"; "PUT"].
Proof.
  split; [compute_done|].
  apply (split_csv_join ["GET"; "POST"; "PUT"]). compute_done.
Defined.

Lemma or_else_set (env : Environ) (a b : string) :
  (∃ v, PyText.or_else (env !! a) (env !! b) = Some v ∧ PyStr.truthy v = true)
  ↔ env_set env a ∨ env_set env b.
Proof.
  unfold env_set, PyText.or_else.
  destruct (env !! a) as [[|c v]|]; cbn; destruct (env !! b) as [[|c' v']|].
  all: split;
    [ intros (x & [= <-] & Hx); try done; (by left; eauto) || (by right; eauto)
    | intros [(x & [= <-] & Hx)|(x & [= <-] & Hx)]; try done; by eauto ].
Qed.

Lemma or_default_not_empty (x : option string) (d : string) :
  d ≠ "" → PyText.or_default x d ≠ "".
Proof. by destruct x as [[|c v]|]. Qed.

Lemma rstrip_char_no_end (ch : ascii) (s : string) :
  ends_with ch (PyText.rstrip_char ch s) = false.
Proof.
  induction s as [|c t IH]; [done|]. cbn.
  destruct (PyText.rstrip_char ch t) as [|c' t'] eqn:Ht.
  - destruct (Ascii.eqb c ch) eqn:Hc; [done|]. cbn. by rewrite Hc.
  - done.
Qed.

Lemma cors_list_not_nil (env : Environ) (name : string) :
  cors_list env name ≠ [].
Proof. unfold cors_list. by destruct (_split_csv _). Qed.

Lemma env_int_inr (env : Environ) (name default : string) :
  (∃ n, env_int env name default = inr n) ↔ env_int_ok env name default.
Proof.
  unfold env_int, env_int_ok. destruct (PyText.int _) as [n|].
  - split; [by eauto|]. intros _. by exists n.
  - split; [by intros [n Hn]|]. by intros [n Hn].
Qed.

(** X3: [get_settings] loads the settings exactly when a database URL is
    set ([POSTGRES_URL] or [DATABASE_URL], an empty value counting as
    unset), [JWT_SECRET] is set, and the two integer settings, with their
    defaults, read as integers; without a URL, and then without a secret,
    it raises its [RuntimeError]. *)
Theorem get_settings_loads_iff (env : Environ) :
  ((∃ c, get_settings env = inr c)
   ↔ (env_set env "POSTGRES_URL" ∨ env_set env "DATABASE_URL")
     ∧ env_set env "JWT_SECRET"
     ∧ env_int_ok env "CORS_MAX_AGE" "3600"
     ∧ env_int_ok env "JWT_EXP_MINUTES" "480")
  ∧ (¬ (env_set env "POSTGRES_URL" ∨ env_set env "DATABASE_URL") →
     get_settings env
     = inl (RuntimeError "Missing POSTGRES_URL (or DATABASE_URL) environment variable for Postgres connection."))
  ∧ (env_set env "POSTGRES_URL" ∨ env_set env "DATABASE_URL" →
     ¬ env_set env "JWT_SECRET" →
     get_settings env
     = inl (RuntimeError "Missing JWT_SECRET environment variable for JWT signing.")).
Proof.
  pose proof (or_else_set env "POSTGRES_URL" "DATABASE_URL") as Hurl.
  pose proof (env_int_inr env "CORS_MAX_AGE" "3600") as Hc.
  pose proof (env_int_inr env "JWT_EXP_MINUTES" "480") as He.
  unfold get_settings.
  destruct (PyText.or_else _ _) as [url|].
  2:{ split_and!; [|done|].
      - split; [by intros [c Hc']|]. intros [Hu _]. apply Hurl in Hu.
        by destruct Hu as (v & Hv & _).
      - intros Hu. apply Hurl in Hu. by destruct Hu as (v & Hv & _). }
  destruct (PyStr.truthy url) eqn:Hturl; cbn [negb].
  2:{ split_and!.
      - split; [by intros [c Hc']|]. intros [Hu _]. apply Hurl in Hu.
        destruct Hu as (v & [= <-] & Hv). congruence.
      - done.
      - intros Hu. apply Hurl in Hu.
        destruct Hu as (v & [= <-] & Hv). congruence. }
  assert (Hset : env_set env "POSTGRES_URL" ∨ env_set env "DATABASE_URL").
  { apply Hurl. by exists url. }
  destruct (env !! "JWT_SECRET") as [secret|] eqn:Hsecret.
  2:{ split_and!; [|done|done]. split; [by intros [c Hc']|].
      intros (_ & (v & Hv & _) & _). congruence. }
  destruct (PyStr.truthy secret) eqn:Hts; cbn [negb].
  2:{ assert (secret = "") as -> by by destruct secret.
      split_and!; [|done|done]. split; [by intros [c Hc']|].
      intros (_ & (v & Hv & Hne) & _). congruence. }
  assert (Hsec : env_set env "JWT_SECRET").
  { exists secret. split; [done|]. by apply truthy_true. }
  split_and!; [|done|intros _ Hn; by destruct (Hn Hsec)].
  destruct (env_int env "CORS_MAX_AGE" "3600") as [e|n].
  { split; [by intros [c Hc']|]. intros (_ & _ & Hok & _).
    apply Hc in Hok. by destruct Hok. }
  destruct (env_int env "JWT_EXP_MINUTES" "480") as [e|m].
  { split; [by intros [c Hc']|]. intros (_ & _ & _ & Hok).
    apply He in Hok. by destruct Hok. }
  split; [|by eauto]. intros _. split_and!; [done|done|..].
  - apply Hc. by eauto.
  - apply He. by eauto.
Qed.

(** X4: settings that [get_settings] has loaded are usable as they are:
    the three CORS lists are never empty, the database URL is not empty
    and is [POSTGRES_URL] whenever that is set, the secret, the issuer, the
    audience and the upload directory are not empty, and the public base
    URL does not end with a slash. *)
Theorem get_settings_loaded (env : Environ) (c : AppSettings.t) :
  get_settings env = inr c →
  AppSettings.allowed_origins c ≠ []
  ∧ AppSettings.allowed_methods c ≠ []
  ∧ AppSettings.allowed_headers c ≠ []
  ∧ AppSettings.postgres_url c ≠ ""
  ∧ (env_set env "POSTGRES_URL" →
     env !! "POSTGRES_URL" = Some (AppSettings.postgres_url c))
  ∧ AppSettings.jwt_secret c ≠ ""
  ∧ AppSettings.jwt_issuer c ≠ ""
  ∧ AppSettings.jwt_audience c ≠ ""
  ∧ AppSettings.upload_dir c ≠ ""
  ∧ ends_with "/" (AppSettings.public_base_url c) = false.
Proof.
  unfold get_settings.
  destruct (PyText.or_else _ _) as [url|] eqn:Hurl; [|done].
  destruct (PyStr.truthy url) eqn:Hturl; cbn [negb]; [|done].
  destruct (env !! "JWT_SECRET") as [secret|]; [|done].
  destruct (PyStr.truthy secret) eqn:Hts; cbn [negb]; [|done].
  destruct (env_int env "CORS_MAX_AGE" "3600") as [e|n]; [done|].
  destruct (env_int env "JWT_EXP_MINUTES" "480") as [e|m]; [done|].
  intros [= <-]. cbn. split_and!.
  - apply cors_list_not_nil.
  - apply cors_list_not_nil.
  - apply cors_list_not_nil.
  - by apply truthy_true.
  - intros (v & Hv & Hne). unfold PyText.or_else in Hurl.
    rewrite Hv in Hurl. rewrite Hv. rewrite (truthy_ne v Hne) in Hurl.
    congruence.
  - by apply truthy_true.
  - by apply or_default_not_empty.
  - by apply or_default_not_empty.
  - by apply or_default_not_empty.
  - apply rstrip_char_no_end.
Qed.

Lemma get_settings_loaded_witness :
  get_settings sample_env = inr sample_app_settings
  ∧ AppSettings.allowed_methods sample_app_settings ≠ []
  ∧ ends_with "/" (AppSettings.public_base_url sample_app_settings) = false.
Proof.
  assert (H : get_settings sample_env = inr sample_app_settings)
    by (vm_compute; reflexivity).
  split; [exact H|].
  destruct (get_settings_loaded sample_env sample_app_settings H)
    as (_ & Hm & _ & _ & _ & _ & _ & _ & _ & He).
  by split.
Defined.

(** ** Database URL *)

Lemma startswith_app (p rest : string) : PyText.startswith p (p +:+ rest) = true.
Proof. induction p as [|c p IH]; [done|]. simpl. by rewrite Ascii.eqb_refl. Qed.

Lemma startswith_inv (p s : string) :
  PyText.startswith p s = true → ∃ rest, s = p +:+ rest.
Proof.
  revert s. induction p as [|c p IH]; intros s; [by exists s|].
  destruct s as [|c' s]; [done|]. simpl.
  intros [Hc Hs]%andb_prop. apply Ascii.eqb_eq in Hc as ->.
  destruct (IH s Hs) as [rest ->]. by exists rest.
Qed.

Lemma drop_app (p rest : string) :
  PyText.drop (String.length p) (p +:+ rest) = rest.
Proof. induction p as [|c p IH]; [by destruct rest|]. done. Qed.

(** [replace] with count 1 rewrites a prefix in place. *)
Lemma replace_first_prefix (old new rest : string) :
  PyText.replace_first old new (old +:+ rest) = new +:+ rest.
Proof.
  assert (Hu : ∀ s, PyText.replace_first old new s
            = if PyText.startswith old s
              then new +:+ PyText.drop (String.length old) s
              else match s with
                   | EmptyString => EmptyString
                   | String c t => String c (PyText.replace_first old new t)
                   end) by by intros [].
  by rewrite Hu, startswith_app, drop_app.
Qed.

(** X5: the database URL is accepted exactly when it starts with
    [postgresql://] or [postgresql+asyncpg://]; the URL handed to the engine
    then has the scheme [postgresql+asyncpg://] and the rest of the URL
    unchanged, and converting it again changes nothing.  Every other URL
    stops the start with a [RuntimeError]. *)
Theorem async_database_url_scheme (postgres_url : string) :
  match async_database_url postgres_url with
  | inr url =>
      ∃ rest,
        (postgres_url = "postgresql://" +:+ rest
         ∨ postgres_url = "postgresql+asyncpg://" +:+ rest)
        ∧ url = "postgresql+asyncpg://" +:+ rest
        ∧ async_database_url url = inr url
  | inl e =>
      PyText.startswith "postgresql://" postgres_url = false
      ∧ PyText.startswith "postgresql+asyncpg://" postgres_url = false
      ∧ e = RuntimeError "Unsupported POSTGRES_URL scheme. Expected postgresql://... or postgresql+asyncpg://..."
  end.
Proof.
  unfold async_database_url.
  destruct (PyText.startswith "postgresql://" postgres_url) eqn:H1.
  - apply startswith_inv in H1 as [rest ->]. exists rest.
    rewrite replace_first_prefix. split_and!; [by left|done|].
    assert (Hs : PyText.startswith "postgresql://"
                   ("postgresql+asyncpg://" +:+ rest) = false) by done.
    unfold async_database_url. rewrite Hs. by rewrite startswith_app.
  - destruct (PyText.startswith "postgresql+asyncpg://" postgres_url) eqn:H2;
      [|done].
    apply startswith_inv in H2 as [rest ->]. exists rest.
    split_and!; [by right|done|].
    assert (Hs : PyText.startswith "postgresql://"
                   ("postgresql+asyncpg://" +:+ rest) = false) by done.
    unfold async_database_url. rewrite Hs. by rewrite startswith_app.
Qed.

(** ** The resident repository *)

(** X6: in a store whose ids are all below the sequence, [create_resident]
    stores the resident under an id that no resident had, with the nine
    columns as given; [get_resident] on that id then returns it; every
    resident that was stored is still stored, unchanged; the audit log is
    untouched; and the ids are again below the sequence, so the next
    creation gets another id. *)
Theorem create_resident_then_get (data : NewResident.t) (s : Session) :
  ids_below (txn s) →
  ∃ r s', create_resident data s = (Returned r, s')
    ∧ residents (txn s) !! Resident.id r = None
    ∧ get_resident (Resident.id r) s' = (Returned (Some r), s')
    ∧ stored_as data r
    ∧ (∀ j r0, residents (txn s) !! j = Some r0 →
               residents (txn s') !! j = Some r0)
    ∧ audit_log (txn s') = audit_log (txn s)
    ∧ ids_below (txn s')
    ∧ Resident.id r < next_id (txn s').
Proof.
  intros Hb. eexists _, _. split; [reflexivity|]. cbn.
  assert (Hfresh : residents (txn s) !! next_id (txn s) = None).
  { destruct (residents (txn s) !! next_id (txn s)) as [r0|] eqn:Hl; [|done].
    apply Hb in Hl. lia. }
  split_and!; try done.
  - unfold get_resident, gets. cbn. by rewrite lookup_insert_eq.
  - intros j r0 Hj. rewrite lookup_insert_ne; [done|]. congruence.
  - intros k r0. cbn. intros [[<- <-]|[_ Hr]]%lookup_insert_Some; [lia|].
    apply Hb in Hr. lia.
  - lia.
Qed.

Lemma create_resident_then_get_witness :
  ids_below (txn sample_session)
  ∧ ∃ r s', create_resident sample_new_resident sample_session
            = (Returned r, s')
    ∧ Resident.id r = 3
    ∧ get_resident (Resident.id r) s' = (Returned (Some r), s').
Proof.
  assert (Hb : ids_below (txn sample_session)) by compute_done.
  split; [exact Hb|].
  destruct (create_resident_then_get sample_new_resident sample_session Hb)
    as (r & s' & Hc & _ & Hg & _).
  exists r, s'. split; [exact Hc|]. split; [|exact Hg].
  vm_compute in Hc. by injection Hc as <- _.
Defined.

(** ** Listing *)

Lemma filter_snd_length {A} (P : A → Prop) `{∀ x, Decision (P x)}
    (l : list (Z * A)) :
  length (filter P (l.*2)) = length (filter (λ kr, P kr.2) l).
Proof.
  induction l as [|[k x] l IH]; [done|]. cbn [fmap list_fmap snd].
  rewrite !filter_cons. cbn [snd].
  destruct (decide (P x)); cbn [length]; by rewrite IH.
Qed.

Lemma matching_size (test : Resident.t → bool) (t : Store) :
  length (filter (λ r, test r = true) ((map_to_list (residents t)).*2))
  = size (matching test t).
Proof.
  unfold matching. rewrite map_filter_alt, map_size_list_to_map.
  - exact (filter_snd_length (λ r, test r = true) _).
  - eapply sublist_NoDup; [apply (NoDup_fst_map_to_list (residents t))|].
    apply fmap_sublist, sublist_filter.
Qed.

Lemma select_ordered_elem (ilike : string → string → bool)
    (q building floor unit : option string) (is_active : option bool)
    (t : Store) (r : Resident.t) :
  r ∈ select_ordered ilike q building floor unit is_active t
  ↔ (∃ k, residents t !! k = Some r)
    ∧ where_clause ilike q building floor unit is_active r = true.
Proof.
  unfold select_ordered. rewrite merge_sort_Permutation, list_elem_of_filter.
  rewrite list_elem_of_fmap. split.
  - intros [Hw ([k r'] & -> & Hr)]. split; [|done].
    exists k. by apply elem_of_map_to_list.
  - intros [[k Hk] Hw]. split; [done|].
    exists (k, r). split; [done|]. by apply elem_of_map_to_list.
Qed.

Lemma given_in_force (o : option string) (v : string)
    (test : string → bool) :
  in_force o v → given o test = test v.
Proof.
  intros [-> Hv]. unfold given.
  destruct v; [done|]. done.
Qed.

Lemma where_clause_filters (ilike : string → string → bool)
    (q building floor unit : option string) (is_active : option bool)
    (r : Resident.t) :
  where_clause ilike q building floor unit is_active r = true →
  (∀ b, in_force building b → Resident.building r = Some b)
  ∧ (∀ f, in_force floor f → Resident.floor r = Some f)
  ∧ (∀ u, in_force unit u → Resident.unit r = u)
  ∧ (∀ a, is_active = Some a → Resident.is_active r = a).
Proof.
  unfold where_clause. rewrite !andb_true_iff.
  intros [[[[_ Hb] Hf] Hu] Ha]. split_and!.
  - intros b Hi. rewrite (given_in_force _ _ _ Hi) in Hb.
    by apply bool_decide_eq_true in Hb.
  - intros f Hi. rewrite (given_in_force _ _ _ Hi) in Hf.
    by apply bool_decide_eq_true in Hf.
  - intros u Hi. rewrite (given_in_force _ _ _ Hi) in Hu.
    by apply bool_decide_eq_true in Hu.
  - intros a ->. by apply bool_decide_eq_true in Ha.
Qed.

(** X7: with a limit and an offset that are not negative, [list_residents]
    returns and writes nothing; its total is the number of residents of the
    table that the WHERE clause selects, whatever the page; the page has
    min(limit, total - offset) residents, none when the offset is past the
    end; every resident of the page is stored, and agrees with each filter
    in force (a building, floor or unit that is given and not empty, an
    is_active that is given); and the first page, when the limit reaches
    the total, has every resident that the clause selects. *)
Theorem list_residents_page (ilike : string → string → bool)
    (q building floor unit : option string) (is_active : option bool)
    (limit offset : Z) (s : Session) :
  0 ≤ limit → 0 ≤ offset →
  ∃ items total,
    list_residents ilike q building floor unit is_active limit offset s
    = (Returned (items, total), s)
    ∧ total
      = Z.of_nat
          (size (matching (where_clause ilike q building floor unit is_active)
                   (txn s)))
    ∧ Z.of_nat (length items) = Z.max 0 (Z.min limit (total - offset))
    ∧ (∀ r, r ∈ items →
         (∃ k, residents (txn s) !! k = Some r)
         ∧ (∀ b, in_force building b → Resident.building r = Some b)
         ∧ (∀ f, in_force floor f → Resident.floor r = Some f)
         ∧ (∀ u, in_force unit u → Resident.unit r = u)
         ∧ (∀ a, is_active = Some a → Resident.is_active r = a))
    ∧ (offset = 0 → total ≤ limit →
       ∀ k r, residents (txn s) !! k = Some r →
         where_clause ilike q building floor unit is_active r = true →
         r ∈ items).
Proof.
  intros Hl Ho. unfold list_residents.
  replace (limit <? 0) with false by (symmetry; by apply Z.ltb_ge).
  replace (offset <? 0) with false by (symmetry; by apply Z.ltb_ge).
  cbn [orb]. eexists _, _. split; [reflexivity|].
  set (rows := select_ordered ilike q building floor unit is_active (txn s)).
  assert (Hlen : length rows
                 = size (matching
                           (where_clause ilike q building floor unit is_active)
                           (txn s))).
  { unfold rows, select_ordered. rewrite merge_sort_Permutation.
    apply matching_size. }
  split_and!.
  - by rewrite Hlen.
  - rewrite length_take, length_drop. lia.
  - intros r Hr.
    assert (Hin : r ∈ rows).
    { eapply elem_of_sublist; [exact Hr|].
      etrans; [apply sublist_take|apply sublist_drop]. }
    apply select_ordered_elem in Hin as [Hst Hw].
    split; [done|]. by apply where_clause_filters in Hw.
  - intros -> Ht k r Hk Hw. change (Z.to_nat 0) with 0%nat.
    rewrite drop_0, take_ge by lia. apply select_ordered_elem. eauto.
Qed.

Lemma list_residents_page_witness :
  ∃ items total,
    list_residents (λ _ _, true) None None None None (Some true) 10 0
      sample_session
    = (Returned (items, total), sample_session)
    ∧ total = 1
    ∧ Z.of_nat (length items) = 1.
Proof.
  destruct (list_residents_page (λ _ _, true) None None None None (Some true)
              10 0 sample_session) as (items & total & Hr & Ht & Hn & _);
    [lia|lia|].
  exists items, total. split; [exact Hr|].
  assert (Ht' : total = 1) by (rewrite Ht; vm_compute; reflexivity).
  split; [exact Ht'|]. rewrite Hn, Ht'. reflexivity.
Defined.

(** ** CSV export *)

Lemma writerow_columns (str_datetime : Time → string) (r : Resident.t)
    (key : string) :
  is_Some (writerow str_datetime r !! key) ↔ key ∈ fieldnames.
Proof.
  unfold writerow. rewrite <- not_eq_None_Some.
  rewrite <- not_elem_of_list_to_map. cbn [fmap list_fmap fst].
  fold fieldnames. split; [apply dec_stable|tauto].
Qed.

(** X9: an export always succeeds.  Its header is the thirteen column
    names; it has one record for each of the first 100000 residents of the
    listing, in the listing's order, and every record has exactly the
    thirteen columns; it leaves the residents and the sequence as they
    were and commits exactly one audit entry, EXPORT_CSV, by the caller,
    with no snapshot and the filters as metadata. *)
Theorem export_csv_shape (json_error : JsonDumps)
    (ilike : string → string → bool) (str_datetime : Time → string)
    (q building floor unit : option string) (is_active : option bool)
    (user : CurrentUser.t) (d : Store) (now utc : Time) :
  ∃ d' e,
    run_request (export_csv json_error ilike str_datetime q building floor
                   unit is_active user) d now utc
    = (Returned
         (fieldnames,
          writerow str_datetime
          <$> exported ilike q building floor unit is_active d), d')
    ∧ Z.of_nat (length (exported ilike q building floor unit is_active d))
      = Z.min 100000
          (Z.of_nat
             (size (matching
                      (where_clause ilike q building floor unit is_active)
                      d)))
    ∧ exported ilike q building floor unit is_active d
      `prefix_of` select_ordered ilike q building floor unit is_active d
    ∧ Forall (λ record, ∀ key, is_Some (record !! key) ↔ key ∈ fieldnames)
        (writerow str_datetime
         <$> exported ilike q building floor unit is_active d)
    ∧ residents d' = residents d
    ∧ next_id d' = next_id d
    ∧ audit_log d' = audit_log d ++ [e]
    ∧ AuditEntry.action e = "EXPORT_CSV"
    ∧ AuditEntry.actor_email e = Some (CurrentUser.email user)
    ∧ AuditEntry.before e = None
    ∧ AuditEntry.after e = None
    ∧ AuditEntry.metadata e
      = Some (MetaFilters q building floor unit is_active).
Proof.
  eexists _, _. split.
  { unfold run_request, export_csv, list_residents. run_m.
    change ((100000 <? 0) || (0 <? 0)) with false. cbn beta iota.
    rewrite write_audit_log_run. reflexivity. }
  unfold exported.
  change (100000 <? 0) with false. change (0 <? 0) with false.
  cbn [orb txn begin with_txn residents next_id audit_log durable fst snd
       AuditEntry.action AuditEntry.actor_email AuditEntry.before
       AuditEntry.after AuditEntry.metadata].
  change (Z.to_nat 0) with 0%nat. rewrite drop_0.
  split_and!; try done.
  - rewrite length_take.
    unfold select_ordered. rewrite merge_sort_Permutation, matching_size. lia.
  - apply prefix_take.
  - apply Forall_fmap, Forall_forall. intros r _ key.
    apply writerow_columns.
Qed.

(** ** CSV import *)

Lemma ids_below_fresh (d : Store) :
  ids_below d → residents d !! next_id d = None.
Proof.
  intros Hb. destruct (residents d !! next_id d) as [r|] eqn:Hl; [|done].
  apply Hb in Hl. lia.
Qed.

Lemma count_action_app (action : string) (l k : list AuditEntry.t) :
  count_action action (l ++ k) = count_action action l + count_action action k.
Proof. unfold count_action. rewrite filter_app, length_app. lia. Qed.

Lemma residents_kept_refl (d : Store) : residents_kept d d.
Proof. intros k r Hr. eauto. Qed.

Lemma residents_kept_trans (d1 d2 d3 : Store) :
  residents_kept d1 d2 → residents_kept d2 d3 → residents_kept d1 d3.
Proof.
  intros H12 H23 k r Hr.
  destruct (H12 k r Hr) as (r2 & Hr2 & Hi2 & Hc2).
  destruct (H23 k r2 Hr2) as (r3 & Hr3 & Hi3 & Hc3).
  exists r3. split_and!; [done|congruence..].
Qed.

(** The audit write of a row either files the entry, or is stopped by
    [json.dumps] on a snapshot and counts the row as skipped. *)
Lemma row_audited_cases (json_error : JsonDumps) (idx : Z)
    (e : AuditEntry.t) (st : ImportState) :
  (∃ r msg, json_error r = Some msg
     ∧ row_audited json_error idx e st = skipped_state idx (TypeError msg) st)
  ∨ row_audited json_error idx e st
    = mkImport (audited e (db st)) (created st) (updated st) (skipped st)
        (errors st).
Proof.
  unfold row_audited, dumps_error.
  destruct (AuditEntry.before e) as [r|]; cbn.
  - destruct (json_error r) as [msg|] eqn:Hr; [left; by exists r, msg|].
    destruct (AuditEntry.after e) as [r'|]; cbn; [|by right].
    destruct (json_error r') as [msg|] eqn:Hr'; [left; by exists r', msg|].
    by right.
  - destruct (AuditEntry.after e) as [r'|]; cbn; [|by right].
    destruct (json_error r') as [msg|] eqn:Hr'; [left; by exists r', msg|].
    by right.
Qed.

Lemma import_progress_refl (json_error : JsonDumps) (st : ImportState) :
  ids_below (txn (db st)) → ImportProgress json_error 0 0 0 0 st st.
Proof.
  intros Hb. split; try done; try lia.
  - exists []. by rewrite app_nil_r.
  - exists []. by rewrite app_nil_r.
  - apply residents_kept_refl.
Qed.

Lemma import_progress_trans (json_error : JsonDumps)
    (n c u k n' c' u' k' : Z) (st st' st'' : ImportState) :
  ImportProgress json_error n c u k st st' →
  ImportProgress json_error n' c' u' k' st' st'' →
  ImportProgress json_error (n + n') (c + c') (u + u') (k + k') st st''.
Proof.
  intros [] []. split; try lia.
  - destruct progress_errors0 as (m1 & E1 & L1).
    destruct progress_errors1 as (m2 & E2 & L2).
    exists (m1 ++ m2). rewrite E2, E1, <- app_assoc, length_app.
    split; [done|lia].
  - destruct progress_audit0 as (e1 & E1 & C1 & U1 & L1 & N1 & J1).
    destruct progress_audit1 as (e2 & E2 & C2 & U2 & L2 & N2 & J2).
    exists (e1 ++ e2).
    rewrite E2, E1, <- app_assoc, !count_action_app, length_app.
    split_and!; [done|lia..|].
    intros Hj. destruct (J1 Hj), (J2 Hj). lia.
  - by eapply residents_kept_trans.
  - done.
  - auto.
  - congruence.
Qed.

Lemma import_progress_row (json_error : JsonDumps) (user : CurrentUser.t)
    (idx : Z) (row : CsvRow) (st : ImportState) :
  ids_below (txn (db st)) →
  ∃ c u k,
    ImportProgress json_error 1 c u k st
      (import_row json_error user idx row st).2.
Proof.
  intros Hb.
  destruct (import_row_cases json_error user idx row st)
    as [(e & _ & ->)
       |[(r & e & Hr & _ & He & _ & _ & ->)
        |(i & r & e & _ & Hl & He & _ & _ & ->)]]; cbn [snd].
  - exists 0, 0, 1. split; cbn; try done; try lia.
    + eexists. split; [reflexivity|done].
    + exists []. rewrite app_nil_r. by split_and!.
    + apply residents_kept_refl.
  - pose proof (ids_below_fresh _ Hb) as Hf.
    match goal with
    | |- context [row_audited _ _ _ ?s1] =>
        destruct (row_audited_cases json_error idx e s1)
          as [(r0 & msg & Hj & ->)| ->]
    end.
    + exists 1, 0, 1. split; cbn; try done; try lia.
      * eexists. split; [reflexivity|done].
      * exists []. rewrite app_nil_r. split_and!; try done.
        intros Hn. by rewrite Hn in Hj.
      * rewrite map_size_insert_None by done. lia.
      * intros k r1 Hk. cbn. exists r1.
        rewrite lookup_insert_ne; [done|]. congruence.
      * intros k r1. cbn. intros [[<- <-]|[_ Hk]]%lookup_insert_Some; [lia|].
        apply Hb in Hk. lia.
      * intros Hk k r1. cbn.
        intros [[<- <-]|[_ Hk0]]%lookup_insert_Some; [by subst r|].
        by apply Hk.
    + exists 1, 0, 0. split; cbn; try done; try lia.
      * exists []. by rewrite app_nil_r.
      * exists [e]. split; [done|].
        unfold count_action. rewrite !filter_cons, He, filter_nil.
        by split_and!.
      * rewrite map_size_insert_None by done. lia.
      * intros k r1 Hk. cbn. exists r1.
        rewrite lookup_insert_ne; [done|]. congruence.
      * intros k r1. cbn. intros [[<- <-]|[_ Hk]]%lookup_insert_Some; [lia|].
        apply Hb in Hk. lia.
      * intros Hk k r1. cbn.
        intros [[<- <-]|[_ Hk0]]%lookup_insert_Some; [by subst r|].
        by apply Hk.
  - match goal with
    | |- context [row_audited _ _ _ ?s1] =>
        destruct (row_audited_cases json_error idx e s1)
          as [(r0 & msg & Hj & ->)| ->]
    end.
    + exists 0, 1, 1. split; cbn; try done; try lia.
      * eexists. split; [reflexivity|done].
      * exists []. rewrite app_nil_r. split_and!; try done.
        intros Hn. by rewrite Hn in Hj.
      * rewrite map_size_insert_Some by done. lia.
      * intros k r1 Hk. cbn. destruct (decide (k = i)) as [->|Hne].
        -- rewrite lookup_insert_eq. eexists. split; [done|].
           rewrite Hl in Hk. by simplify_eq.
        -- rewrite lookup_insert_ne by done. eauto.
      * intros k r1. cbn. intros [[<- <-]|[_ Hk]]%lookup_insert_Some.
        -- by apply Hb in Hl.
        -- by apply Hb in Hk.
      * intros Hk k r1. cbn.
        intros [[<- <-]|[_ Hk0]]%lookup_insert_Some; [|by apply Hk].
        cbn. by apply Hk in Hl.
    + exists 0, 1, 0. split; cbn; try done; try lia.
      * exists []. by rewrite app_nil_r.
      * exists [e]. split; [done|].
        unfold count_action. rewrite !filter_cons, He, filter_nil.
        by split_and!.
      * rewrite map_size_insert_Some by done. lia.
      * intros k r1 Hk. cbn. destruct (decide (k = i)) as [->|Hne].
        -- rewrite lookup_insert_eq. eexists. split; [done|].
           rewrite Hl in Hk. by simplify_eq.
        -- rewrite lookup_insert_ne by done. eauto.
      * intros k r1. cbn. intros [[<- <-]|[_ Hk]]%lookup_insert_Some.
        -- by apply Hb in Hl.
        -- by apply Hb in Hk.
      * intros Hk k r1. cbn.
        intros [[<- <-]|[_ Hk0]]%lookup_insert_Some; [|by apply Hk].
        cbn. by apply Hk in Hl.
Qed.

Lemma import_rows_progress (json_error : JsonDumps) (user : CurrentUser.t)
    (rows : list CsvRow) :
  ∀ (idx : Z) (st : ImportState),
  ids_below (txn (db st)) →
  ∃ c u k,
    ImportProgress json_error (Z.of_nat (length rows)) c u k st
      (import_rows json_error user idx (records rows) st).2.
Proof.
  induction rows as [|row rest IH]; intros idx st Hb.
  - exists 0, 0, 0. by apply import_progress_refl.
  - unfold records. rewrite fmap_cons, import_rows_cons.
    destruct (import_progress_row json_error user idx row st Hb)
      as (c & u & k & H1).
    destruct (IH (idx + 1) _ (progress_ids _ _ _ _ _ _ _ H1))
      as (c' & u' & k' & H2).
    exists (c + c'), (u + u'), (k + k').
    replace (Z.of_nat (length (row :: rest)))
      with (1 + Z.of_nat (length rest)) by (rewrite length_cons; lia).
    by eapply import_progress_trans.
Qed.

Lemma import_csv_progress (json_error : JsonDumps) (user : CurrentUser.t)
    (rows : list CsvRow) (d : Store) (now utc : Time) :
  ids_below d →
  ∃ c u k st summary,
    ImportProgress json_error (Z.of_nat (length rows)) c u k
      (mkImport (begin d now utc) 0 0 0 []) st
    ∧ summary
      = AuditEntry.mk (Some (CurrentUser.id user))
          (Some (CurrentUser.email user)) "IMPORT_CSV" (Some "resident")
          None None None (Some (MetaCounts c u k)) utc
    ∧ run_request (import_csv json_error (Some (records rows)) user) d now utc
      = (Returned (CsvImportResult.mk c u k (errors st)),
         mkStore (residents (txn (db st))) (next_id (txn (db st)))
           (audit_log (txn (db st)) ++ [summary])).
Proof.
  intros Hb.
  destruct (import_rows_progress json_error user rows 2
              (mkImport (begin d now utc) 0 0 0 []) Hb)
    as (c & u & k & Hp).
  exists c, u, k, (import_rows json_error user 2 (records rows)
                     (mkImport (begin d now utc) 0 0 0 [])).2.
  eexists. split; [exact Hp|]. split; [reflexivity|].
  unfold run_request.
  rewrite (import_csv_run _ _ _ _ _
             (import_rows_returns json_error user rows 2 _)).
  destruct Hp. cbn in *.
  destruct progress_clock0 as [_ ->].
  rewrite progress_created0, progress_updated0, progress_skipped0.
  done.
Qed.

(** X10: the report of an import of a file that the reader reads to its
    end.  In a database whose ids are below the sequence the import
    answers; no counter is negative; at most one resident is created or
    updated for each row; there is one error message for each row counted
    as skipped; a row leaves an audit entry, IMPORT_CREATE_RESIDENT or
    IMPORT_UPDATE_RESIDENT, exactly when it is not counted as skipped, so
    that the entries of a kind are at most the residents reported for it;
    and after the entries of the rows comes one IMPORT_CSV entry that
    carries the three counters.  When [json.dumps] serialises every
    snapshot, every row is counted once, as created, updated or skipped,
    and each created or updated resident has its entry. *)
Theorem import_csv_accounts (json_error : JsonDumps) (user : CurrentUser.t)
    (rows : list CsvRow) (d : Store) (now utc : Time) :
  ids_below d →
  ∃ res d' entries summary,
    run_request (import_csv json_error (Some (records rows)) user) d now utc
    = (Returned res, d')
    ∧ 0 ≤ CsvImportResult.created res
    ∧ 0 ≤ CsvImportResult.updated res
    ∧ 0 ≤ CsvImportResult.skipped res
    ∧ CsvImportResult.created res + CsvImportResult.updated res
      ≤ Z.of_nat (length rows)
    ∧ CsvImportResult.skipped res + Z.of_nat (length entries)
      = Z.of_nat (length rows)
    ∧ Z.of_nat (length (CsvImportResult.errors res))
      = CsvImportResult.skipped res
    ∧ audit_log d' = audit_log d ++ entries ++ [summary]
    ∧ count_action "IMPORT_CREATE_RESIDENT" entries
      ≤ CsvImportResult.created res
    ∧ count_action "IMPORT_UPDATE_RESIDENT" entries
      ≤ CsvImportResult.updated res
    ∧ Z.of_nat (length entries)
      = count_action "IMPORT_CREATE_RESIDENT" entries
        + count_action "IMPORT_UPDATE_RESIDENT" entries
    ∧ AuditEntry.action summary = "IMPORT_CSV"
    ∧ AuditEntry.actor_email summary = Some (CurrentUser.email user)
    ∧ AuditEntry.metadata summary
      = Some (MetaCounts (CsvImportResult.created res)
                (CsvImportResult.updated res) (CsvImportResult.skipped res))
    ∧ ((∀ r, json_error r = None) →
       CsvImportResult.created res + CsvImportResult.updated res
       + CsvImportResult.skipped res
       = Z.of_nat (length rows)
       ∧ count_action "IMPORT_CREATE_RESIDENT" entries
         = CsvImportResult.created res
       ∧ count_action "IMPORT_UPDATE_RESIDENT" entries
         = CsvImportResult.updated res).
Proof.
  intros Hb.
  destruct (import_csv_progress json_error user rows d now utc Hb)
    as (c & u & k & st & summary & Hp & Hs & Hrun).
  destruct Hp. cbn in *.
  destruct progress_errors0 as (msgs & Hm & Hlen).
  destruct progress_audit0 as (entries & Ha & Hc & Hu & Hn & Hk & Hj).
  eexists _, _, entries, summary. split; [exact Hrun|]. subst summary. cbn.
  split_and!; try done; try lia.
  - rewrite Hm. cbn. lia.
  - by rewrite Ha, <- app_assoc.
  - intros Hacc. destruct (Hj Hacc). lia.
Qed.

Lemma import_csv_accounts_witness :
  ids_below sample_store
  ∧ (∃ res d',
       run_request
         (import_csv json_rejects
            (Some (records [row_dora; row_bob_moves; row_no_unit])) admin)
         sample_store 9 9
       = (Returned res, d')
       ∧ CsvImportResult.created res = 1
       ∧ CsvImportResult.updated res = 1
       ∧ CsvImportResult.skipped res = 3
       ∧ Z.of_nat (length (CsvImportResult.errors res)) = 3)
  ∧ (∃ res d',
       run_request
         (import_csv json_accepts
            (Some (records [row_dora; row_bob_moves; row_no_unit])) admin)
         sample_store 9 9
       = (Returned res, d')
       ∧ CsvImportResult.created res + CsvImportResult.updated res
         + CsvImportResult.skipped res
         = 3
       ∧ Z.of_nat (length (CsvImportResult.errors res))
         = CsvImportResult.skipped res).
Proof.
  assert (Hb : ids_below sample_store) by compute_done.
  split; [exact Hb|]. split.
  - destruct (import_csv_accounts json_rejects admin
                [row_dora; row_bob_moves; row_no_unit] sample_store 9 9 Hb)
      as (res & d' & _ & _ & Hrun & _ & _ & _ & _ & _ & Hlen & _).
    exists res, d'. split; [exact Hrun|].
    vm_compute in Hrun. injection Hrun as <- _. by vm_compute.
  - destruct (import_csv_accounts json_accepts admin
                [row_dora; row_bob_moves; row_no_unit] sample_store 9 9 Hb)
      as (res & d' & entries & summary & Hrun & _ & _ & _ & _ & _ & Hlen
          & _ & _ & _ & _ & _ & _ & _ & Hacc).
    exists res, d'. split; [exact Hrun|].
    destruct (Hacc (λ _, eq_refl)) as (Hsum & _). split; [exact Hsum|exact Hlen].
Defined.

(** X11: an import deletes nothing and keeps the table well formed.  In a
    database whose ids are below the sequence, every resident stored
    before the import is stored after it, under the same id and with the
    creation time it had; the table has grown by exactly the number of
    residents reported as created, each under a new id taken from the
    sequence; the ids are again below the sequence; and if every resident
    was stored under its own id, it still is. *)
Theorem import_csv_keeps_residents (json_error : JsonDumps)
    (user : CurrentUser.t) (rows : list CsvRow) (d : Store)
    (now utc : Time) :
  ids_below d →
  ∃ res d',
    run_request (import_csv json_error (Some (records rows)) user) d now utc
    = (Returned res, d')
    ∧ residents_kept d d'
    ∧ Z.of_nat (size (residents d'))
      = Z.of_nat (size (residents d)) + CsvImportResult.created res
    ∧ next_id d' = next_id d + CsvImportResult.created res
    ∧ ids_below d'
    ∧ (keys_match d → keys_match d').
Proof.
  intros Hb.
  destruct (import_csv_progress json_error user rows d now utc Hb)
    as (c & u & k & st & summary & Hp & -> & Hrun).
  destruct Hp. cbn in *.
  eexists _, _. split; [exact Hrun|]. cbn. by split_and!.
Qed.

Lemma import_csv_keeps_residents_witness :
  ids_below sample_store
  ∧ ∃ res d',
      run_request
        (import_csv json_rejects
           (Some (records [row_dora; row_bob_moves; row_no_unit])) admin)
        sample_store 9 9
      = (Returned res, d')
      ∧ residents_kept sample_store d'
      ∧ next_id d' = next_id sample_store + CsvImportResult.created res.
Proof.
  assert (Hb : ids_below sample_store) by compute_done.
  split; [exact Hb|].
  destruct (import_csv_keeps_residents json_rejects admin
              [row_dora; row_bob_moves; row_no_unit] sample_store 9 9 Hb)
    as (res & d' & Hrun & Hk & _ & Hn & _).
  exists res, d'. split; [exact Hrun|]. split; [exact Hk|exact Hn].
Defined.

Lemma import_rows_frame (json_error : JsonDumps) (user : CurrentUser.t)
    (j : Z) (r : Resident.t) (rows : list CsvRow) :
  ∀ (idx : Z) (st : ImportState),
  ids_below (txn (db st)) →
  residents (txn (db st)) !! j = Some r →
  Forall (λ row, PyStr.int (column row "id") ≠ Some j) rows →
  residents (txn (db (import_rows json_error user idx (records rows) st).2))
    !! j = Some r.
Proof.
  induction rows as [|row rest IH]; intros idx st Hb Hj Hrows; [done|].
  apply Forall_cons in Hrows as [Hrow Hrest].
  unfold records. rewrite fmap_cons, import_rows_cons.
  destruct (import_progress_row json_error user idx row st Hb)
    as (c & u & k & Hp).
  apply IH; [apply (progress_ids _ _ _ _ _ _ _ Hp)| |done].
  destruct (import_row_cases json_error user idx row st)
    as [(e & _ & ->)
       |[(r0 & e & _ & _ & _ & _ & _ & ->)
        |(i & r0 & e & Hi & _ & _ & _ & _ & ->)]]; cbn [snd].
  - done.
  - rewrite row_audited_residents. cbn. rewrite lookup_insert_ne; [done|].
    apply Hb in Hj. lia.
  - rewrite row_audited_residents. cbn.
    rewrite lookup_insert_ne; [done|]. congruence.
Qed.

(** X12: an import touches only the residents that its rows name.  In a
    database whose ids are below the sequence, a resident whose id is the
    id of no row of the file is stored after the import exactly as it was
    before it. *)
Theorem import_csv_frame (json_error : JsonDumps) (user : CurrentUser.t)
    (rows : list CsvRow) (d : Store) (now utc : Time) (j : Z)
    (r : Resident.t) :
  ids_below d →
  residents d !! j = Some r →
  Forall (λ row, PyStr.int (column row "id") ≠ Some j) rows →
  residents
    (run_request (import_csv json_error (Some (records rows)) user)
       d now utc).2 !! j
  = Some r.
Proof.
  intros Hb Hj Hrows.
  pose proof (import_rows_frame json_error user j r rows 2
                (mkImport (begin d now utc) 0 0 0 []) Hb Hj Hrows) as Hf.
  unfold run_request.
  rewrite (import_csv_run _ _ _ _ _
             (import_rows_returns json_error user rows 2 _)).
  exact Hf.
Qed.

Lemma import_csv_frame_witness :
  ids_below sample_store
  ∧ residents sample_store !! 1 = Some alice
  ∧ residents
      (run_request
         (import_csv json_rejects
            (Some (records [row_dora; row_bob_moves; row_no_unit])) admin)
         sample_store 9 9).2 !! 1
    = Some alice.
Proof.
  assert (Hb : ids_below sample_store) by compute_done.
  split; [exact Hb|]. split; [reflexivity|].
  apply (import_csv_frame json_rejects admin
           [row_dora; row_bob_moves; row_no_unit]
           sample_store 9 9 1 alice Hb); [reflexivity|].
  repeat constructor; vm_compute; discriminate.
Defined.

(** ** Photo upload *)

(** X13: what [upload_photo] does for a stored resident.  An extension
    outside the six allowed ones is refused with 400 "Unsupported file
    type", and an allowed one with more than 5 MB of content with 400 "File
    too large (max 5MB)"; both leave the database as it was.  Otherwise the
    UPDATE gives the resident a photo URL made of the base URL, [/uploads/]
    and the name [resident_<id><ext>], [.jpg] standing for an empty
    extension, with every other column as it was.  When [json.dumps]
    serialises the snapshots of the resident before and after, the request
    answers with the resident and commits it with one audit entry that
    carries both snapshots and that file name; when it rejects one, the
    request fails with its [TypeError] and the database is as it was. *)
Theorem upload_photo_outcomes (json_error : JsonDumps) (settings : Settings)
    (resident_id : Z) (ext : string) (size : Z) (user : CurrentUser.t)
    (r : Resident.t) (d : Store) (now utc : Time) :
  residents d !! resident_id = Some r →
  (ext ∉ allowed_ext →
   run_request (upload_photo json_error settings resident_id ext size user)
     d now utc
   = (Raised (HTTPException 400 "Unsupported file type"), d))
  ∧ (ext ∈ allowed_ext → 5 * 1024 * 1024 < size →
     run_request (upload_photo json_error settings resident_id ext size user)
       d now utc
     = (Raised (HTTPException 400 "File too large (max 5MB)"), d))
  ∧ (ext ∈ allowed_ext → size ≤ 5 * 1024 * 1024 →
     ∃ r',
       Resident.photo_url r'
       = Some ((if decide (public_base_url settings = "") then ""
                else public_base_url settings)
               +:+ "/uploads/" +:+ photo_filename resident_id ext)
       ∧ (∀ c, c ≠ col_photo_url → retained c r r')
       ∧ match json_error r, json_error r' with
         | None, None =>
             ∃ d' e,
               run_request
                 (upload_photo json_error settings resident_id ext size user)
                 d now utc
               = (Returned (Some r'), d')
               ∧ residents d' = <[resident_id := r']> (residents d)
               ∧ audit_log d' = audit_log d ++ [e]
               ∧ AuditEntry.action e = "UPLOAD_RESIDENT_PHOTO"
               ∧ AuditEntry.before e = Some r
               ∧ AuditEntry.after e = Some r'
               ∧ AuditEntry.metadata e
                 = Some (MetaFilename (photo_filename resident_id ext))
         | Some msg, _ | None, Some msg =>
             run_request
               (upload_photo json_error settings resident_id ext size user)
               d now utc
             = (Raised (TypeError msg), d)
         end).
Proof.
  intros Hl. unfold run_request, upload_photo. run_m. rewrite Hl.
  split_and!.
  - intros Hext. by rewrite bool_decide_eq_false_2.
  - intros Hext Hsize. rewrite bool_decide_eq_true_2 by done. cbn [negb].
    by replace (5 * 1024 * 1024 <? size) with true
      by (symmetry; by apply Z.ltb_lt).
  - intros Hext Hsize. rewrite bool_decide_eq_true_2 by done. cbn [negb].
    replace (5 * 1024 * 1024 <? size) with false
      by (symmetry; by apply Z.ltb_ge).
    unfold set_resident_photo_url. run_m. rewrite Hl.
    cbn [fst snd txn durable db_now utc_now residents next_id audit_log].
    rewrite write_audit_log_run. cbn [dumps_error mbind option_bind].
    assert (Hname : "resident_" +:+ PyStr.str_int resident_id
                    +:+ (if PyStr.truthy ext then ext else ".jpg")
                    = photo_filename resident_id ext).
    { unfold photo_filename. by destruct ext. }
    rewrite Hname.
    set (r' := with_photo_url _ r).
    exists r'. split_and!.
    + unfold r', with_photo_url, _public_photo_url. cbn [Resident.photo_url].
      by destruct (public_base_url settings).
    + intros c Hc. by destruct c.
    + destruct (json_error r); [done|].
      destruct (json_error r'); [done|].
      eexists _, _. split; [reflexivity|]. by cbn.
Qed.

(** X13 at a stored resident: a small PNG is stored and committed where
    [json.dumps] serialises the snapshots, and the request fails, the
    database unchanged, where it meets their timestamps; a program is
    refused in either case. *)
Lemma upload_photo_outcomes_witness :
  residents sample_store !! 1 = Some alice
  ∧ (∃ r' d',
       run_request (upload_photo json_accepts sample_settings 1 ".png" 10 admin)
         sample_store 9 9
       = (Returned (Some r'), d')
       ∧ residents d' !! 1 = Some r'
       ∧ Resident.photo_url r'
         = Some "http://api.example/uploads/resident_1.png")
  ∧ run_request (upload_photo json_rejects sample_settings 1 ".png" 10 admin)
      sample_store 9 9
    = (Raised (TypeError "Object of type datetime is not JSON serializable"),
       sample_store)
  ∧ run_request (upload_photo json_rejects sample_settings 1 ".exe" 10 admin)
      sample_store 9 9
    = (Raised (HTTPException 400 "Unsupported file type"), sample_store).
Proof.
  split; [reflexivity|]. split_and!.
  - destruct (upload_photo_outcomes json_accepts sample_settings 1 ".png" 10
                admin alice sample_store 9 9 eq_refl) as (_ & _ & Hok).
    destruct Hok as (r' & Hurl & _ & d' & e & Hrun & Hres & _);
      [compute_done|lia|].
    exists r', d'. split; [exact Hrun|]. split; [|exact Hurl].
    rewrite Hres. apply lookup_insert_eq.
  - destruct (upload_photo_outcomes json_rejects sample_settings 1 ".png" 10
                admin alice sample_store 9 9 eq_refl) as (_ & _ & Hok).
    destruct Hok as (r' & _ & _ & Hrun); [compute_done|lia|].
    exact Hrun.
  - destruct (upload_photo_outcomes json_rejects sample_settings 1 ".exe" 10
                admin alice sample_store 9 9 eq_refl) as (Hbad & _).
    apply Hbad. compute_done.
Defined.

(** ** The role guards *)

Lemma require_roles_passes {S} (required : list string)
    (user : CurrentUser.t) (role : string) (s : S) :
  role ∈ CurrentUser.roles user → role ∈ required →
  require_roles required user s = (Returned user, s).
Proof.
  intros Hu Hr. unfold require_roles.
  replace (existsb _ _) with true; [done|]. symmetry.
  apply existsb_exists. exists role. split.
  - by apply list_elem_of_In.
  - by apply bool_decide_eq_true.
Qed.

Lemma require_roles_refuses {S} (required : list string)
    (user : CurrentUser.t) (s : S) :
  (∀ role, role ∈ CurrentUser.roles user → role ∉ required) →
  require_roles required user s
  = (Raised (HTTPException 403
               ("Insufficient role. Requires one of: "
                +:+ PyText.repr_list required)), s).
Proof.
  intros Hn. unfold require_roles.
  replace (existsb _ _) with false; [done|]. symmetry.
  apply not_true_is_false. intros (role & Hin & Hr)%existsb_exists.
  apply list_elem_of_In in Hin. apply bool_decide_eq_true in Hr.
  by apply (Hn role).
Qed.

(** X14: who may call what.  A user with the role [admin] is let through
    to every route; a user with the role [viewer] is let through to the
    listing, to one resident and to the audit listing; without the role
    [admin] every other call, the CSV export among them, is refused with
    403 and its message, and the session is left as it was; a user with
    neither role is refused everywhere. *)
Theorem serve_rbac (json_error : JsonDumps)
    (ilike : string → string → bool)
    (str_datetime : Time → string) (settings : Settings)
    (r : RouteCall) (user : CurrentUser.t) (s : Session) :
  ("admin" ∈ CurrentUser.roles user →
   serve json_error ilike str_datetime settings r user s
   = handle json_error ilike str_datetime settings r user s)
  ∧ ("viewer" ∈ CurrentUser.roles user → read_call r = true →
     serve json_error ilike str_datetime settings r user s
     = handle json_error ilike str_datetime settings r user s)
  ∧ ("admin" ∉ CurrentUser.roles user → read_call r = false →
     serve json_error ilike str_datetime settings r user s
     = (Raised (HTTPException 403
                  "Insufficient role. Requires one of: ['admin']"), s))
  ∧ ("admin" ∉ CurrentUser.roles user →
     "viewer" ∉ CurrentUser.roles user → read_call r = true →
     serve json_error ilike str_datetime settings r user s
     = (Raised (HTTPException 403
                  "Insufficient role. Requires one of: ['admin', 'viewer']"),
        s)).
Proof.
  assert (Hg : serve json_error ilike str_datetime settings r user s
               = match require_roles (required_roles r) user s with
                 | (Returned u, s') =>
                     handle json_error ilike str_datetime settings r u s'
                 | (Raised e, s') => (Raised e, s')
                 end) by done.
  rewrite Hg. clear Hg. split_and!.
  - intros Ha. rewrite (require_roles_passes _ _ "admin"); [done|done|].
    destruct r; cbn; apply elem_of_cons; by left.
  - intros Hv Hr. rewrite (require_roles_passes _ _ "viewer"); [done|done|].
    destruct r; try done; cbn; apply elem_of_cons; right;
      apply elem_of_cons; by left.
  - intros Ha Hr. rewrite require_roles_refuses.
    + by destruct r.
    + intros role Hu Hreq.
      destruct r; try done; cbn in Hreq;
        repeat (apply elem_of_cons in Hreq as [->|Hreq]; [done|]);
        by apply elem_of_nil in Hreq.
  - intros Ha Hv Hr. rewrite require_roles_refuses.
    + by destruct r.
    + intros role Hu Hreq.
      destruct r; try done; cbn in Hreq;
        repeat (apply elem_of_cons in Hreq as [->|Hreq]; [done|]);
        by apply elem_of_nil in Hreq.
Qed.

Lemma serve_rbac_witness :
  ("admin" ∉ CurrentUser.roles viewer)
  ∧ read_call (CallExportCsv None None None None None) = false
  ∧ serve json_rejects (λ _ _, true) (λ _, "") sample_settings
      (CallExportCsv None None None None None) viewer sample_session
    = (Raised (HTTPException 403
                 "Insufficient role. Requires one of: ['admin']"),
       sample_session).
Proof.
  assert (Hn : "admin" ∉ CurrentUser.roles viewer) by compute_done.
  split; [exact Hn|]. split; [reflexivity|].
  destruct (serve_rbac json_rejects (λ _ _, true) (λ _, "") sample_settings
              (CallExportCsv None None None None None) viewer sample_session)
    as (_ & _ & Hr & _).
  apply Hr; [exact Hn|reflexivity].
Defined.

(** ** What no request does *)

Lemma history_refl (d : Store) :
  ids_below d → keys_match d → HistoryKept d d.
Proof.
  intros Hb Hk. split; try done.
  - exists []. by rewrite app_nil_r.
  - apply residents_kept_refl.
Qed.

Lemma history_trans (d1 d2 d3 : Store) :
  HistoryKept d1 d2 → HistoryKept d2 d3 → HistoryKept d1 d3.
Proof.
  intros [[e1 E1] K1 S1 _ _] [[e2 E2] K2 S2 B2 M2]. split; try done.
  - exists (e1 ++ e2). by rewrite E2, E1, <- app_assoc.
  - by eapply residents_kept_trans.
  - lia.
Qed.

Lemma history_audit (d : Store) (e : AuditEntry.t) :
  ids_below d → keys_match d →
  HistoryKept d (mkStore (residents d) (next_id d) (audit_log d ++ [e])).
Proof.
  intros Hb Hk. split; try done.
  - by exists [e].
  - intros k r Hr. eauto.
Qed.

Lemma history_create (d : Store) (r : Resident.t) (e : AuditEntry.t) :
  ids_below d → keys_match d → Resident.id r = next_id d →
  HistoryKept d
    (mkStore (<[next_id d := r]> (residents d)) (next_id d + 1)
       (audit_log d ++ [e])).
Proof.
  intros Hb Hk Hr. pose proof (ids_below_fresh d Hb) as Hf.
  split; cbn.
  - by exists [e].
  - intros k r0 Hk0. cbn. exists r0.
    rewrite lookup_insert_ne; [done|]. congruence.
  - lia.
  - intros k r0. cbn. intros [[<- <-]|[_ Hk0]]%lookup_insert_Some; [lia|].
    apply Hb in Hk0. lia.
  - intros k r0. cbn.
    intros [[<- <-]|[_ Hk0]]%lookup_insert_Some; [done|]. by apply Hk.
Qed.

Lemma history_update (d : Store) (i : Z) (r r' : Resident.t)
    (e : AuditEntry.t) :
  ids_below d → keys_match d →
  residents d !! i = Some r →
  Resident.id r' = Resident.id r →
  Resident.created_at r' = Resident.created_at r →
  HistoryKept d
    (mkStore (<[i := r']> (residents d)) (next_id d) (audit_log d ++ [e])).
Proof.
  intros Hb Hk Hl Hi Hc. split; cbn.
  - by exists [e].
  - intros k r0 Hk0. cbn. destruct (decide (k = i)) as [->|Hne].
    + rewrite lookup_insert_eq. exists r'. split; [done|].
      rewrite Hl in Hk0. by simplify_eq.
    + rewrite lookup_insert_ne by done. eauto.
  - lia.
  - intros k r0. cbn. intros [[<- <-]|[_ Hk0]]%lookup_insert_Some.
    + by apply Hb in Hl.
    + by apply Hb in Hk0.
  - intros k r0. cbn.
    intros [[<- <-]|[_ Hk0]]%lookup_insert_Some; [|by apply Hk].
    rewrite Hi. by apply Hk in Hl.
Qed.

Lemma update_row_identity (now : Time) (patch : Patch.t) (r r' : Resident.t) :
  update_row now patch r = Some r' →
  Resident.id r' = Resident.id r
  ∧ Resident.created_at r' = Resident.created_at r.
Proof.
  unfold update_row. intros Hu.
  destruct (set_required (Patch.full_name patch) _); [|done].
  destruct (set_required (Patch.unit patch) _); [|done].
  destruct (set_required (Patch.is_active patch) _); [|done].
  cbn in Hu. by simplify_eq.
Qed.

(** The loop of the import over any lines, wherever it stops. *)
Lemma import_lines_progress (json_error : JsonDumps) (user : CurrentUser.t)
    (lines : list CsvLine) :
  ∀ (idx : Z) (st : ImportState),
  ids_below (txn (db st)) →
  ∃ n c u k,
    ImportProgress json_error n c u k st
      (import_rows json_error user idx lines st).2.
Proof.
  induction lines as [|[|row|msg] rest IH]; intros idx st Hb.
  - exists 0, 0, 0, 0. by apply import_progress_refl.
  - apply IH, Hb.
  - rewrite import_rows_cons.
    destruct (import_progress_row json_error user idx row st Hb)
      as (c & u & k & H1).
    destruct (IH (idx + 1) _ (progress_ids _ _ _ _ _ _ _ H1))
      as (n' & c' & u' & k' & H2).
    exists (1 + n'), (c + c'), (u + u'), (k + k').
    by eapply import_progress_trans.
  - exists 0, 0, 0, 0. by apply import_progress_refl.
Qed.

Lemma import_csv_history (json_error : JsonDumps) (user : CurrentUser.t)
    (content : option (list CsvLine)) (d : Store) (now utc : Time) :
  ids_below d → keys_match d →
  HistoryKept d
    (run_request (import_csv json_error content user) d now utc).2.
Proof.
  intros Hb Hk. destruct content as [lines|]; [|by apply history_refl].
  destruct (import_lines_progress json_error user lines 2
              (mkImport (begin d now utc) 0 0 0 []) Hb)
    as (n & c & u & k & Hp).
  unfold run_request.
  destruct (import_rows json_error user 2 lines
              (mkImport (begin d now utc) 0 0 0 [])) as [[e|[]] st] eqn:Hrun.
  - unfold import_csv. rewrite Hrun. cbn [snd].
    pose proof (import_rows_durable json_error user lines 2
                  (mkImport (begin d now utc) 0 0 0 [])) as Hd.
    rewrite Hrun in Hd. cbn in Hd. rewrite Hd. by apply history_refl.
  - rewrite (import_csv_run _ _ _ _ _ Hrun). cbn [snd durable].
    destruct Hp. cbn in *.
    destruct progress_audit0 as (entries & Ha & _).
    split; cbn; try done.
    + eexists (entries ++ [_]). by rewrite Ha, <- app_assoc.
    + lia.
    + auto.
Qed.

Lemma handle_history (json_error : JsonDumps)
    (ilike : string → string → bool)
    (str_datetime : Time → string) (settings : Settings)
    (r : RouteCall) (user : CurrentUser.t) (d : Store) (now utc : Time) :
  ids_below d → keys_match d →
  HistoryKept d
    (run_request (handle json_error ilike str_datetime settings r user)
       d now utc).2.
Proof.
  intros Hb Hk. pose proof (history_refl d Hb Hk) as Hrefl.
  destruct r; unfold run_request, handle.
  - unfold residents_list, list_residents. run_m.
    by destruct (_ || _).
  - unfold residents_get. run_m. by destruct (residents d !! resident_id).
  - unfold residents_create, create_resident. run_m.
    rewrite write_audit_log_run. cbn.
    destruct (json_error _); [done|]. cbn.
    by apply history_create.
  - unfold residents_update. run_m.
    destruct (residents d !! resident_id) as [r0|] eqn:Hl; [|done].
    unfold update_resident. destruct (Patch.is_empty patch).
    + run_m. rewrite Hl, write_audit_log_run. cbn.
      destruct (json_error r0); [done|]. cbn.
      by apply history_audit.
    + cbn. rewrite Hl.
      destruct (update_row now patch r0) as [r'|] eqn:Hu; [|done].
      rewrite write_audit_log_run. cbn.
      destruct (json_error r0); [done|]. destruct (json_error r'); [done|].
      cbn. apply update_row_identity in Hu as [Hi Hc].
      by eapply history_update.
  - unfold residents_deactivate. run_m.
    destruct (residents d !! resident_id) as [r0|] eqn:Hl; [|done].
    unfold update_resident. cbn. rewrite Hl. cbn.
    rewrite write_audit_log_run. cbn.
    destruct (json_error r0); [done|]. destruct (json_error _); [done|].
    cbn. by eapply history_update.
  - unfold upload_photo. run_m.
    destruct (residents d !! resident_id) as [r0|] eqn:Hl; [|done].
    destruct (negb _); [done|]. destruct (_ <? size); [done|].
    unfold set_resident_photo_url. cbn. rewrite Hl. cbn.
    rewrite write_audit_log_run. cbn.
    destruct (json_error r0); [done|]. destruct (json_error _); [done|].
    cbn. by eapply history_update.
  - unfold export_csv, list_residents. run_m.
    change ((100000 <? 0) || (0 <? 0)) with false. cbn beta iota.
    rewrite write_audit_log_run. cbn.
    by apply history_audit.
  - pose proof (import_csv_history json_error user content d now utc Hb Hk)
      as Hi.
    unfold run_request in Hi. run_m.
    by destruct (import_csv json_error content user _) as [[e|res] s'].
  - unfold audit_list, list_audit_log. run_m.
    by destruct (_ || _).
Qed.

Lemma serve_unfold (json_error : JsonDumps) (ilike : string → string → bool)
    (str_datetime : Time → string) (settings : Settings)
    (r : RouteCall) (user : CurrentUser.t) (s : Session) :
  serve json_error ilike str_datetime settings r user s
  = if negb (existsb (λ role, bool_decide (role ∈ required_roles r))
               (CurrentUser.roles user))
    then (Raised (HTTPException 403
                    ("Insufficient role. Requires one of: "
                     +:+ PyText.repr_list (required_roles r))), s)
    else handle json_error ilike str_datetime settings r user s.
Proof.
  unfold serve, guarded, require_roles. unfold mbind at 1. unfold M_bind.
  by destruct (negb _).
Qed.

Lemma serve_history (json_error : JsonDumps) (ilike : string → string → bool)
    (str_datetime : Time → string) (settings : Settings)
    (r : RouteCall) (user : CurrentUser.t) (d : Store) (now utc : Time) :
  ids_below d → keys_match d →
  HistoryKept d
    (run_request (serve json_error ilike str_datetime settings r user)
       d now utc).2.
Proof.
  intros Hb Hk. unfold run_request. rewrite serve_unfold.
  destruct (negb _).
  - by apply history_refl.
  - by apply (handle_history json_error ilike str_datetime settings r user
                d now utc).
Qed.

(** X15: a request that fails, for whatever reason, leaves the database as
    it was, and so does every request that reads: the listing, one
    resident, the audit listing.  This holds for every route behind its
    guard, the import and the export included. *)
Theorem serve_failure_or_read_unchanged (json_error : JsonDumps)
    (ilike : string → string → bool)
    (str_datetime : Time → string) (settings : Settings)
    (r : RouteCall) (user : CurrentUser.t) (d : Store) (now utc : Time) :
  match run_request (serve json_error ilike str_datetime settings r user)
          d now utc with
  | (Raised _, d') => d' = d
  | (Returned _, d') => read_call r = true → d' = d
  end.
Proof.
  unfold run_request. rewrite serve_unfold. destruct (negb _); [done|].
  destruct r; unfold handle.
  - unfold residents_list, list_residents. run_m. by destruct (_ || _).
  - unfold residents_get. run_m. by destruct (residents d !! resident_id).
  - unfold residents_create, create_resident. run_m.
    rewrite write_audit_log_run. cbn. by destruct (json_error _).
  - unfold residents_update. run_m.
    destruct (residents d !! resident_id) as [r0|] eqn:Hl; [|done].
    unfold update_resident. destruct (Patch.is_empty patch).
    + run_m. rewrite Hl, write_audit_log_run. cbn.
      by destruct (json_error r0).
    + cbn. rewrite Hl. destruct (update_row now patch r0) as [r'|]; [|done].
      rewrite write_audit_log_run. cbn.
      destruct (json_error r0); [done|]. by destruct (json_error r').
  - unfold residents_deactivate. run_m.
    destruct (residents d !! resident_id) as [r0|] eqn:Hl; [|done].
    unfold update_resident. cbn. rewrite Hl. cbn.
    rewrite write_audit_log_run. cbn.
    destruct (json_error r0); [done|]. by destruct (json_error _).
  - unfold upload_photo. run_m.
    destruct (residents d !! resident_id) as [r0|] eqn:Hl; [|done].
    destruct (negb _); [done|]. destruct (_ <? size); [done|].
    unfold set_resident_photo_url. cbn. rewrite Hl. cbn.
    rewrite write_audit_log_run. cbn.
    destruct (json_error r0); [done|]. by destruct (json_error _).
  - unfold export_csv, list_residents. run_m.
    change ((100000 <? 0) || (0 <? 0)) with false. cbn beta iota.
    by rewrite write_audit_log_run.
  - destruct content as [lines|]; [|done].
    unfold import_csv. run_m.
    pose proof (import_rows_durable json_error user lines 2
                  (mkImport (mkSession d d now utc) 0 0 0 [])) as Hd.
    destruct (import_rows json_error user 2 lines _) as [[e|[]] st].
    + cbn in *. done.
    + by rewrite write_audit_log_run.
  - unfold audit_list, list_audit_log. run_m. by destruct (_ || _).
Qed.

(** X16: no sequence of requests deletes anything.  Starting from a
    database whose ids are below the sequence and whose residents are
    stored under their own ids, after any requests by any users the audit
    log is the old log with entries added at its end, every resident that
    was stored is still stored, under the same id and with the creation
    time it had, the sequence has not gone back, and the table is well
    formed as before. *)
Theorem requests_keep_history (json_error : JsonDumps)
    (ilike : string → string → bool)
    (str_datetime : Time → string) (settings : Settings)
    (reqs : list Request) (d : Store) :
  ids_below d → keys_match d →
  ∃ entries,
    let d' := after_requests json_error ilike str_datetime settings reqs d in
    audit_log d' = audit_log d ++ entries
    ∧ residents_kept d d'
    ∧ next_id d ≤ next_id d'
    ∧ ids_below d'
    ∧ keys_match d'.
Proof.
  intros Hb Hk.
  assert (H : HistoryKept d
                (after_requests json_error ilike str_datetime settings
                   reqs d)).
  { revert d Hb Hk. induction reqs as [|[[[r user] now] utc] rest IH];
      intros d Hb Hk; [by apply history_refl|].
    cbn [after_requests].
    pose proof (serve_history json_error ilike str_datetime settings r user
                  d now utc Hb Hk) as H1.
    eapply history_trans; [exact H1|].
    apply IH; [apply (kept_ids _ _ H1)|apply (kept_keys _ _ H1)]. }
  destruct H as [[entries He] ? ? ? ?]. by exists entries.
Qed.

Lemma requests_keep_history_witness :
  ids_below sample_store ∧ keys_match sample_store
  ∧ ∃ entries,
      let d' := after_requests json_accepts (λ _ _, true) (λ _, "")
                  sample_settings
                  [(CallResidentsDeactivate 1, admin, 9, 9);
                   (CallImportCsv (Some [RecordLine row_dora]), admin, 10, 10);
                   (CallResidentsGet 1, viewer, 11, 11)]
                  sample_store in
      audit_log d' = audit_log sample_store ++ entries
      ∧ residents_kept sample_store d'.
Proof.
  assert (Hb : ids_below sample_store) by compute_done.
  assert (Hk : keys_match sample_store) by compute_done.
  split; [exact Hb|]. split; [exact Hk|].
  destruct (requests_keep_history json_accepts (λ _ _, true) (λ _, "")
              sample_settings
              [(CallResidentsDeactivate 1, admin, 9, 9);
               (CallImportCsv (Some [RecordLine row_dora]), admin, 10, 10);
               (CallResidentsGet 1, viewer, 11, 11)]
              sample_store Hb Hk) as (entries & Ha & Hr & _).
  exists entries. split; [exact Ha|exact Hr].
Defined.

(** ** The audit listing *)

#[global] Instance newest_first_total : Total newest_first.
Proof. intros a b. unfold newest_first. lia. Qed.

#[global] Instance newest_first_trans : Transitive newest_first.
Proof. intros a b c. unfold newest_first. lia. Qed.

Lemma audit_rows_entries (t : Store) : (audit_rows t).*2 = audit_log t.
Proof.
  unfold audit_rows.
  assert (H : ∀ (f : nat → Z) (l : list AuditEntry.t),
            (imap (λ i e, (f i, e)) l).*2 = l).
  { intros f l. revert f. induction l as [|e l IH]; intros f; [done|].
    cbn. f_equal. apply (IH (f ∘ S)). }
  apply (H (λ i, Z.of_nat i + 1)).
Qed.

Lemma audit_where_entry (ilike : string → string → bool)
    (action actor_email entity_type : option string)
    (row : Z * AuditEntry.t) :
  audit_where ilike action actor_email entity_type row
  = audit_match ilike action actor_email entity_type row.2.
Proof. done. Qed.

Lemma audit_selected_length (ilike : string → string → bool)
    (action actor_email entity_type : option string) (t : Store) :
  length (audit_selected ilike action actor_email entity_type t)
  = length (filter (λ e, audit_match ilike action actor_email entity_type e
                         = true) (audit_log t)).
Proof.
  unfold audit_selected. rewrite merge_sort_Permutation.
  rewrite <- (audit_rows_entries t).
  symmetry.
  exact (filter_snd_length
           (λ e, audit_match ilike action actor_email entity_type e = true)
           (audit_rows t)).
Qed.

Lemma audit_match_filters (ilike : string → string → bool)
    (action actor_email entity_type : option string) (e : AuditEntry.t) :
  audit_match ilike action actor_email entity_type e = true →
  (∀ a, in_force action a → AuditEntry.action e = a)
  ∧ (∀ x, in_force actor_email x →
       ∃ m, AuditEntry.actor_email e = Some m
            ∧ ilike m ("%" +:+ x +:+ "%") = true)
  ∧ (∀ ty, in_force entity_type ty → AuditEntry.entity_type e = Some ty).
Proof.
  unfold audit_match, audit_where. rewrite !andb_true_iff.
  intros [[Ha Hm] Ht]. split_and!.
  - intros a Hi. rewrite (given_in_force _ _ _ Hi) in Ha.
    by apply bool_decide_eq_true in Ha.
  - intros x Hi. rewrite (given_in_force _ _ _ Hi) in Hm. cbn in Hm.
    destruct (AuditEntry.actor_email e) as [m|]; [|done]. by exists m.
  - intros ty Hi. rewrite (given_in_force _ _ _ Hi) in Ht.
    by apply bool_decide_eq_true in Ht.
Qed.

(** X17: with a limit and an offset that are not negative,
    [list_audit_log] returns and writes nothing; its total is the number of
    entries of the log that the filters select; the page has
    min(limit, total - offset) entries, newest first; every entry of the
    page is an entry of the log and agrees with each filter in force, and
    an entry without actor is never selected by an actor filter; and the
    first page, when the limit reaches the total, has every entry that
    the filters select. *)
Theorem list_audit_log_page (ilike : string → string → bool)
    (action actor_email entity_type : option string) (limit offset : Z)
    (s : Session) :
  0 ≤ limit → 0 ≤ offset →
  ∃ items total,
    list_audit_log ilike action actor_email entity_type limit offset s
    = (Returned (items, total), s)
    ∧ total
      = Z.of_nat
          (length
             (filter (λ e, audit_match ilike action actor_email entity_type e
                           = true) (audit_log (txn s))))
    ∧ Z.of_nat (length items) = Z.max 0 (Z.min limit (total - offset))
    ∧ StronglySorted
        (λ a b, AuditEntry.created_at b.2 ≤ AuditEntry.created_at a.2) items
    ∧ (∀ row, row ∈ items →
         row.2 ∈ audit_log (txn s)
         ∧ (∀ a, in_force action a → AuditEntry.action row.2 = a)
         ∧ (∀ x, in_force actor_email x →
              ∃ m, AuditEntry.actor_email row.2 = Some m
                   ∧ ilike m ("%" +:+ x +:+ "%") = true)
         ∧ (∀ ty, in_force entity_type ty →
              AuditEntry.entity_type row.2 = Some ty))
    ∧ (offset = 0 → total ≤ limit →
       ∀ e, e ∈ audit_log (txn s) →
         audit_match ilike action actor_email entity_type e = true →
         e ∈ items.*2).
Proof.
  intros Hl Ho. unfold list_audit_log.
  replace (limit <? 0) with false by (symmetry; by apply Z.ltb_ge).
  replace (offset <? 0) with false by (symmetry; by apply Z.ltb_ge).
  cbn [orb]. eexists _, _. split; [reflexivity|].
  set (rows := audit_selected ilike action actor_email entity_type (txn s)).
  pose proof (audit_selected_length ilike action actor_email entity_type
                (txn s)) as Hlen.
  fold rows in Hlen.
  assert (Hrows : ∀ row, row ∈ rows ↔
            row ∈ audit_rows (txn s)
            ∧ audit_match ilike action actor_email entity_type row.2 = true).
  { intros row. unfold rows, audit_selected.
    rewrite merge_sort_Permutation, list_elem_of_filter.
    rewrite audit_where_entry. tauto. }
  split_and!.
  - by rewrite Hlen.
  - rewrite length_take, length_drop. lia.
  - apply page_sorted. unfold rows, audit_selected.
    apply (StronglySorted_merge_sort newest_first).
  - intros row Hr.
    assert (Hin : row ∈ rows).
    { eapply elem_of_sublist; [exact Hr|].
      etrans; [apply sublist_take|apply sublist_drop]. }
    apply Hrows in Hin as [Hin Hm]. split.
    + rewrite <- (audit_rows_entries (txn s)). by apply list_elem_of_fmap_2.
    + by apply audit_match_filters in Hm.
  - intros -> Ht e He Hm. change (Z.to_nat 0) with 0%nat.
    rewrite drop_0, take_ge by lia.
    rewrite <- (audit_rows_entries (txn s)) in He.
    apply list_elem_of_fmap in He as (row & -> & Hrow).
    apply list_elem_of_fmap_2. apply Hrows. by split.
Qed.

Lemma list_audit_log_page_witness :
  ∃ items total,
    list_audit_log (λ _ _, true) (Some "CREATE_RESIDENT") None None 10 0
      sample_audit_session
    = (Returned (items, total), sample_audit_session)
    ∧ total = 2
    ∧ Z.of_nat (length items) = 2.
Proof.
  destruct (list_audit_log_page (λ _ _, true) (Some "CREATE_RESIDENT") None
              None 10 0 sample_audit_session)
    as (items & total & Hr & Ht & Hn & _); [lia|lia|].
  exists items, total. split; [exact Hr|].
  assert (Ht' : total = 2) by (rewrite Ht; vm_compute; reflexivity).
  split; [exact Ht'|]. rewrite Hn, Ht'. reflexivity.
Defined.

(** ** Authentication *)

Lemma role_names_spec (db : AuthDb) (uid : Z) (name : string) :
  name ∈ role_names db uid ↔ has_role db uid name.
Proof.
  unfold role_names, has_role. rewrite list_elem_of_bind. split.
  - intros (ur & Hn & Hur). case_bool_decide as Hu; [|by inv Hn].
    apply list_elem_of_bind in Hn as (r & Hn & Hr).
    case_bool_decide as Hid; [|by inv Hn].
    apply list_elem_of_singleton in Hn as ->. by exists ur, r.
  - intros (ur & r & Hur & Hr & Hu & Hid & Hn). exists ur. split; [|done].
    rewrite bool_decide_eq_true_2 by done.
    apply list_elem_of_bind. exists r. split; [|done].
    rewrite bool_decide_eq_true_2 by done. by apply list_elem_of_singleton.
Qed.

Lemma find_unique {A B} `{EqDecision B} (f : A → B) (l : list A) (b : B)
    (x : A) :
  NoDup (f <$> l) → x ∈ l → f x = b →
  ∃ i, list_find (λ y, f y = b) l = Some (i, x).
Proof.
  intros Hnd Hx Hb.
  destruct (list_find_elem_of (λ y, f y = b) l x Hx Hb) as [[i y] Hf].
  exists i. rewrite Hf. do 2 f_equal.
  apply list_find_Some in Hf as (Hi & Hy & _).
  apply list_elem_of_lookup in Hx as [j Hj].
  assert (i = j).
  { eapply (NoDup_lookup (f <$> l)); [done| |].
    - by rewrite list_lookup_fmap, Hi.
    - rewrite list_lookup_fmap, Hj. cbn. congruence. }
  subst j. congruence.
Qed.

(** X18: whom [authenticate_user] lets in.  When no two users share an
    email, it returns a user exactly when the table has a row with that
    email that is active and whose hash matches the password; the user has
    the id, email and name of the row, and its roles are exactly the role
    names that [user_roles] links to the id.  For an unknown email, an
    inactive user or a wrong password it returns nothing. *)
Theorem authenticate_user_iff (checkpw : string → string → bool)
    (db : AuthDb) (email password : string) (user : CurrentUser.t) :
  NoDup (UserRow.email <$> users db) →
  (authenticate_user checkpw db email password = Some user
   ↔ ∃ row, row ∈ users db
       ∧ UserRow.email row = email
       ∧ UserRow.is_active row = true
       ∧ checkpw password (UserRow.password_hash row) = true
       ∧ user = user_of_row row (CurrentUser.roles user)
       ∧ CurrentUser.roles user = role_names db (UserRow.id row))
  ∧ (∀ name, name ∈ role_names db (CurrentUser.id user)
             ↔ has_role db (CurrentUser.id user) name).
Proof.
  intros Hnd. split; [|intros name; apply role_names_spec].
  unfold authenticate_user, _hash_matches. split.
  - destruct (list_find _ _) as [[i row]|] eqn:Hf; [|done].
    apply list_find_Some in Hf as (Hi & He & _).
    destruct (UserRow.is_active row) eqn:Ha; [|done]. cbn [negb].
    destruct (checkpw password _) eqn:Hp; [|done]. cbn [negb].
    intros [= <-]. exists row. split_and!; try done.
    by eapply list_elem_of_lookup_2.
  - intros (row & Hin & He & Ha & Hp & Hu & Hr).
    destruct (find_unique UserRow.email (users db) email row Hnd Hin He)
      as [i ->].
    rewrite Ha, Hp. cbn [negb]. rewrite Hu, Hr. done.
Qed.

Lemma authenticate_user_iff_witness :
  NoDup (UserRow.email <$> users sample_auth_db)
  ∧ authenticate_user sample_checkpw sample_auth_db "admin@example.org" "a"
    = Some admin
  ∧ authenticate_user sample_checkpw sample_auth_db "old@example.org" "b"
    = None.
Proof.
  assert (Hnd : NoDup (UserRow.email <$> users sample_auth_db))
    by compute_done.
  split; [exact Hnd|]. split.
  - apply (authenticate_user_iff sample_checkpw sample_auth_db
             "admin@example.org" "a" admin Hnd).
    exists (UserRow.mk 1 "admin@example.org" None "hash-a" true).
    split_and!; [constructor|reflexivity..].
  - reflexivity.
Defined.

(** X19: whom [get_current_user] lets in, and how it refuses.  A user is
    returned only for a token that is not empty and that the library
    decodes, with a subject that reads as the id of an active row of
    [users]; the user has the id, email and name of that row and the roles
    that the token carries, none when it carries none; every refusal with a
    status is a 401; and a [TypeError] or [ValueError] comes only from a
    decoded token whose subject is missing or is not an integer.
    Conversely: without credentials or with an empty token the answer is
    401 "Missing bearer token"; for a token that the library does not
    decode, 401 "Invalid or expired token"; for a decoded token without
    subject, the [TypeError] of [int(None)]; for a subject that is not an
    integer, the [ValueError] of [int]; for a subject that is the id of no
    user, 401 "User inactive"; and, ids being unique, for the id of a row
    of [users], that user when the row is active and 401 "User inactive"
    when it is not. *)
Theorem get_current_user_outcomes
    (jwt_decode : string → string → string → string → option Claims.t)
    (settings : AppSettings.t) (creds : option string) (db : AuthDb) :
  let decode token :=
    jwt_decode token (AppSettings.jwt_secret settings)
      (AppSettings.jwt_audience settings) (AppSettings.jwt_issuer settings) in
  let answer := get_current_user jwt_decode settings creds db in
  match answer with
  | inr user =>
      ∃ token payload sub row,
        creds = Some token ∧ token ≠ ""
        ∧ decode token = Some payload
        ∧ Claims.sub payload = Some sub
        ∧ PyText.int sub = Some (UserRow.id row)
        ∧ row ∈ users db
        ∧ UserRow.is_active row = true
        ∧ user = user_of_row row (default [] (Claims.roles payload))
  | inl (AuthHTTP status_code detail) =>
      status_code = 401
      ∧ (creds = None ∨ creds = Some "" → detail = "Missing bearer token")
  | inl _ =>
      ∃ token payload,
        creds = Some token
        ∧ decode token = Some payload
        ∧ (Claims.sub payload ≫= PyText.int) = None
  end
  ∧ (creds = None ∨ creds = Some "" →
     answer = inl (AuthHTTP 401 "Missing bearer token"))
  ∧ (∀ token, creds = Some token → token ≠ "" →
       (decode token = None →
        answer = inl (AuthHTTP 401 "Invalid or expired token"))
       ∧ (∀ payload, decode token = Some payload →
            (Claims.sub payload = None →
             answer
             = inl (AuthTypeError "int() argument must be a string, a bytes-like object or a real number, not 'NoneType'"))
            ∧ (∀ sub, Claims.sub payload = Some sub →
                 (PyText.int sub = None →
                  answer
                  = inl (AuthValueError
                           ("invalid literal for int() with base 10: "
                            +:+ PyText.repr sub)))
                 ∧ (∀ uid, PyText.int sub = Some uid →
                      ((∀ row, row ∈ users db → UserRow.id row ≠ uid) →
                       answer = inl (AuthHTTP 401 "User inactive"))
                      ∧ (∀ row,
                           NoDup (UserRow.id <$> users db) →
                           row ∈ users db → UserRow.id row = uid →
                           answer
                           = if UserRow.is_active row
                             then inr (user_of_row row
                                         (default [] (Claims.roles payload)))
                             else inl (AuthHTTP 401 "User inactive")))))).
Proof.
  intros decode answer. split_and!.
  - subst answer decode. unfold get_current_user, _get_user_from_token.
    destruct creds as [token|]; [|by split; [|intros _]].
    destruct (PyStr.truthy token) eqn:Ht; cbn [negb];
      [|by split; [|intros _]].
    apply truthy_true in Ht.
    destruct (jwt_decode _ _ _ _) as [payload|] eqn:Hd.
    2:{ split; [done|]. intros [?|[= ->]]; done. }
    destruct (Claims.sub payload) as [sub|] eqn:Hs.
    2:{ exists token, payload. by rewrite Hs. }
    destruct (PyText.int sub) as [uid|] eqn:Hi.
    2:{ exists token, payload. rewrite Hs. by split_and!. }
    destruct (list_find _ _) as [[i row]|] eqn:Hf.
    2:{ split; [done|]. intros [?|[= ->]]; done. }
    apply list_find_Some in Hf as (Hrow & Hid & _).
    destruct (UserRow.is_active row) eqn:Ha; cbn [negb].
    2:{ split; [done|]. intros [?|[= ->]]; done. }
    subst uid. exists token, payload, sub, row.
    split_and!; try done. by eapply list_elem_of_lookup_2.
  - subst answer. by intros [->| ->].
  - intros token -> Hne. subst answer decode.
    unfold get_current_user, _get_user_from_token.
    rewrite (truthy_ne _ Hne). cbn [negb]. split; [by intros ->|].
    intros payload ->. split; [by intros ->|].
    intros sub ->. split; [by intros ->|].
    intros uid ->. split.
    + intros Hnone.
      assert (Hf : list_find (λ u, UserRow.id u = uid) (users db) = None).
      { apply list_find_None, Forall_forall. exact Hnone. }
      by rewrite Hf.
    + intros row Hnd Hin Hid.
      destruct (find_unique UserRow.id (users db) uid row Hnd Hin Hid)
        as [i ->].
      by destruct (UserRow.is_active row).
Qed.

(** X19 on the sample users: each way in which a request is refused, and
    the way in. *)
Lemma get_current_user_outcomes_witness :
  get_current_user sample_odd_decode sample_app_settings None sample_auth_db
  = inl (AuthHTTP 401 "Missing bearer token")
  ∧ get_current_user sample_odd_decode sample_app_settings (Some "")
      sample_auth_db
    = inl (AuthHTTP 401 "Missing bearer token")
  ∧ get_current_user sample_odd_decode sample_app_settings (Some "garbage")
      sample_auth_db
    = inl (AuthHTTP 401 "Invalid or expired token")
  ∧ get_current_user sample_odd_decode sample_app_settings (Some "no-subject")
      sample_auth_db
    = inl (AuthTypeError "int() argument must be a string, a bytes-like object or a real number, not 'NoneType'")
  ∧ get_current_user sample_odd_decode sample_app_settings
      (Some "bad-subject") sample_auth_db
    = inl (AuthValueError "invalid literal for int() with base 10: 'seven'")
  ∧ get_current_user sample_odd_decode sample_app_settings (Some "token-of-9")
      sample_auth_db
    = inl (AuthHTTP 401 "User inactive")
  ∧ get_current_user sample_odd_decode sample_app_settings (Some "token-of-2")
      sample_auth_db
    = inl (AuthHTTP 401 "User inactive")
  ∧ get_current_user sample_odd_decode sample_app_settings (Some "token-of-1")
      sample_auth_db
    = inr admin.
Proof.
  assert (Hnd : NoDup (UserRow.id <$> users sample_auth_db)) by compute_done.
  pose proof (λ creds, get_current_user_outcomes sample_odd_decode
                         sample_app_settings creds sample_auth_db) as Hall.
  cbv zeta in Hall.
  split_and!.
  - destruct (Hall None) as (_ & Hm & _). apply Hm. by left.
  - destruct (Hall (Some "")) as (_ & Hm & _). apply Hm. by right.
  - destruct (Hall (Some "garbage")) as (_ & _ & H).
    destruct (H "garbage" eq_refl) as [Hd _]; [done|].
    by apply Hd.
  - destruct (Hall (Some "no-subject")) as (_ & _ & H).
    destruct (H "no-subject" eq_refl) as [_ Hp]; [done|].
    by apply (Hp _ eq_refl).
  - destruct (Hall (Some "bad-subject")) as (_ & _ & H).
    destruct (H "bad-subject" eq_refl) as [_ Hp]; [done|].
    destruct (Hp _ eq_refl) as [_ Hs].
    by apply (Hs "seven" eq_refl).
  - destruct (Hall (Some "token-of-9")) as (_ & _ & H).
    destruct (H "token-of-9" eq_refl) as [_ Hp]; [done|].
    destruct (Hp _ eq_refl) as [_ Hs].
    destruct (Hs "9" eq_refl) as [_ Hu].
    destruct (Hu 9 eq_refl) as [Hgone _]. apply Hgone.
    intros row Hrow. repeat (apply elem_of_cons in Hrow as [->|Hrow]; [done|]).
    by apply elem_of_nil in Hrow.
  - destruct (Hall (Some "token-of-2")) as (_ & _ & H).
    destruct (H "token-of-2" eq_refl) as [_ Hp]; [done|].
    destruct (Hp _ eq_refl) as [_ Hs].
    destruct (Hs "2" eq_refl) as [_ Hu].
    destruct (Hu 2 eq_refl) as [_ Hrow].
    apply (Hrow (UserRow.mk 2 "old@example.org" None "hash-b" false));
      [exact Hnd| |reflexivity].
    apply elem_of_cons. right. apply elem_of_cons. by left.
  - destruct (Hall (Some "token-of-1")) as (_ & _ & H).
    destruct (H "token-of-1" eq_refl) as [_ Hp]; [done|].
    destruct (Hp _ eq_refl) as [_ Hs].
    destruct (Hs "1" eq_refl) as [_ Hu].
    destruct (Hu 1 eq_refl) as [_ Hrow].
    apply (Hrow (UserRow.mk 1 "admin@example.org" None "hash-a" true));
      [exact Hnd| |reflexivity].
    apply elem_of_cons. by left.
Defined.

(** X20: a token issued at login is accepted.  When no two users share an
    email or an id, and the library decodes the issued token to the
    payload it was made from, the user that [authenticate_user] returned
    is the user that [get_current_user] returns for the token, roles
    included; the token expires [jwt_exp_minutes] minutes after the first
    reading of the clock. *)
Theorem issued_token_accepted (checkpw : string → string → bool)
    (jwt_encode : Claims.t → string → string)
    (jwt_decode : string → string → string → string → option Claims.t)
    (settings : AppSettings.t) (db : AuthDb) (email password : string)
    (user : CurrentUser.t) (now now' : Time) :
  let issued := issue_token_for_user jwt_encode settings user now now' in
  NoDup (UserRow.id <$> users db) →
  authenticate_user checkpw db email password = Some user →
  issued.1 ≠ "" →
  jwt_decode issued.1 (AppSettings.jwt_secret settings)
    (AppSettings.jwt_audience settings) (AppSettings.jwt_issuer settings)
  = Some (issued_payload settings user now now') →
  get_current_user jwt_decode settings (Some issued.1) db = inr user
  ∧ issued.2 = now + 60 * AppSettings.jwt_exp_minutes settings.
Proof.
  intros issued Hnd Hauth Hne Hdec. split; [|done].
  unfold get_current_user, _get_user_from_token.
  rewrite (truthy_ne _ Hne). cbn [negb]. rewrite Hdec.
  cbn [issued_payload Claims.sub Claims.roles default].
  unfold PyText.int. rewrite strip_str_int, int_str_int.
  unfold authenticate_user, _hash_matches in Hauth.
  destruct (list_find _ (users db)) as [[i row]|] eqn:Hf; [|done].
  apply list_find_Some in Hf as (Hi & He & _).
  destruct (UserRow.is_active row) eqn:Ha; [|done]. cbn [negb] in Hauth.
  destruct (checkpw password _); [|done]. cbn [negb] in Hauth.
  injection Hauth as <-. cbn [CurrentUser.id CurrentUser.roles].
  destruct (find_unique UserRow.id (users db) (UserRow.id row) row Hnd)
    as [j ->]; [by eapply list_elem_of_lookup_2|done|].
  by rewrite Ha.
Qed.

Lemma issued_token_accepted_witness :
  NoDup (UserRow.id <$> users sample_auth_db)
  ∧ authenticate_user sample_checkpw sample_auth_db "admin@example.org" "a"
    = Some admin
  ∧ get_current_user sample_jwt_decode sample_app_settings
      (Some (issue_token_for_user sample_jwt_encode sample_app_settings
               admin 100 100).1) sample_auth_db
    = inr admin.
Proof.
  assert (Hnd : NoDup (UserRow.id <$> users sample_auth_db)) by compute_done.
  split; [exact Hnd|]. split; [reflexivity|].
  apply (issued_token_accepted sample_checkpw sample_jwt_encode
           sample_jwt_decode sample_app_settings sample_auth_db
           "admin@example.org" "a" admin 100 100 Hnd);
    [reflexivity|discriminate|reflexivity].
Defined.
